(** * gitlab-tools: the per-project merge-request reconciliation

    A shallow embedding of [internal/gitlab/types.go] (the data model, the
    draft predicate and the change predicate), of [internal/bulkmr/service.go]
    (the reconciliation engine), of the in-memory client of
    [internal/bulkmr/service_test.go] and of the table of
    [internal/gitlab/types_test.go], followed by the properties the
    specification states about them.  A second part embeds the client of
    [internal/gitlab/client.go], over the HTTP, URL and JSON packages taken
    as parameters, and the commands of [cmd/gitlab-tools/main.go], followed
    by further properties of the code.

    Conventions.
    - A Go [int] is a [Z]; the only arithmetic the engine does on one is the
      [++] of a summary counter, whose 64-bit wrap-around is written out.
    - A Go [string] is a [string] of bytes.
    - A Go [error] is [option string]: [None] is [nil], [Some m] an error
      whose [Error()] text is [m].
    - A pointer result ([*Project], [*Compare], [*MergeRequest]) is an
      [option]: [None] is the nil pointer, and reading a field through it
      panics.
    - The engine talks to the hosting platform through the [GitLabClient]
      interface.  A method of the engine is a function from the service it
      is called on to its outcome (a value, or a panic), the service
      afterwards and its trace: every call of the client with what it
      answered, and every line handed to [log.Printf], oldest first.  The
      properties are stated on the outcome and the trace of a run. *)

From Stdlib Require Import ZArith String Ascii List Bool Lia.
From stdpp Require Import base strings gmap list pretty.

Open Scope Z_scope.

(** ** Go's [strings] package, as far as the draft predicate uses it *)

Module GoStrings.

(** Go's [strings.TrimSpace] and [strings.ToLower] have a byte-wise fast path
    for ASCII and fall back to the Unicode tables of the standard library as
    soon as they meet a byte [>= utf8.RuneSelf].  The tables are not part of
    this repository: the three fallbacks are parameters. *)
Class UnicodeTables := {
  (** [strings.TrimFunc(s, unicode.IsSpace)] *)
  TrimFunc_IsSpace : string -> string;
  (** [strings.TrimRightFunc(s, unicode.IsSpace)] *)
  TrimRightFunc_IsSpace : string -> string;
  (** [strings.Map(unicode.ToLower, s)] *)
  Map_ToLower : string -> string
}.

(** [c >= utf8.RuneSelf] *)
Definition nonASCII (c : ascii) : bool := (128 <=? N_of_ascii c)%N.

(** The table [asciiSpace]: tab, line feed, vertical tab, form feed,
    carriage return and space. *)
Definition asciiSpace (c : ascii) : bool :=
  let n := N_of_ascii c in
  ((9 <=? n) && (n <=? 13) || (n =? 32))%N.

(** The first loop of [TrimSpace]: skip ASCII spaces from the front.  The
    boolean says that a non-ASCII byte was met, in which case the string left
    is handed to [TrimFunc]. *)
Fixpoint trimStart (s : string) : bool * string :=
  match s with
  | EmptyString => (false, EmptyString)
  | String c rest =>
      if nonASCII c then (true, s)
      else if asciiSpace c then trimStart rest
      else (false, s)
  end.

(** The second loop of [TrimSpace]: skip ASCII spaces from the back.  The
    boolean says that a non-ASCII byte was met, in which case the string left
    is handed to [TrimRightFunc]. *)
Fixpoint trimStop (s : string) : bool * string :=
  match s with
  | EmptyString => (false, EmptyString)
  | String c rest =>
      match trimStop rest with
      | (false, EmptyString) =>
          if nonASCII c then (true, String c EmptyString)
          else if asciiSpace c then (false, EmptyString)
          else (false, String c EmptyString)
      | (fallback, kept) => (fallback, String c kept)
      end
  end.

Definition TrimSpace `{UnicodeTables} (s : string) : string :=
  match trimStart s with
  | (true, rest) => TrimFunc_IsSpace rest
  | (false, rest) =>
      match trimStop rest with
      | (true, kept) => TrimRightFunc_IsSpace kept
      | (false, kept) => kept
      end
  end.

Definition isUpper (c : ascii) : bool :=
  let n := N_of_ascii c in ((65 <=? n) && (n <=? 90))%N.

(** [c += 'a' - 'A'] on an upper-case ASCII letter. *)
Definition lowerByte (c : ascii) : ascii :=
  if isUpper c then ascii_of_N (N_of_ascii c + 32) else c.

Fixpoint allASCII (s : string) : bool :=
  match s with
  | EmptyString => true
  | String c rest => negb (nonASCII c) && allASCII rest
  end.

Fixpoint hasUpper (s : string) : bool :=
  match s with
  | EmptyString => false
  | String c rest => isUpper c || hasUpper rest
  end.

Fixpoint mapBytes (f : ascii -> ascii) (s : string) : string :=
  match s with
  | EmptyString => EmptyString
  | String c rest => String (f c) (mapBytes f rest)
  end.

Definition ToLower `{UnicodeTables} (s : string) : string :=
  if allASCII s then
    if negb (hasUpper s) then s else mapBytes lowerByte s
  else Map_ToLower s.

(** [len(s) >= len(prefix) && s[:len(prefix)] == prefix] *)
Definition HasPrefix (s pre : string) : bool := String.prefix pre s.

(** Tables for runs on ASCII input, where no fallback is ever reached. *)
Definition asciiOnly : UnicodeTables :=
  {| TrimFunc_IsSpace := fun s => s;
     TrimRightFunc_IsSpace := fun s => s;
     Map_ToLower := fun s => s |}.

End GoStrings.

(** ** [internal/gitlab/types.go] *)

Module gitlab.

Module Project.
Record t := mk {
  ID : Z;
  Name : string;
  PathWithNamespace : string;
  WebURL : string;
  Description : string;
  Topics : list string
}.
End Project.

Module MergeRequest.
Record t := mk {
  ID : Z;
  IID : Z;
  Title : string;
  WebURL : string;
  State : string;
  Draft : bool;
  SourceBranch : string;
  TargetBranch : string;
  ProjectID : Z
}.

Definition IsDraft `{GoStrings.UnicodeTables} (mr : t) : bool :=
  if Draft mr then true
  else
    let titleLower := GoStrings.ToLower (GoStrings.TrimSpace (Title mr)) in
    GoStrings.HasPrefix titleLower "draft:"
    || GoStrings.HasPrefix titleLower "wip:".
End MergeRequest.

Module Commit.
Record t := mk {
  ID : string;
  ShortID : string;
  Title : string
}.
End Commit.

Module Diff.
Record t := mk {
  OldPath : string;
  NewPath : string;
  AMode : string;
  BMode : string;
  NewFile : bool;
  RenamedFile : bool;
  DeletedFile : bool
}.
End Diff.

Module Compare.
Record t := mk {
  Commit : Commit.t;
  Commits : list Commit.t;
  Diffs : list Diff.t
}.

(** [len(c.Commits) > 0] *)
Definition HasChanges (c : t) : bool := 0 <? Z.of_nat (length (Commits c)).
End Compare.

End gitlab.

(** ** [internal/bulkmr/service.go] *)

Module bulkmr.

Import GoStrings.
Import gitlab.

(** [nil], or an error with its [Error()] text. *)
Definition error := option string.

(** The interface [GitLabClient].  The implementing type [C] is the receiver:
    a call answers and leaves the client (and the platform behind it) in a
    new state. *)
Class GitLabClient (C : Type) := {
  GetProject : string -> C -> option Project.t * error * C;
  BranchExists : Z -> string -> C -> bool * error * C;
  CompareBranches : Z -> string -> string -> C -> option Compare.t * error * C;
  FindOpenMergeRequests :
    Z -> string -> string -> C -> list MergeRequest.t * error * C;
  CreateMergeRequest :
    Z -> string -> string -> string -> string -> C ->
    option MergeRequest.t * error * C
}.

Record Config := mkConfig {
  OriginBranch : string;
  TargetBranch : string;
  Projects : list string;
  Verbose : bool
}.

Definition ResultStatus := string.

Definition StatusCreated : ResultStatus := "CREATED".
Definition StatusSkippedExists : ResultStatus := "SKIPPED_EXISTS".
Definition StatusSkippedDraft : ResultStatus := "SKIPPED_DRAFT".
Definition StatusSkippedBranch : ResultStatus := "SKIPPED_NO_BRANCH".
Definition StatusSkippedNoChange : ResultStatus := "SKIPPED_NO_CHANGE".
Definition StatusError : ResultStatus := "ERROR".

Record ProjectResult := mkProjectResult {
  Project : string;
  Status : ResultStatus;
  MergeRequestID : Z;
  MergeRequestIID : Z;
  MergeRequestURL : string;
  ErrorMessage : string;
  Details : string
}.

Record Summary := mkSummary {
  Total : Z;
  Created : Z;
  SkippedExists : Z;
  SkippedDraft : Z;
  SkippedBranch : Z;
  SkippedNoChange : Z;
  Errors : Z
}.

Record Service (C : Type) := mkService {
  client : C;
  config : Config
}.
Arguments mkService {C} _ _.
Arguments client {C} _.
Arguments config {C} _.

Definition NewService {C : Type} (client : C) (config : Config) : Service C :=
  {| client := client; config := config |}.

(** *** Assignments to the fields of a result *)

Definition setStatus (v : ResultStatus) (r : ProjectResult) : ProjectResult :=
  mkProjectResult (Project r) v (MergeRequestID r) (MergeRequestIID r)
    (MergeRequestURL r) (ErrorMessage r) (Details r).
Definition setMergeRequestID (v : Z) (r : ProjectResult) : ProjectResult :=
  mkProjectResult (Project r) (Status r) v (MergeRequestIID r)
    (MergeRequestURL r) (ErrorMessage r) (Details r).
Definition setMergeRequestIID (v : Z) (r : ProjectResult) : ProjectResult :=
  mkProjectResult (Project r) (Status r) (MergeRequestID r) v
    (MergeRequestURL r) (ErrorMessage r) (Details r).
Definition setMergeRequestURL (v : string) (r : ProjectResult) : ProjectResult :=
  mkProjectResult (Project r) (Status r) (MergeRequestID r) (MergeRequestIID r)
    v (ErrorMessage r) (Details r).
Definition setErrorMessage (v : string) (r : ProjectResult) : ProjectResult :=
  mkProjectResult (Project r) (Status r) (MergeRequestID r) (MergeRequestIID r)
    (MergeRequestURL r) v (Details r).
Definition setDetails (v : string) (r : ProjectResult) : ProjectResult :=
  mkProjectResult (Project r) (Status r) (MergeRequestID r) (MergeRequestIID r)
    (MergeRequestURL r) (ErrorMessage r) v.

(** *** 64-bit integers *)

Definition maxInt : Z := 2 ^ 63 - 1.

(** The value a 64-bit signed integer holds after an operation whose exact
    result is [z]. *)
Definition wrap (z : Z) : Z := (z + 2 ^ 63) mod 2 ^ 64 - 2 ^ 63.

(** [x++] *)
Definition incr (x : Z) : Z := wrap (x + 1).

(** [len(l)] *)
Definition len {A : Type} (l : list A) : Z := Z.of_nat (length l).

(** The verb [%d] of [fmt.Sprintf]. *)
Definition fmt_d (n : Z) : string := pretty n.

(** The line feed of a Go string literal. *)
Definition LF : string := String (ascii_of_N 10) EmptyString.

(** *** Runs: state, trace and panics *)

(** What a run did to the world: each call of the client with its arguments
    and its answer, and each line handed to [log.Printf]. *)
Inductive Event :=
| CallGetProject (projectPath : string)
    (project : option Project.t) (err : error)
| CallBranchExists (projectID : Z) (branch : string)
    (found : bool) (err : error)
| CallCompareBranches (projectID : Z) (sourceBranch targetBranch : string)
    (compare : option Compare.t) (err : error)
| CallFindOpenMergeRequests (projectID : Z) (sourceBranch targetBranch : string)
    (mrs : list MergeRequest.t) (err : error)
| CallCreateMergeRequest (projectID : Z)
    (sourceBranch targetBranch title description : string)
    (mr : option MergeRequest.t) (err : error)
| LogPrintf (line : string).

(** How a method ends: it returns a value, or the runtime panics on a nil
    pointer dereference. *)
Inductive outcome (A : Type) :=
| Returned (a : A)
| Panicked.
Arguments Returned {A} _.
Arguments Panicked {A}.

Section Engine.

Context `{UnicodeTables} {C : Type} `{GitLabClient C}.

(** A method of [*Service]: from the service it is called on to its outcome,
    the service afterwards and the events of the call, oldest first. *)
Definition M (A : Type) : Type :=
  Service C -> outcome A * Service C * list Event.

Definition ret {A : Type} (a : A) : M A := fun s => (Returned a, s, []).

Definition bind {A B : Type} (m : M A) (k : A -> M B) : M B :=
  fun s =>
    match m s with
    | (Returned a, s1, t1) =>
        match k a s1 with
        | (o, s2, t2) => (o, s2, t1 ++ t2)
        end
    | (Panicked, s1, t1) => (Panicked, s1, t1)
    end.

Notation "'let*' x := m 'in' k" := (bind m (fun x => k))
  (at level 10, x pattern, m at level 100, k at level 200).

(** Reading a field through a pointer. *)
Definition deref {A : Type} (p : option A) : M A :=
  fun s =>
    match p with
    | Some a => (Returned a, s, [])
    | None => (Panicked, s, [])
    end.

(** [s.config] *)
Definition getConfig : M Config := fun s => (Returned (config s), s, []).

(** [log.Printf] *)
Definition logPrintf (line : string) : M unit :=
  fun s => (Returned tt, s, [LogPrintf line]).

(** [if cond { body }] *)
Definition when (cond : bool) (body : M unit) : M unit :=
  if cond then body else ret tt.

(** [s.client.GetProject(projectPath)] and the four other calls. *)
Definition callGetProject (projectPath : string)
  : M (option Project.t * error) :=
  fun s =>
    match GetProject projectPath (client s) with
    | (project, err, c) =>
        (Returned (project, err), mkService c (config s),
         [CallGetProject projectPath project err])
    end.

Definition callBranchExists (projectID : Z) (branch : string)
  : M (bool * error) :=
  fun s =>
    match BranchExists projectID branch (client s) with
    | (found, err, c) =>
        (Returned (found, err), mkService c (config s),
         [CallBranchExists projectID branch found err])
    end.

Definition callCompareBranches (projectID : Z) (sourceBranch targetBranch : string)
  : M (option Compare.t * error) :=
  fun s =>
    match CompareBranches projectID sourceBranch targetBranch (client s) with
    | (compare, err, c) =>
        (Returned (compare, err), mkService c (config s),
         [CallCompareBranches projectID sourceBranch targetBranch compare err])
    end.

Definition callFindOpenMergeRequests
  (projectID : Z) (sourceBranch targetBranch : string)
  : M (list MergeRequest.t * error) :=
  fun s =>
    match FindOpenMergeRequests projectID sourceBranch targetBranch (client s) with
    | (mrs, err, c) =>
        (Returned (mrs, err), mkService c (config s),
         [CallFindOpenMergeRequests projectID sourceBranch targetBranch mrs err])
    end.

Definition callCreateMergeRequest
  (projectID : Z) (sourceBranch targetBranch title description : string)
  : M (option MergeRequest.t * error) :=
  fun s =>
    match CreateMergeRequest projectID sourceBranch targetBranch
            title description (client s) with
    | (mr, err, c) =>
        (Returned (mr, err), mkService c (config s),
         [CallCreateMergeRequest projectID sourceBranch targetBranch
            title description mr err])
    end.

(** The scan of [existingMRs], lines 152-165: [hasNonDraft], [draftMR] and
    [result] as the loop leaves them.  A non-draft request ends the scan
    ([break]); a draft replaces the one remembered. *)
Fixpoint scanExisting (existingMRs : list MergeRequest.t)
  (hasNonDraft : bool) (draftMR : option MergeRequest.t)
  (result : ProjectResult)
  : bool * option MergeRequest.t * ProjectResult :=
  match existingMRs with
  | [] => (hasNonDraft, draftMR, result)
  | mr :: rest =>
      if negb (MergeRequest.IsDraft mr) then
        let hasNonDraft := true in
        let result := setStatus StatusSkippedExists result in
        let result := setMergeRequestID (MergeRequest.ID mr) result in
        let result := setMergeRequestIID (MergeRequest.IID mr) result in
        let result := setMergeRequestURL (MergeRequest.WebURL mr) result in
        let result :=
          setDetails ("Open MR already exists: !" +:+ fmt_d (MergeRequest.IID mr))
            result in
        (hasNonDraft, draftMR, result)
      else
        let draftMR := Some mr in
        scanExisting rest hasNonDraft draftMR result
  end.

Definition processProject (projectPath : string) : M ProjectResult :=
  let* cfg := getConfig in
  let result := mkProjectResult projectPath EmptyString 0 0
                  EmptyString EmptyString EmptyString in

  let* (project, err) := callGetProject projectPath in
  match err with
  | Some e =>
      let result := setStatus StatusError result in
      let result := setErrorMessage e result in
      ret result
  | None =>

  let* _ := when (Verbose cfg)
    (logPrintf ("[" +:+ projectPath +:+ "] Checking branches...")) in

  let* project := deref project in
  let* (originExists, err) :=
    callBranchExists (Project.ID project) (OriginBranch cfg) in
  match err with
  | Some e =>
      let result := setStatus StatusError result in
      let result :=
        setErrorMessage ("failed to check origin branch: " +:+ e) result in
      ret result
  | None =>

  if negb originExists then
    let result := setStatus StatusSkippedBranch result in
    let result :=
      setDetails ("Origin branch '" +:+ OriginBranch cfg +:+ "' does not exist")
        result in
    ret result
  else

  let* (targetExists, err) :=
    callBranchExists (Project.ID project) (TargetBranch cfg) in
  match err with
  | Some e =>
      let result := setStatus StatusError result in
      let result :=
        setErrorMessage ("failed to check target branch: " +:+ e) result in
      ret result
  | None =>

  if negb targetExists then
    let result := setStatus StatusSkippedBranch result in
    let result :=
      setDetails ("Target branch '" +:+ TargetBranch cfg +:+ "' does not exist")
        result in
    ret result
  else

  let* _ := when (Verbose cfg)
    (logPrintf ("[" +:+ projectPath +:+ "] Checking existing merge requests...")) in

  let* (existingMRs, err) :=
    callFindOpenMergeRequests (Project.ID project)
      (OriginBranch cfg) (TargetBranch cfg) in
  match err with
  | Some e =>
      let result := setStatus StatusError result in
      let result :=
        setErrorMessage ("failed to find existing merge requests: " +:+ e)
          result in
      ret result
  | None =>

  if 0 <? len existingMRs then
    let hasNonDraft := false in
    let draftMR : option MergeRequest.t := None in
    let '(hasNonDraft, draftMR, result) :=
      scanExisting existingMRs hasNonDraft draftMR result in
    let result :=
      match negb hasNonDraft, draftMR with
      | true, Some draftMR =>
          let result := setStatus StatusSkippedDraft result in
          let result := setMergeRequestID (MergeRequest.ID draftMR) result in
          let result := setMergeRequestIID (MergeRequest.IID draftMR) result in
          let result := setMergeRequestURL (MergeRequest.WebURL draftMR) result in
          setDetails ("Draft MR exists: !" +:+ fmt_d (MergeRequest.IID draftMR)
                      +:+ " (" +:+ MergeRequest.Title draftMR +:+ ")") result
      | _, _ => result
      end in
    ret result
  else

  let* _ := when (Verbose cfg)
    (logPrintf ("[" +:+ projectPath +:+ "] Comparing branches...")) in

  let* (compare, err) :=
    callCompareBranches (Project.ID project)
      (OriginBranch cfg) (TargetBranch cfg) in
  match err with
  | Some e =>
      let result := setStatus StatusError result in
      let result :=
        setErrorMessage ("failed to compare branches: " +:+ e) result in
      ret result
  | None =>

  let* compare := deref compare in
  if negb (Compare.HasChanges compare) then
    let result := setStatus StatusSkippedNoChange result in
    let result :=
      setDetails ("No changes between " +:+ OriginBranch cfg
                  +:+ " and " +:+ TargetBranch cfg) result in
    ret result
  else

  let* _ := when (Verbose cfg)
    (logPrintf ("[" +:+ projectPath +:+ "] Found "
                +:+ fmt_d (len (Compare.Commits compare))
                +:+ " commit(s) with changes, creating merge request...")) in

  let title :=
    "Merge " +:+ OriginBranch cfg +:+ " into " +:+ TargetBranch cfg in
  let description :=
    "This merge request was created automatically by gitlab-tools."
    +:+ LF +:+ LF +:+ "**Source Branch**: `" +:+ OriginBranch cfg +:+ "`"
    +:+ LF +:+ "**Target Branch**: `" +:+ TargetBranch cfg +:+ "`" in

  let* (mr, err) :=
    callCreateMergeRequest (Project.ID project)
      (OriginBranch cfg) (TargetBranch cfg) title description in
  match err with
  | Some e =>
      let result := setStatus StatusError result in
      let result :=
        setErrorMessage ("failed to create merge request: " +:+ e) result in
      ret result
  | None =>

  let result := setStatus StatusCreated result in
  let* mr := deref mr in
  let result := setMergeRequestID (MergeRequest.ID mr) result in
  let result := setMergeRequestIID (MergeRequest.IID mr) result in
  let result := setMergeRequestURL (MergeRequest.WebURL mr) result in
  let result :=
    setDetails ("MR !" +:+ fmt_d (MergeRequest.IID mr) +:+ ": "
                +:+ MergeRequest.WebURL mr) result in

  ret result
  end end end end end end.

(** The [switch] on [result.Status], lines 76-89: the first case that equals
    the status has its counter incremented; a status that matches no case
    changes nothing. *)
Definition tally (status : ResultStatus) (summary : Summary) : Summary :=
  if String.eqb status StatusCreated then
    mkSummary (Total summary) (incr (Created summary)) (SkippedExists summary)
      (SkippedDraft summary) (SkippedBranch summary) (SkippedNoChange summary)
      (Errors summary)
  else if String.eqb status StatusSkippedExists then
    mkSummary (Total summary) (Created summary) (incr (SkippedExists summary))
      (SkippedDraft summary) (SkippedBranch summary) (SkippedNoChange summary)
      (Errors summary)
  else if String.eqb status StatusSkippedDraft then
    mkSummary (Total summary) (Created summary) (SkippedExists summary)
      (incr (SkippedDraft summary)) (SkippedBranch summary)
      (SkippedNoChange summary) (Errors summary)
  else if String.eqb status StatusSkippedBranch then
    mkSummary (Total summary) (Created summary) (SkippedExists summary)
      (SkippedDraft summary) (incr (SkippedBranch summary))
      (SkippedNoChange summary) (Errors summary)
  else if String.eqb status StatusSkippedNoChange then
    mkSummary (Total summary) (Created summary) (SkippedExists summary)
      (SkippedDraft summary) (SkippedBranch summary)
      (incr (SkippedNoChange summary)) (Errors summary)
  else if String.eqb status StatusError then
    mkSummary (Total summary) (Created summary) (SkippedExists summary)
      (SkippedDraft summary) (SkippedBranch summary) (SkippedNoChange summary)
      (incr (Errors summary))
  else summary.

(** The loop of [ProcessProjects], lines 72-90, over the paths still to come. *)
Fixpoint processLoop (projects : list string)
  (results : list ProjectResult) (summary : Summary)
  : M (list ProjectResult * Summary) :=
  match projects with
  | [] => ret (results, summary)
  | projectPath :: rest =>
      let* result := processProject projectPath in
      let results := results ++ [result] in
      let summary := tally (Status result) summary in
      processLoop rest results summary
  end.

Definition ProcessProjects : M (list ProjectResult * Summary) :=
  let* cfg := getConfig in
  let results : list ProjectResult := [] in
  let summary := mkSummary (len (Projects cfg)) 0 0 0 0 0 0 in
  processLoop (Projects cfg) results summary.

End Engine.

End bulkmr.

(** ** The in-memory client of [internal/bulkmr/service_test.go] *)

Module bulkmr_test.

Import gitlab.
Import bulkmr.

Record mockGitLabClient := mkMock {
  projects : gmap string Project.t;
  branches : gmap Z (gmap string bool);
  mergeRequests : gmap Z (list MergeRequest.t);
  createError : error
}.

Definition newMockClient : mockGitLabClient :=
  {| projects := ∅; branches := ∅; mergeRequests := ∅; createError := None |}.

Definition addProject (path : string) (id : Z) (m : mockGitLabClient)
  : mockGitLabClient :=
  {| projects :=
       <[ path := Project.mk id path path
                    ("https://gitlab.example.com/" +:+ path) EmptyString [] ]>
         (projects m);
     branches := <[ id := ∅ ]> (branches m);
     mergeRequests := mergeRequests m;
     createError := createError m |}.

Definition addBranch (projectID : Z) (branchName : string)
  (m : mockGitLabClient) : mockGitLabClient :=
  let ofProject :=
    match branches m !! projectID with
    | Some bs => bs
    | None => ∅
    end in
  {| projects := projects m;
     branches := <[ projectID := <[ branchName := true ]> ofProject ]> (branches m);
     mergeRequests := mergeRequests m;
     createError := createError m |}.

Definition addMergeRequest (projectID : Z) (mr : MergeRequest.t)
  (m : mockGitLabClient) : mockGitLabClient :=
  let ofProject :=
    match mergeRequests m !! projectID with
    | Some mrs => mrs
    | None => []
    end in
  {| projects := projects m;
     branches := branches m;
     mergeRequests := <[ projectID := ofProject ++ [mr] ]> (mergeRequests m);
     createError := createError m |}.

Definition mockGetProject (projectPath : string) (m : mockGitLabClient)
  : option Project.t * error * mockGitLabClient :=
  match projects m !! projectPath with
  | None => (None, None, m)
  | Some project => (Some project, None, m)
  end.

Definition mockBranchExists (projectID : Z) (branch : string)
  (m : mockGitLabClient) : bool * error * mockGitLabClient :=
  match branches m !! projectID with
  | None => (false, None, m)
  | Some bs =>
      (match bs !! branch with Some b => b | None => false end, None, m)
  end.

Definition mockCompareBranches (projectID : Z)
  (sourceBranch targetBranch : string) (m : mockGitLabClient)
  : option Compare.t * error * mockGitLabClient :=
  (Some (Compare.mk (Commit.mk EmptyString EmptyString EmptyString)
           [Commit.mk "abc123" "abc123" "Test commit"] []),
   None, m).

Definition mockFindOpenMergeRequests (projectID : Z)
  (sourceBranch targetBranch : string) (m : mockGitLabClient)
  : list MergeRequest.t * error * mockGitLabClient :=
  match mergeRequests m !! projectID with
  | None => ([], None, m)
  | Some mrs => (mrs, None, m)
  end.

Definition mockCreateMergeRequest (projectID : Z)
  (sourceBranch targetBranch title description : string)
  (m : mockGitLabClient)
  : option MergeRequest.t * error * mockGitLabClient :=
  match createError m with
  | Some e => (None, Some e, m)
  | None =>
      (Some (MergeRequest.mk 999 99 title
               "https://gitlab.example.com/merge_requests/99" "opened" false
               EmptyString EmptyString 0),
       None, m)
  end.

#[export] Instance mockClient : GitLabClient mockGitLabClient := {
  GetProject := mockGetProject;
  BranchExists := mockBranchExists;
  CompareBranches := mockCompareBranches;
  FindOpenMergeRequests := mockFindOpenMergeRequests;
  CreateMergeRequest := mockCreateMergeRequest
}.

(** A second double, for the runs the in-memory client cannot produce (it
    fails no call but creation): a client made of five functions, each
    answering from its arguments alone. *)
Record funcClient := mkFunc {
  getProject : string -> option Project.t * error;
  branchExists : Z -> string -> bool * error;
  compareBranches : Z -> string -> string -> option Compare.t * error;
  findOpenMergeRequests : Z -> string -> string -> list MergeRequest.t * error;
  createMergeRequest :
    Z -> string -> string -> string -> string -> option MergeRequest.t * error
}.

#[export] Instance funcClientClient : GitLabClient funcClient := {
  GetProject := fun p c => (getProject c p, c);
  BranchExists := fun id b c => (branchExists c id b, c);
  CompareBranches := fun id s t c => (compareBranches c id s t, c);
  FindOpenMergeRequests := fun id s t c => (findOpenMergeRequests c id s t, c);
  CreateMergeRequest :=
    fun id s t title d c => (createMergeRequest c id s t title d, c)
}.

(** *** The clients of the four tests, and clients whose calls fail *)

Definition testConfig (projectPath : string) : Config :=
  mkConfig "op-stage" "op-rc" [projectPath] false.

(** [TestProcessProject_BothBranchesExist_NoExistingMR_CreatesMR] *)
Definition repoA : mockGitLabClient :=
  addBranch 1 "op-rc"
    (addBranch 1 "op-stage" (addProject "group/repo-a" 1 newMockClient)).

Definition mergeRequestB : MergeRequest.t :=
  MergeRequest.mk 100 10 "Merge op-stage into op-rc" EmptyString EmptyString
    false EmptyString EmptyString 0.

(** [TestProcessProject_ExistingNonDraftMR_Skips] *)
Definition repoB : mockGitLabClient :=
  addMergeRequest 2 mergeRequestB
    (addBranch 2 "op-rc"
       (addBranch 2 "op-stage" (addProject "group/repo-b" 2 newMockClient))).

Definition mergeRequestC : MergeRequest.t :=
  MergeRequest.mk 200 20 "Draft: Merge op-stage into op-rc" EmptyString
    EmptyString false EmptyString EmptyString 0.

(** [TestProcessProject_ExistingDraftMR_Skips] *)
Definition repoC : mockGitLabClient :=
  addMergeRequest 3 mergeRequestC
    (addBranch 3 "op-rc"
       (addBranch 3 "op-stage" (addProject "group/repo-c" 3 newMockClient))).

(** [TestProcessProject_MissingOriginBranch_Skips] *)
Definition repoD : mockGitLabClient :=
  addBranch 4 "op-rc" (addProject "group/repo-d" 4 newMockClient).

(** The clients of the first and of the fourth test in one. *)
Definition repoAD : mockGitLabClient :=
  addBranch 4 "op-rc" (addProject "group/repo-d" 4 repoA).

(** A client of functions all of whose calls succeed: every project has
    both branches, no open merge request and one commit to merge. *)
Definition healthy : funcClient :=
  {| getProject := fun p =>
       (Some (Project.mk 7 p p EmptyString EmptyString []), None);
     branchExists := fun _ _ => (true, None);
     compareBranches := fun _ _ _ =>
       (Some (Compare.mk (Commit.mk EmptyString EmptyString EmptyString)
                [Commit.mk "abc123" "abc123" "Test commit"] []), None);
     findOpenMergeRequests := fun _ _ _ => ([], None);
     createMergeRequest := fun _ _ _ title _ =>
       (Some (MergeRequest.mk 999 99 title "https://gitlab.example.com/mr/99"
                "opened" false EmptyString EmptyString 0), None) |}.


(** The comparison has a diff but no commit. *)
Definition unchanged : funcClient :=
  {| getProject := getProject healthy;
     branchExists := branchExists healthy;
     compareBranches := fun _ _ _ =>
       (Some (Compare.mk (Commit.mk EmptyString EmptyString EmptyString) []
                [Diff.mk "a.txt" "a.txt" "100644" "100644" false false false]),
        None);
     findOpenMergeRequests := findOpenMergeRequests healthy;
     createMergeRequest := createMergeRequest healthy |}.


(** *** Runs of the engine on these clients *)

(** The outcome, the service afterwards and the trace of a run. *)
Definition outcomeOf {A S : Type} (run : outcome A * S * list Event)
  : outcome A := run.1.1.
Definition serviceOf {A S : Type} (run : outcome A * S * list Event) : S :=
  run.1.2.
Definition traceOf {A S : Type} (run : outcome A * S * list Event)
  : list Event := run.2.

(** The results and the summary of a run of [ProcessProjects] that returned. *)
Definition resultsOf (o : outcome (list ProjectResult * Summary))
  : list ProjectResult :=
  match o with
  | Returned (results, _) => results
  | Panicked => []
  end.
Definition summaryOf (o : outcome (list ProjectResult * Summary)) : Summary :=
  match o with
  | Returned (_, summary) => summary
  | Panicked => mkSummary 0 0 0 0 0 0 0
  end.

Definition runA :=
  processProject (H := GoStrings.asciiOnly) "group/repo-a"
    (mkService repoA (testConfig "group/repo-a")).
Definition runB :=
  processProject (H := GoStrings.asciiOnly) "group/repo-b"
    (mkService repoB (testConfig "group/repo-b")).
Definition runC :=
  processProject (H := GoStrings.asciiOnly) "group/repo-c"
    (mkService repoC (testConfig "group/repo-c")).
Definition runD :=
  processProject (H := GoStrings.asciiOnly) "group/repo-d"
    (mkService repoD (testConfig "group/repo-d")).

(** A path the in-memory client has no project for. *)
Definition runUnknown :=
  processProject (H := GoStrings.asciiOnly) "group/unknown"
    (mkService repoA (testConfig "group/unknown")).

Definition runUnchanged :=
  processProject (H := GoStrings.asciiOnly) "group/repo-a"
    (mkService unchanged (testConfig "group/repo-a")).

(** Three entries, the first path twice. *)
Definition configAll : Config :=
  mkConfig "op-stage" "op-rc"
    ["group/repo-a"; "group/repo-d"; "group/repo-a"] false.
Definition runAll :=
  ProcessProjects (H := GoStrings.asciiOnly) (mkService repoAD configAll).

End bulkmr_test.

(** ** The table of [internal/gitlab/types_test.go] *)

Module gitlab_test.

Import gitlab.

(** A request with the two fields a case of the table sets. *)
Definition testRequest (title : string) (draft : bool) : MergeRequest.t :=
  MergeRequest.mk 0 0 title EmptyString EmptyString draft
    EmptyString EmptyString 0.

(** [TestMergeRequest_IsDraft]: the requests and what is expected of each. *)
Definition tests : list (MergeRequest.t * bool) :=
  [ (testRequest "Regular title" true, true);
    (testRequest "Draft: Implement new feature" false, true);
    (testRequest "draft: Fix bug" false, true);
    (testRequest "WIP: Work in progress" false, true);
    (testRequest "wip: Testing" false, true);
    (testRequest "  Draft: Feature" false, true);
    (testRequest "Merge op-stage into op-rc" false, false);
    (testRequest "This is a Draft version" false, false) ].

End gitlab_test.

(** ** Vocabulary of the properties *)

Module Vocabulary.

Import gitlab.
Import bulkmr.

Definition isLog (e : Event) : bool :=
  match e with LogPrintf _ => true | _ => false end.

(** The calls of the client in a trace, the log lines left out. *)
Definition calls (evs : list Event) : list Event :=
  List.filter (fun e => negb (isLog e)) evs.

Definition isFindOpenMergeRequests (e : Event) : bool :=
  match e with CallFindOpenMergeRequests _ _ _ _ _ => true | _ => false end.

Definition isCompareBranches (e : Event) : bool :=
  match e with CallCompareBranches _ _ _ _ _ => true | _ => false end.

Definition isCreateMergeRequest (e : Event) : bool :=
  match e with CallCreateMergeRequest _ _ _ _ _ _ _ => true | _ => false end.

(** The paths handed to [GetProject], in the order of the calls. *)
Fixpoint projectPaths (evs : list Event) : list string :=
  match evs with
  | [] => []
  | CallGetProject projectPath _ _ :: rest => projectPath :: projectPaths rest
  | _ :: rest => projectPaths rest
  end.

(** The error a call answered with, if it failed. *)
Definition failure (e : Event) : error :=
  match e with
  | CallGetProject _ _ err => err
  | CallBranchExists _ _ _ err => err
  | CallCompareBranches _ _ _ _ err => err
  | CallFindOpenMergeRequests _ _ _ _ err => err
  | CallCreateMergeRequest _ _ _ _ _ _ err => err
  | LogPrintf _ => None
  end.

(** A call that answered a nil pointer together with a nil error. *)
Definition nilAnswer (e : Event) : bool :=
  match e with
  | CallGetProject _ None None => true
  | CallCompareBranches _ _ _ None None => true
  | CallCreateMergeRequest _ _ _ _ _ None None => true
  | _ => false
  end.

(** A request the draft predicate holds of. *)
Definition draft `{GoStrings.UnicodeTables} (mr : MergeRequest.t) : Prop :=
  MergeRequest.IsDraft mr = true.

(** What the scan does to [result] when it meets the non-draft [mr]. *)
Definition existsResult (mr : MergeRequest.t) (result : ProjectResult)
  : ProjectResult :=
  setDetails ("Open MR already exists: !" +:+ fmt_d (MergeRequest.IID mr))
    (setMergeRequestURL (MergeRequest.WebURL mr)
       (setMergeRequestIID (MergeRequest.IID mr)
          (setMergeRequestID (MergeRequest.ID mr)
             (setStatus StatusSkippedExists result)))).

(** The last element of [l], or [d] when there is none. *)
Definition lastOr {A : Type} (d : option A) (l : list A) : option A :=
  match last l with
  | Some x => Some x
  | None => d
  end.

(** The closed enumeration of the statuses. *)
Definition statuses : list ResultStatus :=
  [StatusCreated; StatusSkippedExists; StatusSkippedDraft;
   StatusSkippedBranch; StatusSkippedNoChange; StatusError].

(** How many of the results carry the status [status]. *)
Definition countStatus (status : ResultStatus) (results : list ProjectResult)
  : Z :=
  len (List.filter (fun r => String.eqb (Status r) status) results).

(** The summary after the [switch] has seen each of the results in turn. *)
Definition tallyAll (results : list ProjectResult) (summary : Summary)
  : Summary :=
  fold_left (fun acc r => tally (Status r) acc) results summary.

(** The sum of the six counters of a summary. *)
Definition counted (summary : Summary) : Z :=
  Created summary + SkippedExists summary + SkippedDraft summary
  + SkippedBranch summary + SkippedNoChange summary + Errors summary.


(** One run of [processProject] after the other over a list of paths, each
    starting from the service as the one before left it: the results in
    order, the service at the end and the events of all the runs. *)
Inductive runs `{GoStrings.UnicodeTables} {C : Type} `{GitLabClient C}
  : list string -> Service C -> list ProjectResult -> Service C ->
    list Event -> Prop :=
| runs_nil (s : Service C) : runs [] s [] s []
| runs_cons (projectPath : string) (rest : list string)
    (s s1 s2 : Service C) (result : ProjectResult)
    (results : list ProjectResult) (t1 t2 : list Event) :
    processProject projectPath s = (Returned result, s1, t1) ->
    runs rest s1 results s2 t2 ->
    runs (projectPath :: rest) s (result :: results) s2 (t1 ++ t2).

(** No counter of the summary is negative. *)
Definition nonneg (summary : Summary) : Prop :=
  0 <= Created summary /\ 0 <= SkippedExists summary
  /\ 0 <= SkippedDraft summary /\ 0 <= SkippedBranch summary
  /\ 0 <= SkippedNoChange summary /\ 0 <= Errors summary.

(** 1 when the two statuses are equal, 0 otherwise. *)
Definition one_if (a b : ResultStatus) : Z :=
  if String.eqb a b then 1 else 0.

(** Every byte of [s] is in the table [asciiSpace]. *)
Fixpoint allSpaces (s : string) : bool :=
  match s with
  | EmptyString => true
  | String c rest => GoStrings.asciiSpace c && allSpaces rest
  end.

(** No byte of [s] is in the table [asciiSpace]. *)
Fixpoint noSpace (s : string) : bool :=
  match s with
  | EmptyString => true
  | String c rest => negb (GoStrings.asciiSpace c) && noSpace rest
  end.

(** [title] is white space, then [p] up to the case of its ASCII letters,
    then anything. *)
Definition startsWithFolded (p title : string) : Prop :=
  exists ws w rest,
    title = ws +:+ w +:+ rest
    /\ allSpaces ws = true
    /\ GoStrings.mapBytes GoStrings.lowerByte w = p.


End Vocabulary.

(** ** More vocabulary: the order of the calls and the contract of a client *)

Module Protocol.

Import gitlab.
Import bulkmr.
Import Vocabulary.

(** Which method of the client an event is a call of. *)
Inductive Method :=
| MGetProject
| MBranchExists
| MFindOpenMergeRequests
| MCompareBranches
| MCreateMergeRequest.

Definition method (e : Event) : option Method :=
  match e with
  | CallGetProject _ _ _ => Some MGetProject
  | CallBranchExists _ _ _ _ => Some MBranchExists
  | CallFindOpenMergeRequests _ _ _ _ _ => Some MFindOpenMergeRequests
  | CallCompareBranches _ _ _ _ _ => Some MCompareBranches
  | CallCreateMergeRequest _ _ _ _ _ _ _ => Some MCreateMergeRequest
  | LogPrintf _ => None
  end.




(** A client keeps its contract from the states [Inv] holds of: a call
    leaves it in such a state, and a call that answers a nil error answers
    no nil pointer. *)
Record honours {C : Type} `{GitLabClient C} (Inv : C -> Prop) : Prop := {
  honours_GetProject :
    forall p c project err c',
      Inv c -> GetProject p c = (project, err, c') ->
      Inv c' /\ (err = None -> project <> None);
  honours_BranchExists :
    forall id b c found err c',
      Inv c -> BranchExists id b c = (found, err, c') -> Inv c';
  honours_FindOpenMergeRequests :
    forall id src tgt c mrs err c',
      Inv c -> FindOpenMergeRequests id src tgt c = (mrs, err, c') -> Inv c';
  honours_CompareBranches :
    forall id src tgt c compare err c',
      Inv c -> CompareBranches id src tgt c = (compare, err, c') ->
      Inv c' /\ (err = None -> compare <> None);
  honours_CreateMergeRequest :
    forall id src tgt title description c mr err c',
      Inv c ->
      CreateMergeRequest id src tgt title description c = (mr, err, c') ->
      Inv c' /\ (err = None -> mr <> None)
}.

(** The configuration [cfg] with another list of paths. *)
Definition withProjects (projects : list string) (cfg : Config) : Config :=
  mkConfig (OriginBranch cfg) (TargetBranch cfg) projects (Verbose cfg).

(** Two summaries added counter by counter. *)
Definition addSummary (a b : Summary) : Summary :=
  mkSummary (Total a + Total b) (Created a + Created b)
    (SkippedExists a + SkippedExists b) (SkippedDraft a + SkippedDraft b)
    (SkippedBranch a + SkippedBranch b)
    (SkippedNoChange a + SkippedNoChange b) (Errors a + Errors b).

End Protocol.

(** ** The process and the standard library around the client *)

Module process.

(** A running process: the world its requests reach, the lines still to be
    read from standard input and the texts written so far to standard
    output and, with [fmt.Fprint], to standard error, oldest first.  What
    the [log] package writes is kept in the traces of the engine and of the
    commands instead. *)
Record t (W : Type) := mk {
  world : W;
  stdin : list string;
  stdout : list string;
  stderr : list string
}.
Arguments mk {W} _ _ _ _.
Arguments world {W} _.
Arguments stdin {W} _.
Arguments stdout {W} _.
Arguments stderr {W} _.

(** [fmt.Print], [fmt.Printf] and [fmt.Println], by the text they write. *)
Definition print {W : Type} (text : string) (p : t W) : t W :=
  mk (world p) (stdin p) (stdout p ++ [text]) (stderr p).

(** [fmt.Fprintf(os.Stderr, ...)] and [fmt.Fprintln(os.Stderr, ...)]. *)
Definition eprint {W : Type} (text : string) (p : t W) : t W :=
  mk (world p) (stdin p) (stdout p) (stderr p ++ [text]).

Definition setWorld {W : Type} (w : W) (p : t W) : t W :=
  mk w (stdin p) (stdout p) (stderr p).

End process.

(** [Topic] of [internal/gitlab/types.go]. *)
Module Topic.
Record t := mk {
  ID : Z;
  Name : string;
  Title : string;
  Description : string;
  TotalProjectsCount : Z
}.
End Topic.

Module net.

Import gitlab.

(** What [http.NewRequest] builds and the client sets the headers of. *)
Record Request := mkRequest {
  Method : string;
  URL : string;
  Payload : option string;
  Header : list (string * string)
}.

(** What the client reads of a response: its status code and what
    [io.ReadAll] gives of its body, the bytes read and an error or nil. *)
Record Response := mkResponse {
  StatusCode : Z;
  Body : string;
  ReadErr : option string
}.

(** The packages [net/url], [net/http] and [encoding/json] as the client
    uses them.  They are not part of this repository: parameters.
    - [NewRequestErr method url]: the error of [http.NewRequest], or nil;
    - [Do]: [httpClient.Do], a response or the text of an error, and the
      world after the request;
    - [Marshal]: [json.Marshal] of a map of strings, the keys with their
      values;
    - [Unmarshal...]: [json.Unmarshal] into a zero value of the type, the
      value filled or the text of an error. *)
Class Library (W : Type) := {
  PathEscape : string -> string;
  QueryEscape : string -> string;
  NewRequestErr : string -> string -> option string;
  Do : Request -> W -> (Response + string) * W;
  Marshal : list (string * string) -> string * option string;
  UnmarshalProject : string -> Project.t + string;
  UnmarshalProjects : string -> list Project.t + string;
  UnmarshalMergeRequest : string -> MergeRequest.t + string;
  UnmarshalMergeRequests : string -> list MergeRequest.t + string;
  UnmarshalCompare : string -> Compare.t + string;
  UnmarshalTopics : string -> list Topic.t + string
}.

End net.

(** ** [internal/gitlab/client.go] *)

Module gitlab_client.

Import GoStrings.
Import gitlab.
Import bulkmr.
Import net.

(** [strings.TrimRight(s, cutset)] for a cutset of ASCII bytes, which is
    done byte by byte: the bytes of [cutset] at the end of [s] go. *)
Fixpoint inCutset (c : ascii) (cutset : string) : bool :=
  match cutset with
  | EmptyString => false
  | String x rest => Ascii.eqb c x || inCutset c rest
  end.

Fixpoint TrimRight (s cutset : string) : string :=
  match s with
  | EmptyString => EmptyString
  | String c rest =>
      match TrimRight rest cutset with
      | EmptyString =>
          if inCutset c cutset then EmptyString else String c EmptyString
      | kept => String c kept
      end
  end.

(** The client, without its [httpClient], which is [Do] of the library. *)
Record Client := mkClient {
  baseURL : string;
  token : string;
  verbose : bool
}.

Definition NewClient (baseURL token : string) (verbose : bool) : Client :=
  {| baseURL := TrimRight baseURL "/"; token := token; verbose := verbose |}.

Section Methods.

Context {W : Type} `{Library W}.

(** A method of [*Client]: from the process to its answer and the process
    afterwards. *)
Definition M (A : Type) : Type := process.t W -> A * process.t W.

(** [makeRequest] returns a response with a nil error, or a nil response
    with an error: a response, or the text of the error. *)
Definition makeRequest (c : Client) (method endpoint : string)
  (body : option string) : M (Response + string) :=
  fun p =>
    match NewRequestErr method endpoint with
    | Some e => (inr ("failed to create request: " +:+ e), p)
    | None =>
        let req :=
          mkRequest method endpoint body
            [("PRIVATE-TOKEN", token c);
             ("Content-Type", "application/json")] in
        match Do req (process.world p) with
        | (inr e, w) =>
            (inr ("HTTP request failed: " +:+ e), process.setWorld w p)
        | (inl resp, w) => (inl resp, process.setWorld w p)
        end
    end.

(** [doRequest], with [json.Unmarshal] into the result as [decode]; every
    caller passes a result that is not nil.  The value comes with a nil
    error only. *)
Definition doRequest {T : Type} (c : Client) (decode : string -> T + string)
  (method endpoint : string) (payload : option (list (string * string)))
  : M (option T * error) :=
  fun p =>
    let marshalled :=
      match payload with
      | Some fields =>
          match Marshal fields with
          | (_, Some e) => inr ("failed to marshal payload: " +:+ e)
          | (jsonData, None) => inl (Some jsonData)
          end
      | None => inl None
      end in
    match marshalled with
    | inr e => ((None, Some e), p)
    | inl body =>
        match makeRequest c method endpoint body p with
        | (inr e, p) => ((None, Some e), p)
        | (inl resp, p) =>
            match ReadErr resp with
            | Some e =>
                ((None, Some ("failed to read response body: " +:+ e)), p)
            | None =>
                let p :=
                  if verbose c then
                    process.print
                      ("[DEBUG] " +:+ method +:+ " " +:+ endpoint +:+ " -> "
                       +:+ fmt_d (StatusCode resp) +:+ LF) p
                  else p in
                if (StatusCode resp <? 200) || (300 <=? StatusCode resp) then
                  ((None,
                    Some ("API request failed with status "
                          +:+ fmt_d (StatusCode resp) +:+ ": " +:+ Body resp)),
                   p)
                else
                  match decode (Body resp) with
                  | inr e =>
                      ((None, Some ("failed to unmarshal response: " +:+ e)),
                       p)
                  | inl v => ((Some v, None), p)
                  end
            end
        end
    end.

(** What a method returns after [doRequest]: a nil pointer and the error
    wrapped by [fmt.Errorf("...: %w", err)], or the value and nil. *)
Definition wrap {T : Type} (context : string) (r : option T * error)
  : option T * error :=
  match r with
  | (_, Some e) => (None, Some (context +:+ e))
  | (v, None) => (v, None)
  end.

(** The same for a method that returns a slice: nil is the empty list. *)
Definition wrapSlice {T : Type} (context : string)
  (r : option (list T) * error) : list T * error :=
  match r with
  | (_, Some e) => ([], Some (context +:+ e))
  | (v, None) => (default [] v, None)
  end.

Definition GetProject (c : Client) (projectPath : string)
  : M (option Project.t * error) :=
  fun p =>
    let encodedPath := PathEscape projectPath in
    let endpoint := baseURL c +:+ "/api/v4/projects/" +:+ encodedPath in
    match doRequest c UnmarshalProject "GET" endpoint None p with
    | (r, p) =>
        (wrap ("failed to get project " +:+ projectPath +:+ ": ") r, p)
    end.

Definition BranchExists (c : Client) (projectID : Z) (branchName : string)
  : M (bool * error) :=
  fun p =>
    let encodedBranch := PathEscape branchName in
    let endpoint :=
      baseURL c +:+ "/api/v4/projects/" +:+ fmt_d projectID
      +:+ "/repository/branches/" +:+ encodedBranch in
    match makeRequest c "GET" endpoint None p with
    | (inr e, p) =>
        ((false, Some ("failed to check branch " +:+ branchName +:+ ": " +:+ e)),
         p)
    | (inl resp, p) =>
        if StatusCode resp =? 404 then ((false, None), p)
        else if negb (StatusCode resp =? 200) then
          ((false,
            Some ("unexpected status " +:+ fmt_d (StatusCode resp) +:+ ": "
                  +:+ Body resp)), p)
        else ((true, None), p)
    end.

Definition FindOpenMergeRequests (c : Client) (projectID : Z)
  (sourceBranch targetBranch : string)
  : M (list MergeRequest.t * error) :=
  fun p =>
    let endpoint :=
      baseURL c +:+ "/api/v4/projects/" +:+ fmt_d projectID
      +:+ "/merge_requests?state=opened&source_branch="
      +:+ QueryEscape sourceBranch
      +:+ "&target_branch=" +:+ QueryEscape targetBranch in
    match doRequest c UnmarshalMergeRequests "GET" endpoint None p with
    | (r, p) => (wrapSlice "failed to find merge requests: " r, p)
    end.

Definition CompareBranches (c : Client) (projectID : Z)
  (sourceBranch targetBranch : string) : M (option Compare.t * error) :=
  fun p =>
    let endpoint :=
      baseURL c +:+ "/api/v4/projects/" +:+ fmt_d projectID
      +:+ "/repository/compare?from=" +:+ QueryEscape targetBranch
      +:+ "&to=" +:+ QueryEscape sourceBranch in
    match doRequest c UnmarshalCompare "GET" endpoint None p with
    | (r, p) => (wrap "failed to compare branches: " r, p)
    end.

Definition ListOpenMergeRequestsByTarget (c : Client) (projectID : Z)
  (targetBranch : string) : M (list MergeRequest.t * error) :=
  fun p =>
    let endpoint :=
      baseURL c +:+ "/api/v4/projects/" +:+ fmt_d projectID
      +:+ "/merge_requests?state=opened&target_branch="
      +:+ QueryEscape targetBranch in
    match doRequest c UnmarshalMergeRequests "GET" endpoint None p with
    | (r, p) => (wrapSlice "failed to list merge requests: " r, p)
    end.

Definition AcceptMergeRequest (c : Client) (projectID mrIID : Z)
  : M (option MergeRequest.t * error) :=
  fun p =>
    let endpoint :=
      baseURL c +:+ "/api/v4/projects/" +:+ fmt_d projectID
      +:+ "/merge_requests/" +:+ fmt_d mrIID +:+ "/merge" in
    match doRequest c UnmarshalMergeRequest "PUT" endpoint None p with
    | (r, p) => (wrap "failed to accept merge request: " r, p)
    end.

Definition CreateMergeRequest (c : Client) (projectID : Z)
  (sourceBranch targetBranch title description : string)
  : M (option MergeRequest.t * error) :=
  fun p =>
    let endpoint :=
      baseURL c +:+ "/api/v4/projects/" +:+ fmt_d projectID
      +:+ "/merge_requests" in
    let payload :=
      [("source_branch", sourceBranch); ("target_branch", targetBranch);
       ("title", title); ("description", description)] in
    match doRequest c UnmarshalMergeRequest "POST" endpoint (Some payload) p
    with
    | (r, p) => (wrap "failed to create merge request: " r, p)
    end.

Definition ListProjectsByTopic (c : Client) (topicName : string)
  (page perPage : Z) : M (list Project.t * error) :=
  fun p =>
    let endpoint :=
      baseURL c +:+ "/api/v4/projects?topic=" +:+ QueryEscape topicName
      +:+ "&page=" +:+ fmt_d page +:+ "&per_page=" +:+ fmt_d perPage in
    match doRequest c UnmarshalProjects "GET" endpoint None p with
    | (r, p) =>
        (wrapSlice
           ("failed to list projects for topic " +:+ topicName +:+ ": ") r,
         p)
    end.

Definition ListTopics (c : Client) (page perPage : Z)
  : M (list Topic.t * error) :=
  fun p =>
    let endpoint :=
      baseURL c +:+ "/api/v4/topics?page=" +:+ fmt_d page
      +:+ "&per_page=" +:+ fmt_d perPage in
    match doRequest c UnmarshalTopics "GET" endpoint None p with
    | (r, p) => (wrapSlice "failed to list topics: " r, p)
    end.

(** [*Client] as a [GitLabClient]: the client with the process it runs in. *)
Definition Session : Type := Client * process.t W.

#[export] Instance session_client : GitLabClient Session := {
  bulkmr.GetProject := fun projectPath s =>
    match GetProject s.1 projectPath s.2 with
    | ((project, err), p) => (project, err, (s.1, p))
    end;
  bulkmr.BranchExists := fun projectID branch s =>
    match BranchExists s.1 projectID branch s.2 with
    | ((found, err), p) => (found, err, (s.1, p))
    end;
  bulkmr.CompareBranches := fun projectID source target s =>
    match CompareBranches s.1 projectID source target s.2 with
    | ((compare, err), p) => (compare, err, (s.1, p))
    end;
  bulkmr.FindOpenMergeRequests := fun projectID source target s =>
    match FindOpenMergeRequests s.1 projectID source target s.2 with
    | ((mrs, err), p) => (mrs, err, (s.1, p))
    end;
  bulkmr.CreateMergeRequest := fun projectID source target title description s =>
    match CreateMergeRequest s.1 projectID source target title description s.2
    with
    | ((mr, err), p) => (mr, err, (s.1, p))
    end
}.

End Methods.

End gitlab_client.

(** ** [cmd/gitlab-tools/main.go] *)

Module main.

Import GoStrings.
Import gitlab.
Import bulkmr.
Import net.

(** [strings.Contains(s, substr)]: [substr] starts at some byte of [s]. *)
Fixpoint Contains (s substr : string) : bool :=
  if HasPrefix s substr then true
  else
    match s with
    | EmptyString => false
    | String _ rest => Contains rest substr
    end.

(** The escape byte, [\033] in a Go string literal. *)
Definition ESC : string := String (ascii_of_N 27) EmptyString.

(** How a command ends: it returns to [main], which returns; it calls
    [os.Exit]; or a panic goes through it. *)
Inductive ending :=
| Returns
| Exits (code : Z)
| Panics.

Definition getStatusIcon (status : ResultStatus) : string :=
  if String.eqb status StatusCreated then "✓"
  else if String.eqb status StatusSkippedExists then "→"
  else if String.eqb status StatusSkippedDraft then "⊘"
  else if String.eqb status StatusSkippedBranch then "⚠"
  else if String.eqb status StatusSkippedNoChange then "≡"
  else if String.eqb status StatusError then "✗"
  else "?".

Definition printResult {W : Type} (result : ProjectResult) (p : process.t W)
  : process.t W :=
  let statusIcon := getStatusIcon (Status result) in
  let p :=
    process.print ("[" +:+ Project result +:+ "] " +:+ statusIcon +:+ " "
                   +:+ Status result +:+ LF) p in
  let p :=
    if negb (String.eqb (Details result) EmptyString) then
      process.print ("  " +:+ Details result +:+ LF) p
    else p in
  let p :=
    if negb (String.eqb (ErrorMessage result) EmptyString) then
      process.print ("  Error: " +:+ ErrorMessage result +:+ LF) p
    else p in
  process.print LF p.

Definition printSummary {W : Type} (summary : Summary) (p : process.t W)
  : process.t W :=
  let p := process.print ("Summary:" +:+ LF) p in
  let p :=
    process.print ("  Total projects: " +:+ fmt_d (Total summary) +:+ LF) p in
  let p :=
    process.print ("  Created: " +:+ fmt_d (Created summary) +:+ LF) p in
  let p :=
    process.print ("  Skipped (exists): " +:+ fmt_d (SkippedExists summary)
                   +:+ LF) p in
  let p :=
    process.print ("  Skipped (draft): " +:+ fmt_d (SkippedDraft summary)
                   +:+ LF) p in
  let p :=
    process.print ("  Skipped (no changes): "
                   +:+ fmt_d (SkippedNoChange summary) +:+ LF) p in
  let p :=
    process.print ("  Skipped (no branch): " +:+ fmt_d (SkippedBranch summary)
                   +:+ LF) p in
  let p := process.print ("  Errors: " +:+ fmt_d (Errors summary) +:+ LF) p in
  let p := process.print LF p in
  if Errors summary =? 0 then
    process.print ("✓ Completed successfully" +:+ LF) p
  else process.print ("✗ Completed with errors" +:+ LF) p.

(** The values of the flags of [bulk-mr] as [fs.Parse] leaves them. *)
Record bulkMRFlags := mkBulkMRFlags {
  origin : string;
  target : string;
  gitlabURL : string;
  token : string;
  group : string;
  verbose : bool;
  projects : list string
}.

(** Lines 148-155: the paths with the group put before those that name no
    namespace. *)
Definition processedProjects (group : string) (projects : list string)
  : list string :=
  map (fun project =>
         if negb (String.eqb group EmptyString)
            && negb (Contains project "/")
         then group +:+ "/" +:+ project
         else project)
    projects.

(** What [mergeCommand] does that is seen from outside the process or
    decided by it, in order: a request for the open requests of a project
    with its answer, a prompt for a request, a line read from standard
    input as the answer to the prompt or the end of the input, a request to
    accept a merge request with the error it answered or nil, and a fatal
    line of the [log] package. *)
Inductive MergeEvent :=
| Listed (project : Project.t) (mrs : list MergeRequest.t) (err : error)
| Prompted (project : Project.t) (mr : MergeRequest.t)
| Answered (line : string)
| EndOfInput
| Accepted (projectID mrIID : Z) (err : error)
| LogFatal (line : string).

(** The three counters of [mergeCommand]. *)
Record counts := mkCounts {
  mergedCount : Z;
  skippedCount : Z;
  errorCount : Z
}.

(** The values of the flags of [merge] as [Parse] leaves them, and the two
    variables of the environment. *)
Record mergeFlags := mkMergeFlags {
  m_target : string;
  m_topic : string;
  m_baseURL : string;
  m_token : string
}.

Definition rule : string :=
  ESC +:+ "[36m━━━━━━━━━━━━━━━━━━━━━━━━━━━━━━━━━━━━━━━━" +:+ ESC +:+ "[0m"
  +:+ LF.

Section Commands.

Context `{UnicodeTables} {W : Type} `{Library W}.

#[local] Existing Instance gitlab_client.session_client.

(** Lines 175-186 of [bulkMRCommand], and 548-559 of [bulkMRTopicCommand]:
    the run of the engine, its report and the exit code.  With the ending
    and the process come the events of the engine. *)
Definition report (service : Service (gitlab_client.Session (W := W)))
  : ending * process.t W * list Event :=
  match ProcessProjects service with
  | (Panicked, s, evs) => (Panics, (client s).2, evs)
  | (Returned (results, summary), s, evs) =>
      let p := (client s).2 in
      let p := fold_left (fun p result => printResult result p) results p in
      let p := process.print LF p in
      let p := printSummary summary p in
      if 0 <? Errors summary then (Exits 1, p, evs) else (Returns, p, evs)
  end.

(** [bulkMRCommand] from line 118 on, [fs.Usage] (which prints the defaults
    of the [flag] package) taken as [usage].  [log.SetFlags] only sets what
    comes before the log lines of the engine, which its trace keeps bare. *)
Definition bulkMRCommand (usage : process.t W -> process.t W)
  (flags : bulkMRFlags) (p : process.t W)
  : ending * process.t W * list Event :=
  if String.eqb (origin flags) EmptyString then
    let p := process.eprint ("Error: --origin is required" +:+ LF) p in
    (Exits 1, usage p, [])
  else if String.eqb (target flags) EmptyString then
    let p := process.eprint ("Error: --target is required" +:+ LF) p in
    (Exits 1, usage p, [])
  else if len (projects flags) =? 0 then
    let p :=
      process.eprint ("Error: at least one --project is required" +:+ LF) p in
    (Exits 1, usage p, [])
  else if String.eqb (gitlabURL flags) EmptyString then
    let p :=
      process.eprint
        ("Error: GitLab URL must be provided via --gitlab-url or GITLAB_BASE_URL env"
         +:+ LF) p in
    (Exits 1, usage p, [])
  else if String.eqb (token flags) EmptyString then
    let p :=
      process.eprint
        ("Error: GitLab token must be provided via --token or GITLAB_TOKEN env"
         +:+ LF) p in
    (Exits 1, usage p, [])
  else
    let processed := processedProjects (group flags) (projects flags) in
    let config :=
      mkConfig (origin flags) (target flags) processed (verbose flags) in
    let p :=
      process.print ("Processing " +:+ fmt_d (len processed)
                     +:+ " project(s)..." +:+ LF +:+ LF) p in
    let client :=
      gitlab_client.NewClient (gitlabURL flags) (token flags) (verbose flags) in
    let service := NewService (client, p) config in
    report service.

(** The values of the flags of [bulk-mr-topic] as [fs.Parse] leaves them. *)
Record bulkMRTopicFlags := mkBulkMRTopicFlags {
  t_origin : string;
  t_target : string;
  t_topic : string;
  t_gitlabURL : string;
  t_token : string;
  t_perPage : Z;
  t_verbose : bool
}.

(** The loop of lines 507-525, which ends when the platform answers an
    error, an empty page or a page shorter than asked for: within [fuel]
    rounds, the projects gathered or the text of the error, or [None] when
    it has not ended by then. *)
Fixpoint fetchPages (fuel : nat) (client : gitlab_client.Client)
  (topic : string) (perPage page : Z) (allProjects : list Project.t)
  (p : process.t W) : option ((list Project.t + string) * process.t W) :=
  match fuel with
  | O => None
  | S fuel =>
      match gitlab_client.ListProjectsByTopic client topic page perPage p with
      | ((_, Some e), p) => Some (inr e, p)
      | ((projects, None), p) =>
          if len projects =? 0 then Some (inl allProjects, p)
          else
            let allProjects := allProjects ++ projects in
            if len projects <? perPage then Some (inl allProjects, p)
            else fetchPages fuel client topic perPage (incr page) allProjects p
      end
  end.

(** [bulkMRTopicCommand] from line 464 on, within [fuel] rounds of its
    loop. *)
Definition bulkMRTopicCommand (fuel : nat)
  (usage : process.t W -> process.t W)
  (flags : bulkMRTopicFlags) (p : process.t W)
  : option (ending * process.t W * list Event) :=
  if String.eqb (t_origin flags) EmptyString then
    let p := process.eprint ("Error: --origin is required" +:+ LF) p in
    Some (Exits 1, usage p, [])
  else if String.eqb (t_target flags) EmptyString then
    let p := process.eprint ("Error: --target is required" +:+ LF) p in
    Some (Exits 1, usage p, [])
  else if String.eqb (t_topic flags) EmptyString then
    let p := process.eprint ("Error: --topic is required" +:+ LF) p in
    Some (Exits 1, usage p, [])
  else if String.eqb (t_gitlabURL flags) EmptyString then
    let p :=
      process.eprint
        ("Error: GitLab URL must be provided via --gitlab-url or GITLAB_BASE_URL env"
         +:+ LF) p in
    Some (Exits 1, usage p, [])
  else if String.eqb (t_token flags) EmptyString then
    let p :=
      process.eprint
        ("Error: GitLab token must be provided via --token or GITLAB_TOKEN env"
         +:+ LF) p in
    Some (Exits 1, usage p, [])
  else
    let client :=
      gitlab_client.NewClient (t_gitlabURL flags) (t_token flags)
        (t_verbose flags) in
    let p :=
      process.print ("Fetching projects for topic: " +:+ ESC +:+ "[1;35m"
                     +:+ t_topic flags +:+ ESC +:+ "[0m" +:+ LF +:+ LF) p in
    match fetchPages fuel client (t_topic flags) (t_perPage flags) 1 [] p with
    | None => None
    | Some (inr e, p) =>
        let p :=
          process.eprint ("Error fetching projects: " +:+ e +:+ LF) p in
        Some (Exits 1, p, [])
    | Some (inl allProjects, p) =>
        if len allProjects =? 0 then
          let p :=
            process.print ("No projects found for topic: " +:+ t_topic flags
                           +:+ LF) p in
          Some (Exits 0, p, [])
        else
          let projectPaths := map Project.PathWithNamespace allProjects in
          let p :=
            process.print ("Found " +:+ fmt_d (len projectPaths)
                           +:+ " project(s) in topic " +:+ ESC +:+ "[1;35m"
                           +:+ t_topic flags +:+ ESC +:+ "[0m" +:+ LF +:+ LF)
              p in
          let config :=
            mkConfig (t_origin flags) (t_target flags) projectPaths
              (t_verbose flags) in
          let service := NewService (client, p) config in
          Some (report service)
    end.

(** The inner loop of [mergeCommand], lines 626-654, over the requests of
    [project] that are no drafts.  [scanner.Scan] takes the next line of
    standard input; at the end of the input the loop is left. *)
Fixpoint promptEach (client : gitlab_client.Client) (project : Project.t)
  (nonDraftMRs : list MergeRequest.t) (n : counts) (p : process.t W)
  : counts * process.t W * list MergeEvent :=
  match nonDraftMRs with
  | [] => (n, p, [])
  | mr :: rest =>
      let p := process.print rule p in
      let p :=
        process.print (ESC +:+ "[1;36mProject:" +:+ ESC +:+ "[0m "
                       +:+ Project.PathWithNamespace project +:+ LF) p in
      let p :=
        process.print (ESC +:+ "[1;36mMR Title:" +:+ ESC +:+ "[0m "
                       +:+ MergeRequest.Title mr +:+ LF) p in
      let p :=
        process.print (ESC +:+ "[1;36mBranches:" +:+ ESC +:+ "[0m "
                       +:+ MergeRequest.SourceBranch mr +:+ " → "
                       +:+ MergeRequest.TargetBranch mr +:+ LF) p in
      let p :=
        process.print (ESC +:+ "[1;36mURL:" +:+ ESC +:+ "[0m "
                       +:+ MergeRequest.WebURL mr +:+ LF) p in
      let p := process.print rule p in
      let p :=
        process.print (ESC +:+ "[1;33mMerge this MR? (y/n): " +:+ ESC
                       +:+ "[0m") p in
      match process.stdin p with
      | [] => (n, p, [Prompted project mr; EndOfInput])
      | line :: lines =>
          let p :=
            process.mk (process.world p) lines (process.stdout p)
              (process.stderr p) in
          let response := ToLower (TrimSpace line) in
          if String.eqb response "y" || String.eqb response "yes" then
            match
              gitlab_client.AcceptMergeRequest client (Project.ID project)
                (MergeRequest.IID mr) p
            with
            | ((_, Some e), p) =>
                let p :=
                  process.print (ESC +:+ "[31m✗ Failed to merge: " +:+ e
                                 +:+ ESC +:+ "[0m" +:+ LF +:+ LF) p in
                let n :=
                  mkCounts (mergedCount n) (skippedCount n)
                    (incr (errorCount n)) in
                match promptEach client project rest n p with
                | (n, p, evs) =>
                    (n, p,
                     [Prompted project mr; Answered line;
                      Accepted (Project.ID project) (MergeRequest.IID mr)
                        (Some e)] ++ evs)
                end
            | ((_, None), p) =>
                let p :=
                  process.print (ESC +:+ "[32m✓ Successfully merged!" +:+ ESC
                                 +:+ "[0m" +:+ LF +:+ LF) p in
                let n :=
                  mkCounts (incr (mergedCount n)) (skippedCount n)
                    (errorCount n) in
                match promptEach client project rest n p with
                | (n, p, evs) =>
                    (n, p,
                     [Prompted project mr; Answered line;
                      Accepted (Project.ID project) (MergeRequest.IID mr)
                        None] ++ evs)
                end
            end
          else
            let p :=
              process.print (ESC +:+ "[33m⊘ Skipped" +:+ ESC +:+ "[0m" +:+ LF
                             +:+ LF) p in
            let n :=
              mkCounts (mergedCount n) (incr (skippedCount n))
                (errorCount n) in
            match promptEach client project rest n p with
            | (n, p, evs) =>
                (n, p, [Prompted project mr; Answered line] ++ evs)
            end
      end
  end.

(** The outer loop, lines 604-655. *)
Fixpoint mergeEach (client : gitlab_client.Client) (target : string)
  (projects : list Project.t) (n : counts) (p : process.t W)
  : counts * process.t W * list MergeEvent :=
  match projects with
  | [] => (n, p, [])
  | project :: rest =>
      match
        gitlab_client.ListOpenMergeRequestsByTarget client
          (Project.ID project) target p
      with
      | ((mrs, Some e), p) =>
          let p :=
            process.print (ESC +:+ "[31m✗ Error fetching MRs for "
                           +:+ Project.PathWithNamespace project +:+ ": "
                           +:+ e +:+ ESC +:+ "[0m" +:+ LF) p in
          let n :=
            mkCounts (mergedCount n) (skippedCount n) (incr (errorCount n)) in
          match mergeEach client target rest n p with
          | (n, p, evs) => (n, p, Listed project mrs (Some e) :: evs)
          end
      | ((mrs, None), p) =>
          let nonDraftMRs :=
            List.filter (fun mr => negb (MergeRequest.IsDraft mr)) mrs in
          match promptEach client project nonDraftMRs n p with
          | (n, p, evs1) =>
              match mergeEach client target rest n p with
              | (n, p, evs2) =>
                  (n, p, Listed project mrs None :: evs1 ++ evs2)
              end
          end
      end
  end.

(** [mergeCommand] from line 569 on, with [defaults] for the text that
    [mergeCmd.PrintDefaults] writes to standard error.  What [log.Fatal]
    writes is kept in the trace. *)
Definition mergeCommand (defaults : string)
  (flags : mergeFlags) (p : process.t W)
  : ending * process.t W * list MergeEvent :=
  if String.eqb (m_target flags) EmptyString
     || String.eqb (m_topic flags) EmptyString
  then
    let p :=
      process.print (ESC +:+ "[31mError: both --target and --topic are required"
                     +:+ ESC +:+ "[0m" +:+ LF) p in
    (Exits 1, process.eprint defaults p, [])
  else if String.eqb (m_baseURL flags) EmptyString
          || String.eqb (m_token flags) EmptyString
  then
    (Exits 1, p,
     [LogFatal
        "GITLAB_BASE_URL and GITLAB_TOKEN environment variables are required"])
  else
    let client :=
      gitlab_client.NewClient (m_baseURL flags) (m_token flags) false in
    let p :=
      process.print (ESC +:+ "[36m📦 Fetching projects for topic: "
                     +:+ m_topic flags +:+ ESC +:+ "[0m" +:+ LF) p in
    match gitlab_client.ListProjectsByTopic client (m_topic flags) 1 100 p with
    | ((_, Some e), p) =>
        (Exits 1, p, [LogFatal ("Failed to fetch projects: " +:+ e)])
    | ((projects, None), p) =>
        if len projects =? 0 then
          let p :=
            process.print (ESC +:+ "[33m⚠️  No projects found for topic: "
                           +:+ m_topic flags +:+ ESC +:+ "[0m" +:+ LF) p in
          (Returns, p, [])
        else
          let p :=
            process.print (ESC +:+ "[32m✓ Found " +:+ fmt_d (len projects)
                           +:+ " projects" +:+ ESC +:+ "[0m" +:+ LF +:+ LF)
              p in
          match
            mergeEach client (m_target flags) projects (mkCounts 0 0 0) p
          with
          | (n, p, evs) =>
              let p := process.print rule p in
              let p :=
                process.print (ESC +:+ "[1;36m📊 Summary" +:+ ESC +:+ "[0m"
                               +:+ LF) p in
              let p := process.print rule p in
              let p :=
                process.print (ESC +:+ "[32m✓ Merged:  "
                               +:+ fmt_d (mergedCount n) +:+ ESC +:+ "[0m"
                               +:+ LF) p in
              let p :=
                process.print (ESC +:+ "[33m⊘ Skipped: "
                               +:+ fmt_d (skippedCount n) +:+ ESC +:+ "[0m"
                               +:+ LF) p in
              let p :=
                if 0 <? errorCount n then
                  process.print (ESC +:+ "[31m✗ Errors:  "
                                 +:+ fmt_d (errorCount n) +:+ ESC +:+ "[0m"
                                 +:+ LF) p
                else p in
              let p := process.print rule p in
              if 0 <? errorCount n then (Exits 1, p, evs)
              else (Returns, p, evs)
          end
    end.

End Commands.

End main.

(** ** More vocabulary: the client and the commands *)

Module ClientVocabulary.

Import gitlab.
Import bulkmr.
Import net.

(** Every byte of [s] is a byte of [cutset]. *)
Fixpoint allInCutset (s cutset : string) : bool :=
  match s with
  | EmptyString => true
  | String c rest => gitlab_client.inCutset c cutset && allInCutset rest cutset
  end.

(** The request [makeRequest] sends for [method], [endpoint] and [body]. *)
Definition requestOf (c : gitlab_client.Client) (method endpoint : string)
  (body : option string) : Request :=
  mkRequest method endpoint body
    [("PRIVATE-TOKEN", gitlab_client.token c);
     ("Content-Type", "application/json")].

(** The endpoint of a project and the endpoint of one of its branches. *)
Definition projectEndpoint {W : Type} `{Library W}
  (c : gitlab_client.Client) (projectPath : string) : string :=
  gitlab_client.baseURL c +:+ "/api/v4/projects/" +:+ PathEscape projectPath.

Definition branchEndpoint {W : Type} `{Library W}
  (c : gitlab_client.Client) (projectID : Z) (branchName : string) : string :=
  gitlab_client.baseURL c +:+ "/api/v4/projects/" +:+ fmt_d projectID
  +:+ "/repository/branches/" +:+ PathEscape branchName.

(** The platform answers the request for [endpoint] with [resp]. *)
Definition answered {W : Type} `{Library W} (c : gitlab_client.Client)
  (method endpoint : string) (p : process.t W) (resp : Response) : Prop :=
  NewRequestErr method endpoint = None
  /\ exists w,
      Do (requestOf c method endpoint None) (process.world p) = (inl resp, w).

(** [msg] is [pre] followed by some text. *)
Definition startsWith (pre msg : string) : Prop :=
  exists rest, msg = pre +:+ rest.

(** The message of an ERROR met with the client of [internal/gitlab] names
    the operation that failed: one of the six texts that can come first. *)
Definition namesOperation (projectPath msg : string) : Prop :=
  startsWith ("failed to get project " +:+ projectPath +:+ ": ") msg
  \/ startsWith "failed to check origin branch: " msg
  \/ startsWith "failed to check target branch: " msg
  \/ startsWith
       "failed to find existing merge requests: failed to find merge requests: "
       msg
  \/ startsWith "failed to compare branches: failed to compare branches: " msg
  \/ startsWith
       "failed to create merge request: failed to create merge request: " msg.

(** The call of the event answered an error. *)
Definition failed (e : Event) : bool :=
  match Vocabulary.failure e with
  | Some _ => true
  | None => false
  end.

(** The flags of [bulk-mr] hold all that is required. *)
Definition complete (flags : main.bulkMRFlags) : Prop :=
  main.origin flags <> EmptyString
  /\ main.target flags <> EmptyString
  /\ main.projects flags <> []
  /\ main.gitlabURL flags <> EmptyString
  /\ main.token flags <> EmptyString.

(** The line agrees to the merge: trimmed and in lower case it is "y" or
    "yes". *)
Definition agreed `{GoStrings.UnicodeTables} (line : string) : Prop :=
  let response := GoStrings.ToLower (GoStrings.TrimSpace line) in
  response = "y" \/ response = "yes".

(** The lines read from standard input in a trace of [merge], in order. *)
Definition answers (evs : list main.MergeEvent) : list string :=
  omap (fun e => match e with main.Answered line => Some line | _ => None end)
    evs.

(** Every request to accept a merge request in [evs] comes right after the
    prompt for that request, which is no draft, and a line that agrees. *)
Definition acceptedOnYes `{GoStrings.UnicodeTables}
  (evs : list main.MergeEvent) : Prop :=
  forall before after projectID mrIID err,
    evs = before ++ main.Accepted projectID mrIID err :: after ->
    exists before' project mr line,
      before = before' ++ [main.Prompted project mr; main.Answered line]
      /\ Project.ID project = projectID
      /\ MergeRequest.IID mr = mrIID
      /\ MergeRequest.IsDraft mr = false
      /\ agreed line.

(** Every prompt of [evs] is for a request that is no draft and that the
    platform listed, without an error, for the project of the prompt. *)
Definition promptedAsListed `{GoStrings.UnicodeTables}
  (evs : list main.MergeEvent) : Prop :=
  forall project mr,
    In (main.Prompted project mr) evs ->
    MergeRequest.IsDraft mr = false
    /\ exists mrs, In (main.Listed project mrs None) evs /\ In mr mrs.

(** The event is a request of [merge] that answered an error, or a fatal
    line. *)
Definition mergeFailed (e : main.MergeEvent) : bool :=
  match e with
  | main.Listed _ _ (Some _) => true
  | main.Accepted _ _ (Some _) => true
  | main.LogFatal _ => true
  | _ => false
  end.

(** The flags of [bulk-mr-topic] hold all that is required. *)
Definition completeTopic (flags : main.bulkMRTopicFlags) : Prop :=
  main.t_origin flags <> EmptyString
  /\ main.t_target flags <> EmptyString
  /\ main.t_topic flags <> EmptyString
  /\ main.t_gitlabURL flags <> EmptyString
  /\ main.t_token flags <> EmptyString.

(** The page [page] (from 1) of [all], [perPage] to a page. *)
Definition pageOf {A : Type} (all : list A) (perPage page : Z) : list A :=
  take (Z.to_nat perPage) (drop (Z.to_nat ((page - 1) * perPage)) all).

(** How many pages of [perPage] the loop of [bulk-mr-topic] asks for when
    the topic has [n] projects: the full pages and one more, short or
    empty. *)
Definition pagesAsked (n perPage : Z) : Z := n / perPage + 1.

(** From the worlds [Inv] holds of, the platform serves the projects [all]
    of [topic] to the client [c] page by page, and stays in such a world. *)
Definition serves {W : Type} `{Library W} (Inv : W -> Prop)
  (c : gitlab_client.Client) (topic : string) (perPage : Z)
  (all : list Project.t) : Prop :=
  forall page p,
    Inv (process.world p) ->
    1 <= page <= pagesAsked (len all) perPage ->
    let run := gitlab_client.ListProjectsByTopic c topic page perPage p in
    run.1 = (pageOf all perPage page, None)
    /\ Inv (process.world run.2).

End ClientVocabulary.

(** ** A platform for the examples *)

Module httptest.

Import gitlab.
Import bulkmr.
Import net.

(** A server as the table of its answers, by method and URL. *)
Definition Server : Type := list (string * Response).

Fixpoint answerOf (key : string) (server : Server) : option Response :=
  match server with
  | [] => None
  | (k, resp) :: rest =>
      if String.eqb k key then Some resp else answerOf key rest
  end.

(** The slashes of [s] escaped, which is all that [url.PathEscape] and
    [url.QueryEscape] do to the texts of the examples. *)
Fixpoint escape (s : string) : string :=
  match s with
  | EmptyString => EmptyString
  | String c rest =>
      if Ascii.eqb c "/" then "%2F" +:+ escape rest
      else String c (escape rest)
  end.

(** Bodies stand for JSON documents, a byte for an object: the code of the
    byte is the ID of the object, and the byte its name. *)
Definition codeOf (c : ascii) : Z := Z.of_N (N_of_ascii c).

Definition nameOf (c : ascii) : string := String c EmptyString.

Definition projectOf (c : ascii) : Project.t :=
  Project.mk (codeOf c) (nameOf c) ("group/" +:+ nameOf c)
    ("https://gitlab.example.com/group/" +:+ nameOf c) EmptyString [].

Definition mergeRequestOf (c : ascii) : MergeRequest.t :=
  MergeRequest.mk (codeOf c) (codeOf c) ("Merge " +:+ nameOf c)
    ("https://gitlab.example.com/merge_requests/" +:+ nameOf c) "opened"
    false "op-stage" "op-rc" 0.

Definition commitOf (c : ascii) : Commit.t :=
  Commit.mk (nameOf c) (nameOf c) ("Commit " +:+ nameOf c).

Definition topicOf (c : ascii) : Topic.t :=
  Topic.mk (codeOf c) (nameOf c) (nameOf c) EmptyString 1.

Definition first {T : Type} (decode : ascii -> T) (body : string)
  : T + string :=
  match body with
  | EmptyString => inr "unexpected end of JSON input"
  | String c _ => inl (decode c)
  end.

Definition each {T : Type} (decode : ascii -> T) (body : string)
  : list T + string :=
  inl (map decode (list_ascii_of_string body)).

#[export] Instance library : Library Server := {
  PathEscape := escape;
  QueryEscape := escape;
  NewRequestErr := fun _ _ => None;
  Do := fun req server =>
    match answerOf (Method req +:+ " " +:+ URL req) server with
    | Some resp => (inl resp, server)
    | None => (inr "connection refused", server)
    end;
  Marshal := fun fields =>
    (fold_right (fun kv acc => kv.1 +:+ "=" +:+ kv.2 +:+ ";" +:+ acc)
       EmptyString fields, None);
  UnmarshalProject := first projectOf;
  UnmarshalProjects := each projectOf;
  UnmarshalMergeRequest := first mergeRequestOf;
  UnmarshalMergeRequests := each mergeRequestOf;
  UnmarshalCompare := fun body =>
    inl (Compare.mk (Commit.mk EmptyString EmptyString EmptyString)
           (map commitOf (list_ascii_of_string body)) []);
  UnmarshalTopics := each topicOf
}.

Definition ok (body : string) : Response := mkResponse 200 body None.

(** A server with the topic "backend" of three projects, served two to a
    page, and with one open merge request for the first of them. *)
Definition backend : Server :=
  [("GET https://gitlab.example.com/api/v4/projects?topic=backend&page=1&per_page=2",
    ok "ab");
   ("GET https://gitlab.example.com/api/v4/projects?topic=backend&page=2&per_page=2",
    ok "c");
   ("GET https://gitlab.example.com/api/v4/projects?topic=backend&page=1&per_page=100",
    ok "abc");
   ("GET https://gitlab.example.com/api/v4/projects/97/merge_requests?state=opened&target_branch=op-rc",
    ok "m");
   ("PUT https://gitlab.example.com/api/v4/projects/97/merge_requests/109/merge",
    ok "m")].

Definition backendProjects : list Project.t :=
  [projectOf "a"; projectOf "b"; projectOf "c"].

(** A process that starts on the server, with [lines] to read. *)
Definition start (server : Server) (lines : list string)
  : process.t Server :=
  process.mk server lines [] [].

Definition client : gitlab_client.Client :=
  gitlab_client.NewClient "https://gitlab.example.com/" "secret" false.

(** Flags of [bulk-mr] with no origin, and flags with all that is
    required. *)
Definition noOrigin : main.bulkMRFlags :=
  main.mkBulkMRFlags EmptyString "op-rc" "https://gitlab.example.com"
    "secret" EmptyString false ["group/repo-a"].

Definition twoProjects : main.bulkMRFlags :=
  main.mkBulkMRFlags "op-stage" "op-rc" "https://gitlab.example.com"
    "secret" "group" false ["a"; "other/b"].

Definition topicFlags : main.bulkMRTopicFlags :=
  main.mkBulkMRTopicFlags "op-stage" "op-rc" "backend"
    "https://gitlab.example.com/" "secret" 2 false.

Definition mergeBackend : main.mergeFlags :=
  main.mkMergeFlags "op-rc" "backend" "https://gitlab.example.com" "secret".

(** What [fs.Usage] prints in the examples. *)
Definition usage (p : process.t Server) : process.t Server :=
  process.print "Usage:" p.

End httptest.

(** ** Runs for the examples *)

Module Examples.

Import gitlab.
Import bulkmr.
Import bulkmr_test.
Import Protocol.

#[local] Existing Instance httptest.library.
#[local] Existing Instance gitlab_client.session_client.

(** A batch in two parts on the client of the first and the fourth test. *)
Definition runFirst :=
  ProcessProjects (H := GoStrings.asciiOnly)
    (mkService repoAD (withProjects ["group/repo-a"] configAll)).

Definition runSecond :=
  ProcessProjects (H := GoStrings.asciiOnly)
    (mkService (client (serviceOf runFirst))
       (withProjects ["group/repo-d"] configAll)).

(** A batch on a client of functions that keeps the contract. *)
Definition runHealthy :=
  ProcessProjects (H := GoStrings.asciiOnly) (mkService healthy configAll).

(** The commands on the platform of the examples. *)
Definition runTwoProjects :=
  main.bulkMRCommand (H := GoStrings.asciiOnly) httptest.usage
    httptest.twoProjects (httptest.start httptest.backend []).

Definition runTopic :=
  main.bulkMRTopicCommand (H := GoStrings.asciiOnly) 2 httptest.usage
    httptest.topicFlags (httptest.start httptest.backend []).

(** A project the platform of the examples does not know, through the
    client of [internal/gitlab]. *)
Definition runProduction :=
  processProject (H := GoStrings.asciiOnly) "group/a"
    (mkService (httptest.client, httptest.start httptest.backend [])
       (testConfig "group/a")).

Definition runMerge :=
  main.mergeCommand (H := GoStrings.asciiOnly) "  -target string"
    httptest.mergeBackend (httptest.start httptest.backend [" Yes "; "n"]).

End Examples.

(** * Properties *)

Module Properties.

Import GoStrings.
Import gitlab.
Import bulkmr.
Import bulkmr_test.
Import Vocabulary.

(** ** Splitting a run of [processProject] into its paths *)

Ltac run_simpl H :=
  cbv beta iota zeta in H; cbn [app negb config client] in H.

Ltac run_step H :=
  match type of H with
  | context [GetProject ?a ?b] =>
      destruct (GetProject a b) as [[? [?|]] ?] eqn:?
  | context [BranchExists ?a ?b ?c] =>
      destruct (BranchExists a b c) as [[[|] [?|]] ?] eqn:?
  | context [FindOpenMergeRequests ?a ?b ?c ?d] =>
      destruct (FindOpenMergeRequests a b c d) as [[? [?|]] ?] eqn:?
  | context [CompareBranches ?a ?b ?c ?d] =>
      destruct (CompareBranches a b c d) as [[? [?|]] ?] eqn:?
  | context [CreateMergeRequest ?a ?b ?c ?d ?e ?f] =>
      destruct (CreateMergeRequest a b c d e f) as [[? [?|]] ?] eqn:?
  | context [match ?x with _ => _ end] => is_var x; destruct x
  | context [negb ?x] => is_var x; destruct x
  | context [if Verbose ?c then _ else _] => destruct (Verbose c) eqn:?
  | context [if 0 <? ?n then _ else _] => destruct (0 <? n) eqn:?
  | context [Compare.HasChanges ?c] => destruct (Compare.HasChanges c) eqn:?
  | context [scanExisting ?a ?b ?c ?d] =>
      destruct (scanExisting a b c d) as [[? ?] ?] eqn:?
  end.

Ltac split_run H :=
  unfold processProject in H;
  cbv beta iota delta [bind ret getConfig callGetProject callBranchExists
    callCompareBranches callFindOpenMergeRequests callCreateMergeRequest
    when logPrintf deref] in H;
  run_simpl H;
  repeat (run_step H; run_simpl H).

(** Every path of the run, with its outcome, final state and trace named. *)
Ltac run_cases H := split_run H; inversion H; subst; clear H.

(** An explicit trace ends with its last event. *)
Ltac ends_with :=
  match goal with
  | |- exists before, ?l = before ++ [_] =>
      exists (removelast l); reflexivity
  end.

(** Which events of an explicit trace an assumed event can be. *)
Ltac pick_event H :=
  cbn [In] in H;
  repeat match type of H with
  | _ \/ _ => destruct H as [H | H]
  end;
  try contradiction; try discriminate H;
  try (injection H as ?; subst).

(** The tests for equality of two explicit statuses, evaluated. *)
Ltac eval_eqb :=
  repeat match goal with
  | |- context [String.eqb ?a ?b] =>
      let v := eval vm_compute in (String.eqb a b) in
      change (String.eqb a b) with v
  end.

(** ** The draft predicate *)

Section Draft.

Context `{UnicodeTables}.

#[local] Arguments String.append !_ _ / : simpl nomatch.

Lemma append_assoc (a b c : string) : (a +:+ b) +:+ c = a +:+ b +:+ c.
Proof. induction a as [|x a IH]; cbn; congruence. Qed.

Lemma allASCII_app (a b : string) :
  allASCII (a +:+ b) = allASCII a && allASCII b.
Proof.
  induction a as [|x a IH]; cbn; [reflexivity|].
  rewrite IH. now rewrite andb_assoc.
Qed.

Lemma mapBytes_app (f : ascii -> ascii) (a b : string) :
  mapBytes f (a +:+ b) = mapBytes f a +:+ mapBytes f b.
Proof. induction a as [|x a IH]; cbn; congruence. Qed.

Lemma asciiSpace_ASCII (c : ascii) : asciiSpace c = true -> nonASCII c = false.
Proof.
  unfold asciiSpace, nonASCII. intros E.
  apply N.leb_gt. apply orb_true_iff in E as [E | E].
  - apply andb_true_iff in E as [_ E]. apply N.leb_le in E. lia.
  - apply N.eqb_eq in E. lia.
Qed.

Lemma noSpace_folded (w : string) :
  noSpace (mapBytes lowerByte w) = true -> noSpace w = true.
Proof.
  induction w as [|c w IH]; cbn; [trivial|].
  intros E. apply andb_true_iff in E as [E1 E2].
  rewrite (IH E2), andb_true_r.
  destruct (asciiSpace c) eqn:Ec; [|reflexivity].
  destruct (asciiSpace (lowerByte c)) eqn:El; [discriminate E1|].
  unfold lowerByte in El. destruct (isUpper c) eqn:Eu; [|congruence].
  exfalso. unfold isUpper in Eu. apply andb_true_iff in Eu as [E3 E4].
  apply N.leb_le in E3, E4. unfold asciiSpace in Ec.
  apply orb_true_iff in Ec as [Ec | Ec].
  - apply andb_true_iff in Ec as [_ Ec]. apply N.leb_le in Ec. lia.
  - apply N.eqb_eq in Ec. lia.
Qed.

(** On ASCII input [ToLower] lowers each byte. *)
Lemma ToLower_ASCII (s : string) :
  allASCII s = true -> ToLower s = mapBytes lowerByte s.
Proof.
  intros Ha. unfold ToLower. rewrite Ha.
  destruct (hasUpper s) eqn:Eu; [reflexivity|]. cbn [negb].
  clear Ha. induction s as [|c s IH]; [reflexivity|].
  cbn in Eu. apply orb_false_iff in Eu as [Ec Es].
  cbn. unfold lowerByte at 1. rewrite Ec. now rewrite <- IH.
Qed.

(** The first loop of [TrimSpace] on ASCII input: the white space at the
    front goes. *)
Lemma trimStart_ASCII (s : string) :
  allASCII s = true ->
  exists ws t,
    s = ws +:+ t /\ allSpaces ws = true /\ trimStart s = (false, t).
Proof.
  induction s as [|c s IH]; intros Ha.
  - now exists EmptyString, EmptyString.
  - cbn in Ha. apply andb_true_iff in Ha as [Hc Hs].
    apply negb_true_iff in Hc. cbn [trimStart]. rewrite Hc.
    destruct (asciiSpace c) eqn:Ec.
    + destruct (IH Hs) as (ws & t & -> & Hws & Ht).
      exists (String c ws), t. cbn. rewrite Ec, Hws. now split.
    + now exists EmptyString, (String c s).
Qed.

Lemma trimStart_spaces (ws : string) (c : ascii) (r : string) :
  allSpaces ws = true ->
  nonASCII c = false -> asciiSpace c = false ->
  trimStart (ws +:+ String c r) = (false, String c r).
Proof.
  intros Hws Hc Hsp. induction ws as [|x ws IH].
  - cbn. now rewrite Hc, Hsp.
  - cbn in Hws. apply andb_true_iff in Hws as [Hx Hws].
    cbn. rewrite (asciiSpace_ASCII _ Hx), Hx. now apply IH.
Qed.

(** The second loop of [TrimSpace] on ASCII input: the white space at the
    back goes. *)
Lemma trimStop_ASCII (s : string) :
  allASCII s = true ->
  exists k ws,
    s = k +:+ ws /\ allSpaces ws = true /\ trimStop s = (false, k).
Proof.
  induction s as [|c s IH]; intros Ha.
  - now exists EmptyString, EmptyString.
  - cbn in Ha. apply andb_true_iff in Ha as [Hc Hs].
    apply negb_true_iff in Hc.
    destruct (IH Hs) as (k & ws & -> & Hws & Hk).
    cbn [trimStop]. rewrite Hk. destruct k as [|y k].
    + rewrite Hc. destruct (asciiSpace c) eqn:Ec.
      * exists EmptyString, (String c ws). cbn. rewrite Ec. now split.
      * now exists (String c EmptyString), ws.
    + now exists (String c (String y k)), ws.
Qed.

(** A word without white space at the front of the input stays. *)
Lemma trimStop_keeps (w rest : string) :
  allASCII (w +:+ rest) = true ->
  noSpace w = true ->
  exists rest', trimStop (w +:+ rest) = (false, w +:+ rest').
Proof.
  induction w as [|c w IH]; intros Ha Hw.
  - cbn in *. destruct (trimStop_ASCII _ Ha) as (k & ws & _ & _ & Hk).
    now exists k.
  - cbn in Ha, Hw. apply andb_true_iff in Ha as [Hc Ha].
    apply andb_true_iff in Hw as [Hsp Hw].
    apply negb_true_iff in Hc, Hsp.
    destruct (IH Ha Hw) as (rest' & Hk). exists rest'.
    cbn [append trimStop]. rewrite Hk.
    destruct (w +:+ rest'); [now rewrite Hc, Hsp | reflexivity].
Qed.

(** A string starts with [p] when it is [p] followed by something. *)
Lemma HasPrefix_split (s p : string) :
  HasPrefix s p = true <-> exists rest, s = p +:+ rest.
Proof.
  unfold HasPrefix. revert s. induction p as [|a p IH]; intros s.
  - cbn. split; [intros _; now exists s | destruct s; reflexivity].
  - destruct s as [|b s]; cbn.
    + split; [discriminate | intros (rest & E); discriminate E].
    + destruct (ascii_dec a b) as [->|Hab].
      * rewrite IH. split; intros (rest & E); exists rest; congruence.
      * split; [discriminate | intros (rest & E); congruence].
Qed.

Lemma mapBytes_split (f : ascii -> ascii) (s p rest : string) :
  mapBytes f s = p +:+ rest ->
  exists w r, s = w +:+ r /\ mapBytes f w = p.
Proof.
  revert s. induction p as [|a p IH]; intros s E.
  - now exists EmptyString, s.
  - destruct s as [|b s]; [discriminate E|].
    cbn in E. injection E as Ea E.
    destruct (IH _ E) as (w & r & -> & Hw).
    exists (String b w), r. cbn. now rewrite Ea, Hw.
Qed.

(** On an ASCII title, the test for a prefix after [TrimSpace] and [ToLower]
    is the test for white space, then the prefix in any case. *)
Lemma folded_prefix_ASCII (title p : string) :
  allASCII title = true ->
  p <> EmptyString ->
  noSpace p = true ->
  HasPrefix (ToLower (TrimSpace title)) p = true <-> startsWithFolded p title.
Proof.
  intros Ha Hp Hns. split.
  - intros Hpre.
    destruct (trimStart_ASCII _ Ha) as (ws & t & -> & Hws & Ht).
    rewrite allASCII_app in Ha. apply andb_true_iff in Ha as [_ Ha].
    destruct (trimStop_ASCII _ Ha) as (k & ws2 & -> & Hws2 & Hk).
    rewrite allASCII_app in Ha. apply andb_true_iff in Ha as [Ha _].
    unfold TrimSpace in Hpre. rewrite Ht, Hk in Hpre.
    rewrite (ToLower_ASCII _ Ha) in Hpre.
    apply HasPrefix_split in Hpre as (rest & E).
    apply mapBytes_split in E as (w & r & -> & Hw).
    exists ws, w, (r +:+ ws2). rewrite append_assoc. now repeat split.
  - intros (ws & w & rest & -> & Hws & Hw).
    assert (Hnw : noSpace w = true) by (apply noSpace_folded; now rewrite Hw).
    rewrite allASCII_app in Ha. apply andb_true_iff in Ha as [_ Ha].
    destruct w as [|c w]; [cbn in Hw; congruence|].
    pose proof Ha as Ha'. pose proof Hnw as Hnw'.
    cbn in Ha', Hnw'. apply andb_true_iff in Ha' as [Hc _].
    apply andb_true_iff in Hnw' as [Hsp _].
    apply negb_true_iff in Hc, Hsp.
    unfold TrimSpace.
    change (String c w +:+ rest) with (String c (w +:+ rest)).
    rewrite (trimStart_spaces _ _ _ Hws Hc Hsp).
    change (String c (w +:+ rest)) with (String c w +:+ rest).
    destruct (trimStop_keeps _ _ Ha Hnw) as (rest' & Hk). rewrite Hk.
    assert (Hk' : allASCII (String c w +:+ rest') = true).
    { destruct (trimStop_ASCII _ Ha) as (k & ws2 & E & _ & Hk2).
      rewrite Hk in Hk2. injection Hk2 as <-. rewrite E in Ha.
      rewrite allASCII_app in Ha. now apply andb_true_iff in Ha as [Ha _]. }
    rewrite (ToLower_ASCII _ Hk'), mapBytes_app, Hw.
    apply HasPrefix_split. now eexists.
Qed.

(** C3. The draft predicate is true exactly when the [Draft] flag is true,
    or the title, trimmed of the white space around it and lower-cased,
    starts with "draft:" or with "wip:".  On a title of ASCII bytes this is:
    the title is white space, then "draft:" or "wip:" in any case, then
    anything.  A title that only contains the word Draft is no draft; the
    cases listed with the property are as listed. *)
Theorem IsDraft_iff (mr : MergeRequest.t) :
  (MergeRequest.IsDraft mr = true <->
   MergeRequest.Draft mr = true
   \/ HasPrefix (ToLower (TrimSpace (MergeRequest.Title mr))) "draft:" = true
   \/ HasPrefix (ToLower (TrimSpace (MergeRequest.Title mr))) "wip:" = true)
  /\ (allASCII (MergeRequest.Title mr) = true ->
      (MergeRequest.IsDraft mr = true <->
       MergeRequest.Draft mr = true
       \/ startsWithFolded "draft:" (MergeRequest.Title mr)
       \/ startsWithFolded "wip:" (MergeRequest.Title mr)))
  /\ (MergeRequest.Draft mr = true -> MergeRequest.IsDraft mr = true)
  /\ (MergeRequest.Title mr = "Draft: Implement X" ->
      MergeRequest.IsDraft mr = true)
  /\ (MergeRequest.Title mr = "  wip: Y" -> MergeRequest.IsDraft mr = true)
  /\ (MergeRequest.Title mr = "This is a Draft version" ->
      MergeRequest.IsDraft mr = MergeRequest.Draft mr)
  /\ (MergeRequest.Title mr = "Merge a into b" ->
      MergeRequest.IsDraft mr = MergeRequest.Draft mr).
Proof.
  assert (Hiff :
    MergeRequest.IsDraft mr = true <->
    MergeRequest.Draft mr = true
    \/ HasPrefix (ToLower (TrimSpace (MergeRequest.Title mr))) "draft:" = true
    \/ HasPrefix (ToLower (TrimSpace (MergeRequest.Title mr))) "wip:" = true).
  { unfold MergeRequest.IsDraft. destruct (MergeRequest.Draft mr).
    - split; [now left | reflexivity].
    - rewrite orb_true_iff. split; [now right | now intros [E|E]]. }
  split; [exact Hiff|]. split.
  - intros Ha. rewrite Hiff.
    rewrite (folded_prefix_ASCII _ "draft:" Ha) by (discriminate || reflexivity).
    rewrite (folded_prefix_ASCII _ "wip:" Ha) by (discriminate || reflexivity).
    reflexivity.
  - unfold MergeRequest.IsDraft.
    repeat split; intros E; rewrite E; try reflexivity;
      destruct (MergeRequest.Draft mr); reflexivity.
Qed.

End Draft.

(** ** The scan of the open merge requests *)

Section Scan.

Context `{UnicodeTables}.

Lemma lastOr_cons {A : Type} (d : option A) (x : A) (l : list A) :
  lastOr (Some x) l = lastOr d (x :: l).
Proof.
  unfold lastOr. rewrite last_cons. destruct (last l); reflexivity.
Qed.

Lemma scanExisting_drafts (mrs : list MergeRequest.t) :
  Forall draft mrs ->
  forall hasNonDraft draftMR result,
    scanExisting mrs hasNonDraft draftMR result
    = (hasNonDraft, lastOr draftMR mrs, result).
Proof.
  induction 1 as [|mr rest Hmr _ IH]; intros h d r.
  - reflexivity.
  - cbn [scanExisting]. red in Hmr. rewrite Hmr. cbn [negb].
    rewrite IH. now rewrite (lastOr_cons d).
Qed.

Lemma scanExisting_nondraft (drafts : list MergeRequest.t) mr rest :
  Forall draft drafts ->
  MergeRequest.IsDraft mr = false ->
  forall hasNonDraft draftMR result,
    scanExisting (drafts ++ mr :: rest) hasNonDraft draftMR result
    = (true, lastOr draftMR drafts, existsResult mr result).
Proof.
  intros Hd Hmr. induction Hd as [|d0 drafts Hd0 _ IH]; intros h d r.
  - cbn [app scanExisting]. rewrite Hmr. reflexivity.
  - cbn [app scanExisting]. red in Hd0. rewrite Hd0. cbn [negb].
    rewrite IH. now rewrite (lastOr_cons d).
Qed.

(** A list of requests is all drafts, or splits at its first non-draft. *)
Lemma first_nondraft (mrs : list MergeRequest.t) :
  Forall draft mrs \/
  exists drafts mr rest,
    mrs = drafts ++ mr :: rest /\ Forall draft drafts
    /\ MergeRequest.IsDraft mr = false.
Proof.
  induction mrs as [|m mrs IH].
  - left. constructor.
  - destruct (MergeRequest.IsDraft m) eqn:Hm.
    + destruct IH as [IH | (drafts & mr & rest & -> & Hd & Hmr)].
      * left. now constructor.
      * right. exists (m :: drafts), mr, rest. repeat split; trivial.
        now constructor.
    + right. exists [], m, mrs. repeat split; trivial.
Qed.

(** The split at the first non-draft is unique. *)
Lemma first_nondraft_unique (d1 d2 : list MergeRequest.t) m1 m2 r1 r2 :
  d1 ++ m1 :: r1 = d2 ++ m2 :: r2 ->
  Forall draft d1 -> MergeRequest.IsDraft m1 = false ->
  Forall draft d2 -> MergeRequest.IsDraft m2 = false ->
  d1 = d2 /\ m1 = m2 /\ r1 = r2.
Proof.
  revert d2. induction d1 as [|a d1 IH]; intros [|b d2] E H1 N1 H2 N2;
    cbn in E; injection E as -> E.
  - now subst.
  - inversion H2; subst. unfold draft in *. congruence.
  - inversion H1; subst. unfold draft in *. congruence.
  - inversion H1; inversion H2; subst.
    destruct (IH _ E) as (-> & -> & ->); auto.
Qed.

(** The two ways the scan of a non-empty list ends. *)
Lemma scanExisting_cases (mrs : list MergeRequest.t) result b d p :
  mrs <> [] ->
  scanExisting mrs false None result = (b, d, p) ->
  (b = true
   /\ exists drafts mr rest,
       mrs = drafts ++ mr :: rest /\ Forall draft drafts
       /\ MergeRequest.IsDraft mr = false /\ p = existsResult mr result)
  \/ (b = false /\ Forall draft mrs /\ p = result
      /\ exists mr, d = Some mr /\ last mrs = Some mr).
Proof.
  intros Hne E.
  destruct (first_nondraft mrs) as [Hall | (drafts & mr & rest & -> & Hd & Hmr)].
  - right. rewrite (scanExisting_drafts _ Hall) in E.
    injection E as <- <- <-. repeat split; trivial.
    unfold lastOr. destruct (last mrs) as [mr|] eqn:Hl.
    + now exists mr.
    + apply last_None in Hl. contradiction.
  - left. rewrite (scanExisting_nondraft _ _ _ Hd Hmr) in E.
    injection E as <- <- <-. split; trivial.
    now exists drafts, mr, rest.
Qed.

Lemma drafts_have_no_nondraft (mrs : list MergeRequest.t) :
  Forall draft mrs ->
  Exists (fun mr => MergeRequest.IsDraft mr = false) mrs -> False.
Proof.
  intros Hall Hex. apply Exists_exists in Hex as (mr & Hin & Hmr).
  rewrite Forall_forall in Hall. apply Hall in Hin. red in Hin. congruence.
Qed.

Lemma len_not_pos {A : Type} (l : list A) : (0 <? len l) = false -> l = [].
Proof.
  destruct l; [reflexivity|]. unfold len. cbn [length]. intros E.
  apply Z.ltb_ge in E. lia.
Qed.

Lemma len_pos {A : Type} (l : list A) : (0 <? len l) = true -> l <> [].
Proof.
  intros E ->. discriminate E.
Qed.

End Scan.

Section Engine.

Context `{UnicodeTables} {C : Type} `{GitLabClient C}.

(** ** One repository *)

(** C1. When the query for open merge requests answers a non-empty list, the
    result is that of one scan of the list in order: the first request that
    is not a draft gives SKIPPED_EXISTS with its ID, IID and URL and a detail
    citing its display number, whatever follows it in the list; when all
    are drafts, the last one gives SKIPPED_DRAFT with its ID, IID and URL and
    a detail citing its display number and title.  The query is the last
    event of the run. *)
Theorem processProject_scans_open_requests
  (s s' : Service C) (projectPath : string) (o : outcome ProjectResult)
  (evs : list Event) (pid : Z) (src tgt : string)
  (mrs : list MergeRequest.t) :
  processProject projectPath s = (o, s', evs) ->
  In (CallFindOpenMergeRequests pid src tgt mrs None) evs ->
  mrs <> [] ->
  (forall drafts mr rest,
      mrs = drafts ++ mr :: rest ->
      Forall draft drafts ->
      MergeRequest.IsDraft mr = false ->
      o = Returned
            (mkProjectResult projectPath StatusSkippedExists
               (MergeRequest.ID mr) (MergeRequest.IID mr)
               (MergeRequest.WebURL mr) EmptyString
               ("Open MR already exists: !" +:+ fmt_d (MergeRequest.IID mr))))
  /\ (forall mr,
      Forall draft mrs ->
      last mrs = Some mr ->
      o = Returned
            (mkProjectResult projectPath StatusSkippedDraft
               (MergeRequest.ID mr) (MergeRequest.IID mr)
               (MergeRequest.WebURL mr) EmptyString
               ("Draft MR exists: !" +:+ fmt_d (MergeRequest.IID mr)
                +:+ " (" +:+ MergeRequest.Title mr +:+ ")")))
  /\ (exists before,
      evs = before ++ [CallFindOpenMergeRequests pid src tgt mrs None]).
Proof.
  intros Hrun Hin Hne.
  run_cases Hrun; pick_event Hin.
  all: try (match goal with
            | E : (0 <? len _) = false |- _ => apply len_not_pos in E; congruence
            end).
  all: match goal with
       | E : scanExisting _ _ _ _ = _ |- _ =>
           split; [| split; [| ends_with]];
           [ intros drafts mr rest -> Hd Hmr;
             rewrite (scanExisting_nondraft _ _ _ Hd Hmr) in E
           | intros mr Hall Hlast;
             rewrite (scanExisting_drafts _ Hall) in E;
             unfold lastOr in E; rewrite Hlast in E ];
           inversion E; subst; reflexivity
       end.
Qed.

(** C2. When the query for open merge requests answers at least one request,
    draft or not, the run calls neither [CompareBranches] nor
    [CreateMergeRequest], it returns a result, and the status of the result
    is not CREATED; when one of the requests is not a draft the status is
    SKIPPED_EXISTS.  The query is for the configured pair of branches. *)
Theorem open_request_ends_the_run
  (s s' : Service C) (projectPath : string) (o : outcome ProjectResult)
  (evs : list Event) (pid : Z) (src tgt : string)
  (mrs : list MergeRequest.t) :
  processProject projectPath s = (o, s', evs) ->
  In (CallFindOpenMergeRequests pid src tgt mrs None) evs ->
  mrs <> [] ->
  Forall (fun e => isCompareBranches e = false
                   /\ isCreateMergeRequest e = false) evs
  /\ src = OriginBranch (config s) /\ tgt = TargetBranch (config s)
  /\ exists r,
      o = Returned r
      /\ Status r <> StatusCreated
      /\ (Exists (fun mr => MergeRequest.IsDraft mr = false) mrs ->
          Status r = StatusSkippedExists).
Proof.
  intros Hrun Hin Hne.
  run_cases Hrun; pick_event Hin.
  all: try (match goal with
            | E : (0 <? len _) = false |- _ => apply len_not_pos in E; congruence
            end).
  all: match goal with
       | E : scanExisting _ _ _ _ = _ |- _ =>
           apply (scanExisting_cases _ _ _ _ _ Hne) in E;
           destruct E as [(Hb & drafts & mr & rest & -> & Hd & Hmr & ->)
                         | (Hb & Hall & -> & mr & Hmr & Hlast)];
           try discriminate Hb; try discriminate Hmr
       end.
  all: split; [repeat constructor|]; split; [reflexivity|];
       split; [reflexivity|]; eexists; split; [reflexivity|]; split;
       [discriminate|]; intros Hex; try reflexivity;
       exfalso; eapply drafts_have_no_nondraft; eassumption.
Qed.

(** C4. When a check of a branch answers that the branch does not exist, the
    result is SKIPPED_NO_BRANCH and the run makes no query for merge
    requests, no comparison and no creation.  The origin branch is checked
    first: either it is the missing one, the run ends there without a check
    of the target branch and the detail names the origin branch; or the
    origin branch exists, the target branch is the missing one and the
    detail names the target branch. *)
Theorem missing_branch_skips
  (s s' : Service C) (projectPath : string) (o : outcome ProjectResult)
  (evs : list Event) (pid : Z) (branch : string) :
  processProject projectPath s = (o, s', evs) ->
  In (CallBranchExists pid branch false None) evs ->
  Forall (fun e => isFindOpenMergeRequests e = false
                   /\ isCompareBranches e = false
                   /\ isCreateMergeRequest e = false) evs
  /\ ((exists project,
        calls evs =
          [CallGetProject projectPath (Some project) None;
           CallBranchExists (Project.ID project) (OriginBranch (config s))
             false None]
        /\ o = Returned
                 (mkProjectResult projectPath StatusSkippedBranch 0 0
                    EmptyString EmptyString
                    ("Origin branch '" +:+ OriginBranch (config s)
                     +:+ "' does not exist")))
      \/ (exists project,
        calls evs =
          [CallGetProject projectPath (Some project) None;
           CallBranchExists (Project.ID project) (OriginBranch (config s))
             true None;
           CallBranchExists (Project.ID project) (TargetBranch (config s))
             false None]
        /\ o = Returned
                 (mkProjectResult projectPath StatusSkippedBranch 0 0
                    EmptyString EmptyString
                    ("Target branch '" +:+ TargetBranch (config s)
                     +:+ "' does not exist")))).
Proof.
  intros Hrun Hin.
  run_cases Hrun; pick_event Hin.
  all: split; [repeat constructor|].
  all: (left; eexists; split; reflexivity)
       || (right; eexists; split; reflexivity).
Qed.

(** C5. When the comparison of the branches is reached and answers, both
    branches exist and the query for open merge requests answered none.
    Whether there are changes is whether the list of commits of the
    comparison is non-empty, whatever its diffs.  With no commit the result
    is SKIPPED_NO_CHANGE, its detail names both branches, and
    [CreateMergeRequest] is not called; with a commit it is called. *)
Theorem no_commits_skips
  (s s' : Service C) (projectPath : string) (o : outcome ProjectResult)
  (evs : list Event) (pid : Z) (src tgt : string) (cmp : Compare.t) :
  processProject projectPath s = (o, s', evs) ->
  In (CallCompareBranches pid src tgt (Some cmp) None) evs ->
  (Compare.HasChanges cmp = true <-> Compare.Commits cmp <> [])
  /\ (forall commit diffs,
       Compare.HasChanges (Compare.mk commit (Compare.Commits cmp) diffs)
       = Compare.HasChanges cmp)
  /\ (exists project after,
       calls evs =
         [CallGetProject projectPath (Some project) None;
          CallBranchExists (Project.ID project) (OriginBranch (config s))
            true None;
          CallBranchExists (Project.ID project) (TargetBranch (config s))
            true None;
          CallFindOpenMergeRequests (Project.ID project)
            (OriginBranch (config s)) (TargetBranch (config s)) [] None;
          CallCompareBranches (Project.ID project)
            (OriginBranch (config s)) (TargetBranch (config s))
            (Some cmp) None] ++ after
       /\ (Compare.Commits cmp = [] -> after = [])
       /\ (Compare.Commits cmp <> [] ->
           exists title description mr err,
             after = [CallCreateMergeRequest (Project.ID project)
                        (OriginBranch (config s)) (TargetBranch (config s))
                        title description mr err]))
  /\ (Compare.Commits cmp = [] ->
      o = Returned
            (mkProjectResult projectPath StatusSkippedNoChange 0 0
               EmptyString EmptyString
               ("No changes between " +:+ OriginBranch (config s)
                +:+ " and " +:+ TargetBranch (config s)))
      /\ Forall (fun e => isCreateMergeRequest e = false) evs).
Proof.
  intros Hrun Hin.
  assert (Hchg : forall c : Compare.t,
             Compare.HasChanges c = true <-> Compare.Commits c <> []).
  { intros c. unfold Compare.HasChanges. split.
    - intros E. apply (len_pos _ E).
    - intros Hne. destruct (Compare.Commits c); [congruence | reflexivity]. }
  split; [apply Hchg|]. split; [reflexivity|].
  run_cases Hrun; pick_event Hin.
  all: repeat match goal with
       | E : (0 <? len _) = false |- _ => apply len_not_pos in E; subst
       end.
  all: match goal with
       | E : Compare.HasChanges _ = true |- _ => apply Hchg in E
       | E : Compare.HasChanges ?c = false |- _ =>
           assert (Compare.Commits c = [])
             by (destruct (Compare.Commits c) eqn:?; [reflexivity|];
                 unfold Compare.HasChanges in E;
                 match goal with Q : Compare.Commits _ = _ |- _ =>
                   rewrite Q in E end; discriminate E);
           clear E
       end.
  all: split;
    [ eexists; eexists; split; [reflexivity|]; split;
      [ intros; first [reflexivity | contradiction]
      | intros; first [contradiction | repeat eexists] ]
    | intros; first [contradiction
                    | split; [reflexivity | repeat constructor]] ].
Qed.
(** C9. When creation is reached, that is when the comparison answered at
    least one commit (both branches exist and the query for open merge
    requests answered none), [CreateMergeRequest] is called for the
    configured branches with the title "Merge <origin> into <target>" and a
    description that names gitlab-tools as the automatic creator and
    restates both branches.  When the call succeeds the result is CREATED
    with the ID, IID and URL of the new request and a detail citing its
    display number and URL; when it fails the result is ERROR with the
    message of the failure. *)
Theorem creation_request_and_result
  (s s' : Service C) (projectPath : string) (o : outcome ProjectResult)
  (evs : list Event) (pid : Z) (src tgt : string) (cmp : Compare.t) :
  processProject projectPath s = (o, s', evs) ->
  In (CallCompareBranches pid src tgt (Some cmp) None) evs ->
  Compare.Commits cmp <> [] ->
  exists project mr err,
    calls evs =
      [CallGetProject projectPath (Some project) None;
       CallBranchExists (Project.ID project) (OriginBranch (config s))
         true None;
       CallBranchExists (Project.ID project) (TargetBranch (config s))
         true None;
       CallFindOpenMergeRequests (Project.ID project)
         (OriginBranch (config s)) (TargetBranch (config s)) [] None;
       CallCompareBranches (Project.ID project)
         (OriginBranch (config s)) (TargetBranch (config s)) (Some cmp) None;
       CallCreateMergeRequest (Project.ID project)
         (OriginBranch (config s)) (TargetBranch (config s))
         ("Merge " +:+ OriginBranch (config s)
          +:+ " into " +:+ TargetBranch (config s))
         ("This merge request was created automatically by gitlab-tools."
          +:+ LF +:+ LF
          +:+ "**Source Branch**: `" +:+ OriginBranch (config s) +:+ "`"
          +:+ LF
          +:+ "**Target Branch**: `" +:+ TargetBranch (config s) +:+ "`")
         mr err]
    /\ (forall created,
         mr = Some created -> err = None ->
         o = Returned
               (mkProjectResult projectPath StatusCreated
                  (MergeRequest.ID created) (MergeRequest.IID created)
                  (MergeRequest.WebURL created) EmptyString
                  ("MR !" +:+ fmt_d (MergeRequest.IID created) +:+ ": "
                   +:+ MergeRequest.WebURL created)))
    /\ (forall e,
         err = Some e ->
         o = Returned
               (mkProjectResult projectPath StatusError 0 0 EmptyString
                  ("failed to create merge request: " +:+ e) EmptyString)).
Proof.
  intros Hrun Hin Hne.
  run_cases Hrun; pick_event Hin.
  all: repeat match goal with
       | E : (0 <? len _) = false |- _ => apply len_not_pos in E; subst
       end.
  all: try (match goal with
            | E : Compare.HasChanges ?c = false |- _ =>
                exfalso; unfold Compare.HasChanges in E;
                destruct (Compare.Commits c); [congruence | discriminate E]
            end).
  all: do 3 eexists; split; [reflexivity|]; split; intros;
       first [discriminate | congruence | idtac].
  all: match goal with
       | E : Some _ = Some _ |- _ => injection E as <-
       end; reflexivity.
Qed.

(** ** What every run of [processProject] has in common *)

(** The configuration is left as it was; [GetProject] is called once, for the
    path of the run; a result carries that path and one of the six statuses,
    and no call of its run answered a nil pointer with a nil error; a panic
    comes after such an answer. *)
Lemma processProject_facts
  (s s' : Service C) (projectPath : string) (o : outcome ProjectResult)
  (evs : list Event) :
  processProject projectPath s = (o, s', evs) ->
  config s' = config s
  /\ projectPaths evs = [projectPath]
  /\ match o with
     | Returned r =>
         Project r = projectPath
         /\ In (Status r) statuses
         /\ Forall (fun e => nilAnswer e = false) evs
     | Panicked => Exists (fun e => nilAnswer e = true) evs
     end.
Proof.
  intros Hrun.
  run_cases Hrun.
  all: split; [reflexivity|]; split; [reflexivity|].
  all: try (match goal with
       | E : (0 <? len _) = true, E' : scanExisting _ _ _ _ = _ |- _ =>
           apply len_pos in E;
           apply (scanExisting_cases _ _ _ _ _ E) in E';
           destruct E' as [(Hb & drafts & mr & rest & -> & Hd & Hmr & ->)
                          | (Hb & Hall & -> & mr & Hmr & Hlast)];
           try discriminate Hb; try discriminate Hmr
       end).
  all: try (split; [reflexivity|]; split;
            [ cbn; tauto
            | repeat constructor;
              match goal with
              | |- nilAnswer _ = false =>
                  first [ reflexivity
                        | match goal with
                          | x : option _ |- _ => destruct x; reflexivity
                          end ]
              end ]).
  all: repeat first [ apply Exists_cons_hd; reflexivity
                    | apply Exists_cons_tl ].
Qed.

(** ** The loop of [ProcessProjects] *)

Lemma projectPaths_app (t1 t2 : list Event) :
  projectPaths (t1 ++ t2) = projectPaths t1 ++ projectPaths t2.
Proof.
  induction t1 as [|e t1 IH]; [reflexivity|].
  destruct e; cbn [app projectPaths]; rewrite IH; reflexivity.
Qed.

Lemma tallyAll_cons (r : ProjectResult) (rs : list ProjectResult)
  (summary : Summary) :
  tallyAll (r :: rs) summary = tallyAll rs (tally (Status r) summary).
Proof. reflexivity. Qed.

(** The loop returns after one run of [processProject] per path, or panics
    after a call answered a nil pointer with a nil error. *)
Lemma processLoop_runs (projects : list string) :
  forall (results : list ProjectResult) (summary : Summary)
         (s s' : Service C) (o : outcome (list ProjectResult * Summary))
         (evs : list Event),
    processLoop projects results summary s = (o, s', evs) ->
    match o with
    | Returned (results', summary') =>
        exists rs,
          results' = results ++ rs
          /\ summary' = tallyAll rs summary
          /\ runs projects s rs s' evs
    | Panicked => Exists (fun e => nilAnswer e = true) evs
    end.
Proof.
  induction projects as [|projectPath rest IH];
    intros results summary s s' o evs Hrun.
  - injection Hrun as <- <- <-. exists []. rewrite app_nil_r.
    repeat split. constructor.
  - cbn [processLoop] in Hrun. unfold bind in Hrun.
    destruct (processProject projectPath s) as [[o1 s1] t1] eqn:E1.
    pose proof (processProject_facts _ _ _ _ _ E1) as (_ & _ & Ho1).
    destruct o1 as [r|].
    + destruct (processLoop rest (results ++ [r])
                  (tally (Status r) summary) s1) as [[o2 s2] t2] eqn:E2.
      injection Hrun as <- <- <-.
      apply IH in E2. destruct o2 as [[results' summary']|].
      * destruct E2 as (rs & -> & -> & Hruns).
        exists (r :: rs). rewrite <- app_assoc. repeat split.
        econstructor; eassumption.
      * apply Exists_app. now right.
    + injection Hrun as <- <- <-. exact Ho1.
Qed.

Lemma ProcessProjects_loop (s : Service C) :
  ProcessProjects s
  = processLoop (Projects (config s)) []
      (mkSummary (len (Projects (config s))) 0 0 0 0 0 0) s.
Proof.
  unfold ProcessProjects, bind, getConfig.
  destruct (processLoop _ _ _ s) as [[o s'] evs]. reflexivity.
Qed.

(** What a chain of runs gives: a result per path, in order and carrying
    that path; a call of [GetProject] per path, in order; statuses among the
    six; the configuration untouched; no nil pointer answered with a nil
    error. *)
Lemma runs_facts (projects : list string) (s s' : Service C)
  (results : list ProjectResult) (evs : list Event) :
  runs projects s results s' evs ->
  map Project results = projects
  /\ projectPaths evs = projects
  /\ Forall (fun r => In (Status r) statuses) results
  /\ config s' = config s
  /\ Forall (fun e => nilAnswer e = false) evs.
Proof.
  induction 1 as [s|projectPath rest s s1 s2 r rs t1 t2 Hrun _ IH].
  - repeat split; constructor.
  - destruct IH as (Hmap & Hpaths & Hst & Hcfg & Hnil).
    apply processProject_facts in Hrun as (Hcfg1 & Hp1 & Hproj & Hs1 & Hnil1).
    repeat split.
    + cbn [map]. now rewrite Hproj, Hmap.
    + now rewrite projectPaths_app, Hp1, Hpaths.
    + now constructor.
    + congruence.
    + apply Forall_app. now split.
Qed.

(** ** The summary *)

Lemma incr_small (x : Z) : 0 <= x < maxInt -> incr x = x + 1.
Proof.
  unfold incr, wrap, maxInt. intros Hx.
  rewrite Z.mod_small; lia.
Qed.

(** One of the six statuses increments its counter, and no other. *)
Lemma tally_step (status : ResultStatus) (summary : Summary) :
  In status statuses ->
  nonneg summary ->
  counted summary < maxInt ->
  let summary' := tally status summary in
  Total summary' = Total summary
  /\ Created summary' = Created summary + one_if status StatusCreated
  /\ SkippedExists summary'
     = SkippedExists summary + one_if status StatusSkippedExists
  /\ SkippedDraft summary'
     = SkippedDraft summary + one_if status StatusSkippedDraft
  /\ SkippedBranch summary'
     = SkippedBranch summary + one_if status StatusSkippedBranch
  /\ SkippedNoChange summary'
     = SkippedNoChange summary + one_if status StatusSkippedNoChange
  /\ Errors summary' = Errors summary + one_if status StatusError.
Proof.
  unfold nonneg, counted, statuses. intros Hin Hpos Hsum.
  cbn [In] in Hin.
  destruct Hin as [<-|[<-|[<-|[<-|[<-|[<-|[]]]]]]];
    unfold tally, one_if; eval_eqb; cbv iota;
    cbn [Total Created SkippedExists SkippedDraft SkippedBranch
         SkippedNoChange Errors];
    rewrite incr_small by lia; repeat split; lia.
Qed.

Lemma countStatus_cons (status : ResultStatus) (r : ProjectResult)
  (rs : list ProjectResult) :
  countStatus status (r :: rs)
  = one_if (Status r) status + countStatus status rs.
Proof.
  unfold countStatus, one_if, len. cbn [List.filter].
  destruct (String.eqb (Status r) status); cbn [length]; lia.
Qed.

(** Each result counts for exactly one of the six statuses. *)
Lemma countStatus_total (rs : list ProjectResult) :
  Forall (fun r => In (Status r) statuses) rs ->
  countStatus StatusCreated rs + countStatus StatusSkippedExists rs
  + countStatus StatusSkippedDraft rs + countStatus StatusSkippedBranch rs
  + countStatus StatusSkippedNoChange rs + countStatus StatusError rs
  = len rs.
Proof.
  induction 1 as [|r rs Hr _ IH]; [reflexivity|].
  rewrite !countStatus_cons.
  replace (len (r :: rs)) with (1 + len rs)
    by (unfold len; cbn [length]; lia).
  rewrite <- IH. unfold statuses in Hr. cbn [In] in Hr.
  destruct Hr as [<-|[<-|[<-|[<-|[<-|[<-|[]]]]]]];
    unfold one_if; eval_eqb; cbv iota; lia.
Qed.

(** The counters after the loop, by the results it has seen, as long as the
    number of results fits a 64-bit integer. *)
Lemma tallyAll_counts (rs : list ProjectResult) :
  forall summary : Summary,
    Forall (fun r => In (Status r) statuses) rs ->
    nonneg summary ->
    counted summary + len rs <= maxInt ->
    let summary' := tallyAll rs summary in
    Total summary' = Total summary
    /\ Created summary' = Created summary + countStatus StatusCreated rs
    /\ SkippedExists summary'
       = SkippedExists summary + countStatus StatusSkippedExists rs
    /\ SkippedDraft summary'
       = SkippedDraft summary + countStatus StatusSkippedDraft rs
    /\ SkippedBranch summary'
       = SkippedBranch summary + countStatus StatusSkippedBranch rs
    /\ SkippedNoChange summary'
       = SkippedNoChange summary + countStatus StatusSkippedNoChange rs
    /\ Errors summary' = Errors summary + countStatus StatusError rs.
Proof.
  induction rs as [|r rs IH]; intros summary Hst Hpos Hsum.
  - unfold countStatus, len. cbn. repeat split; lia.
  - inversion Hst as [|? ? Hr Hrs]; subst.
    assert (Hlen : len (r :: rs) = 1 + len rs)
      by (unfold len; cbn [length]; lia).
    assert (0 <= len rs) by (unfold len; lia).
    destruct (tally_step (Status r) summary Hr Hpos ltac:(lia))
      as (KT & K1 & K2 & K3 & K4 & K5 & K6).
    assert (Hone : forall st, 0 <= one_if (Status r) st <= 1)
      by (intros st; unfold one_if; destruct (String.eqb _ _); lia).
    assert (Hsum1 :
      one_if (Status r) StatusCreated + one_if (Status r) StatusSkippedExists
      + one_if (Status r) StatusSkippedDraft
      + one_if (Status r) StatusSkippedBranch
      + one_if (Status r) StatusSkippedNoChange
      + one_if (Status r) StatusError = 1).
    { unfold statuses in Hr. cbn [In] in Hr.
      destruct Hr as [<-|[<-|[<-|[<-|[<-|[<-|[]]]]]]];
        unfold one_if; eval_eqb; cbv iota; lia. }
    pose proof (Hone StatusCreated). pose proof (Hone StatusSkippedExists).
    pose proof (Hone StatusSkippedDraft). pose proof (Hone StatusSkippedBranch).
    pose proof (Hone StatusSkippedNoChange). pose proof (Hone StatusError).
    unfold nonneg, counted in *.
    rewrite tallyAll_cons.
    destruct (IH (tally (Status r) summary) Hrs) as
      (KT' & K1' & K2' & K3' & K4' & K5' & K6');
      [unfold nonneg; lia | unfold counted; lia |].
    rewrite !countStatus_cons. cbv zeta. repeat split; lia.
Qed.

Lemma statuses_distinct : NoDup statuses.
Proof.
  apply (bool_decide_unpack _). vm_compute. exact I.
Qed.

(** C6. For the results and the summary [ProcessProjects] returns, over a
    list of paths whose length fits a 64-bit integer (as the length of any
    slice does): [Total] is the number of paths, which is also the number of
    results; every result carries one of the six statuses, which are
    pairwise distinct; each counter is the number of results with its
    status; and the six counters add up to [Total]. *)
Theorem summary_consistent
  (s s' : Service C) (results : list ProjectResult) (summary : Summary)
  (evs : list Event) :
  ProcessProjects s = (Returned (results, summary), s', evs) ->
  len (Projects (config s)) <= maxInt ->
  Total summary = len (Projects (config s))
  /\ len results = len (Projects (config s))
  /\ Forall (fun r => In (Status r) statuses) results
  /\ NoDup statuses
  /\ Created summary = countStatus StatusCreated results
  /\ SkippedExists summary = countStatus StatusSkippedExists results
  /\ SkippedDraft summary = countStatus StatusSkippedDraft results
  /\ SkippedBranch summary = countStatus StatusSkippedBranch results
  /\ SkippedNoChange summary = countStatus StatusSkippedNoChange results
  /\ Errors summary = countStatus StatusError results
  /\ Created summary + SkippedExists summary + SkippedDraft summary
     + SkippedBranch summary + SkippedNoChange summary + Errors summary
     = Total summary.
Proof.
  intros Hrun Hlen.
  rewrite ProcessProjects_loop in Hrun.
  apply processLoop_runs in Hrun as (rs & -> & -> & Hruns).
  apply runs_facts in Hruns as (Hmap & _ & Hst & _ & _).
  cbn [app].
  assert (Hn : len rs = len (Projects (config s))).
  { unfold len. rewrite <- Hmap. now rewrite length_map. }
  destruct (tallyAll_counts rs
              (mkSummary (len (Projects (config s))) 0 0 0 0 0 0) Hst)
    as (KT & K1 & K2 & K3 & K4 & K5 & K6).
  { unfold nonneg. cbn. lia. }
  { unfold counted. cbn. lia. }
  cbn [Total Created SkippedExists SkippedDraft SkippedBranch
       SkippedNoChange Errors] in *.
  pose proof (countStatus_total rs Hst) as Hsum.
  repeat split; try assumption; try lia.
  apply statuses_distinct.
Qed.





End Engine.

(** C10. [processProject] reads [project.ID] without a nil check once the
    error of [GetProject] is nil.  With any client that answers a nil
    project and a nil error the run panics after that one call, instead of
    returning a result, and so does [ProcessProjects] when the path is the
    first of the configuration.  The in-memory client of the tests answers
    so for every path it does not know. *)
Theorem nil_project_panics `{UnicodeTables} :
  (forall (C : Type) (G : GitLabClient C) (s : Service C)
          (projectPath : string) (c : C),
      GetProject projectPath (client s) = (None, None, c) ->
      (exists evs,
          processProject projectPath s
          = (Panicked, mkService c (config s), evs)
          /\ calls evs = [CallGetProject projectPath None None])
      /\ (forall rest,
          Projects (config s) = projectPath :: rest ->
          exists evs,
            ProcessProjects s = (Panicked, mkService c (config s), evs)))
  /\ (forall (m : mockGitLabClient) (cfg : Config) (projectPath : string),
      projects m !! projectPath = None ->
      GetProject projectPath m = (None, None, m)
      /\ exists evs,
          processProject projectPath (mkService m cfg)
          = (Panicked, mkService m cfg, evs)).
Proof.
  assert (Hgen : forall (C : Type) (G : GitLabClient C) (s : Service C)
            (projectPath : string) (c : C),
            GetProject projectPath (client s) = (None, None, c) ->
            exists evs,
              processProject projectPath s
              = (Panicked, mkService c (config s), evs)
              /\ calls evs = [CallGetProject projectPath None None]).
  { intros C G s projectPath c Hget.
    unfold processProject, bind, getConfig, callGetProject, when, logPrintf,
      deref, ret.
    rewrite Hget. destruct (Verbose (config s));
      eexists; split; reflexivity. }
  split.
  - intros C G s projectPath c Hget.
    destruct (Hgen C G s projectPath c Hget) as (evs & Hrun & Hcalls).
    split; [now exists evs|].
    intros rest Hps. rewrite ProcessProjects_loop, Hps.
    cbn [processLoop]. unfold bind. rewrite Hrun. now exists evs.
  - intros m cfg projectPath Hm.
    assert (Hget : GetProject projectPath m = (None, None, m)).
    { cbn. unfold mockGetProject. now rewrite Hm. }
    split; [exact Hget|].
    destruct (Hgen _ _ (mkService m cfg) projectPath m Hget)
      as (evs & Hrun & _).
    now exists evs.
Qed.

(** ** The tests of the repository, on the model *)

(** Every case of the table passes, whatever the Unicode tables. *)
Lemma TestMergeRequest_IsDraft `{UnicodeTables} :
  Forall (fun t => MergeRequest.IsDraft t.1 = t.2) gitlab_test.tests.
Proof. repeat constructor. Qed.

Lemma TestProcessProject_BothBranchesExist_NoExistingMR_CreatesMR :
  exists result,
    outcomeOf runA = Returned result /\ Status result = StatusCreated.
Proof. eexists. split; vm_compute; reflexivity. Qed.

Lemma TestProcessProject_ExistingNonDraftMR_Skips :
  exists result,
    outcomeOf runB = Returned result /\ Status result = StatusSkippedExists.
Proof. eexists. split; vm_compute; reflexivity. Qed.

Lemma TestProcessProject_ExistingDraftMR_Skips :
  exists result,
    outcomeOf runC = Returned result /\ Status result = StatusSkippedDraft.
Proof. eexists. split; vm_compute; reflexivity. Qed.

Lemma TestProcessProject_MissingOriginBranch_Skips :
  exists result,
    outcomeOf runD = Returned result /\ Status result = StatusSkippedBranch.
Proof. eexists. split; vm_compute; reflexivity. Qed.

(** ** The properties at work on the clients of the tests *)

Section Witnesses.

#[local] Existing Instance asciiOnly.



(** C1 on the client of the second test: the open request is not a draft. *)
Lemma processProject_scans_open_requests_witness :
  runB = (outcomeOf runB, serviceOf runB, traceOf runB)
  /\ In (CallFindOpenMergeRequests 2 "op-stage" "op-rc" [mergeRequestB] None)
       (traceOf runB)
  /\ [mergeRequestB] <> []
  /\ outcomeOf runB
     = Returned
         (mkProjectResult "group/repo-b" StatusSkippedExists 100 10
            EmptyString EmptyString "Open MR already exists: !10").
Proof.
  assert (Hrun : runB = (outcomeOf runB, serviceOf runB, traceOf runB))
    by (vm_compute; reflexivity).
  assert (Hin : In (CallFindOpenMergeRequests 2 "op-stage" "op-rc"
                      [mergeRequestB] None) (traceOf runB))
    by (vm_compute; tauto).
  assert (Hne : [mergeRequestB] <> []) by discriminate.
  split; [exact Hrun|]. split; [exact Hin|]. split; [exact Hne|].
  apply (proj1 (processProject_scans_open_requests _ _ _ _ _ _ _ _ _
                  Hrun Hin Hne) [] mergeRequestB []);
    [reflexivity | constructor | reflexivity].
Defined.

(** C2 on the client of the third test: the open request is a draft. *)
Lemma open_request_ends_the_run_witness :
  runC = (outcomeOf runC, serviceOf runC, traceOf runC)
  /\ In (CallFindOpenMergeRequests 3 "op-stage" "op-rc" [mergeRequestC] None)
       (traceOf runC)
  /\ [mergeRequestC] <> []
  /\ Forall (fun e => isCompareBranches e = false
                      /\ isCreateMergeRequest e = false) (traceOf runC)
  /\ exists r, outcomeOf runC = Returned r /\ Status r <> StatusCreated.
Proof.
  assert (Hrun : runC = (outcomeOf runC, serviceOf runC, traceOf runC))
    by (vm_compute; reflexivity).
  assert (Hin : In (CallFindOpenMergeRequests 3 "op-stage" "op-rc"
                      [mergeRequestC] None) (traceOf runC))
    by (vm_compute; tauto).
  assert (Hne : [mergeRequestC] <> []) by discriminate.
  split; [exact Hrun|]. split; [exact Hin|]. split; [exact Hne|].
  destruct (open_request_ends_the_run _ _ _ _ _ _ _ _ _ Hrun Hin Hne)
    as (Hcalls & _ & _ & r & Hr & Hst & _).
  split; [exact Hcalls|]. exists r. now split.
Defined.

(** C4 on the client of the fourth test: the origin branch is missing. *)
Lemma missing_branch_skips_witness :
  runD = (outcomeOf runD, serviceOf runD, traceOf runD)
  /\ In (CallBranchExists 4 "op-stage" false None) (traceOf runD)
  /\ Forall (fun e => isFindOpenMergeRequests e = false
                      /\ isCompareBranches e = false
                      /\ isCreateMergeRequest e = false) (traceOf runD).
Proof.
  assert (Hrun : runD = (outcomeOf runD, serviceOf runD, traceOf runD))
    by (vm_compute; reflexivity).
  assert (Hin : In (CallBranchExists 4 "op-stage" false None) (traceOf runD))
    by (vm_compute; tauto).
  split; [exact Hrun|]. split; [exact Hin|].
  exact (proj1 (missing_branch_skips _ _ _ _ _ _ _ Hrun Hin)).
Defined.

(** C5 on a client whose comparison has a diff but no commit. *)
Lemma no_commits_skips_witness :
  let cmp :=
    Compare.mk (Commit.mk EmptyString EmptyString EmptyString) []
      [Diff.mk "a.txt" "a.txt" "100644" "100644" false false false] in
  runUnchanged
  = (outcomeOf runUnchanged, serviceOf runUnchanged, traceOf runUnchanged)
  /\ In (CallCompareBranches 7 "op-stage" "op-rc" (Some cmp) None)
       (traceOf runUnchanged)
  /\ outcomeOf runUnchanged
     = Returned
         (mkProjectResult "group/repo-a" StatusSkippedNoChange 0 0
            EmptyString EmptyString "No changes between op-stage and op-rc")
  /\ Forall (fun e => isCreateMergeRequest e = false) (traceOf runUnchanged).
Proof.
  cbv zeta.
  assert (Hrun : runUnchanged
                 = (outcomeOf runUnchanged, serviceOf runUnchanged,
                    traceOf runUnchanged))
    by (vm_compute; reflexivity).
  assert (Hin : In (CallCompareBranches 7 "op-stage" "op-rc"
                      (Some (Compare.mk
                               (Commit.mk EmptyString EmptyString EmptyString)
                               []
                               [Diff.mk "a.txt" "a.txt" "100644" "100644"
                                  false false false])) None)
                  (traceOf runUnchanged))
    by (vm_compute; tauto).
  split; [exact Hrun|]. split; [exact Hin|].
  exact (proj2 (proj2 (proj2 (no_commits_skips _ _ _ _ _ _ _ _ _ Hrun Hin)))
           eq_refl).
Defined.

(** C6 on three entries: two requests created, one branch missing. *)
Lemma summary_consistent_witness :
  runAll
  = (Returned (resultsOf (outcomeOf runAll), summaryOf (outcomeOf runAll)),
     serviceOf runAll, traceOf runAll)
  /\ len (Projects configAll) <= maxInt
  /\ Total (summaryOf (outcomeOf runAll)) = 3
  /\ Created (summaryOf (outcomeOf runAll))
     + SkippedExists (summaryOf (outcomeOf runAll))
     + SkippedDraft (summaryOf (outcomeOf runAll))
     + SkippedBranch (summaryOf (outcomeOf runAll))
     + SkippedNoChange (summaryOf (outcomeOf runAll))
     + Errors (summaryOf (outcomeOf runAll))
     = Total (summaryOf (outcomeOf runAll)).
Proof.
  assert (Hrun : runAll
                 = (Returned (resultsOf (outcomeOf runAll),
                              summaryOf (outcomeOf runAll)),
                    serviceOf runAll, traceOf runAll))
    by (vm_compute; reflexivity).
  assert (Hlen : len (Projects configAll) <= maxInt)
    by (vm_compute; discriminate).
  split; [exact Hrun|]. split; [exact Hlen|].
  destruct (summary_consistent _ _ _ _ _ Hrun Hlen)
    as (HT & _ & _ & _ & _ & _ & _ & _ & _ & _ & Hsum).
  split; [exact HT | exact Hsum].
Defined.


(** C9 on the client of the first test: the request is created. *)
Lemma creation_request_and_result_witness :
  let cmp :=
    Compare.mk (Commit.mk EmptyString EmptyString EmptyString)
      [Commit.mk "abc123" "abc123" "Test commit"] [] in
  runA = (outcomeOf runA, serviceOf runA, traceOf runA)
  /\ In (CallCompareBranches 1 "op-stage" "op-rc" (Some cmp) None)
       (traceOf runA)
  /\ Compare.Commits cmp <> []
  /\ exists project mr err,
      last (calls (traceOf runA))
      = Some (CallCreateMergeRequest (Project.ID project) "op-stage" "op-rc"
                "Merge op-stage into op-rc"
                ("This merge request was created automatically by gitlab-tools."
                 +:+ LF +:+ LF +:+ "**Source Branch**: `op-stage`"
                 +:+ LF +:+ "**Target Branch**: `op-rc`")
                mr err).
Proof.
  cbv zeta.
  assert (Hrun : runA = (outcomeOf runA, serviceOf runA, traceOf runA))
    by (vm_compute; reflexivity).
  assert (Hin : In (CallCompareBranches 1 "op-stage" "op-rc"
                      (Some (Compare.mk
                               (Commit.mk EmptyString EmptyString EmptyString)
                               [Commit.mk "abc123" "abc123" "Test commit"] []))
                      None) (traceOf runA))
    by (vm_compute; tauto).
  assert (Hne : Compare.Commits
                  (Compare.mk (Commit.mk EmptyString EmptyString EmptyString)
                     [Commit.mk "abc123" "abc123" "Test commit"] []) <> [])
    by discriminate.
  split; [exact Hrun|]. split; [exact Hin|]. split; [exact Hne|].
  destruct (creation_request_and_result _ _ _ _ _ _ _ _ _ Hrun Hin Hne)
    as (project & mr & err & Hcalls & _).
  exists project, mr, err. rewrite Hcalls. reflexivity.
Defined.

(** C3 on the request of the third test, a draft by its title alone. *)
Lemma IsDraft_iff_witness :
  allASCII (MergeRequest.Title mergeRequestC) = true
  /\ MergeRequest.Draft mergeRequestC = false
  /\ MergeRequest.IsDraft mergeRequestC = true.
Proof.
  split; [reflexivity|]. split; [reflexivity|].
  apply (proj2 (proj1 (proj2 (IsDraft_iff mergeRequestC)) eq_refl)).
  right. left.
  exists EmptyString, "Draft:", " Merge op-stage into op-rc".
  repeat split.
Defined.



(** C10 on the client of the first test and a path it does not know. *)
Lemma nil_project_panics_witness :
  projects repoA !! "group/unknown" = None
  /\ GetProject "group/unknown" repoA = (None, None, repoA)
  /\ outcomeOf runUnknown = Panicked.
Proof.
  assert (Hm : projects repoA !! "group/unknown" = None)
    by (vm_compute; reflexivity).
  split; [exact Hm|].
  destruct (proj2 nil_project_panics repoA (testConfig "group/unknown")
              "group/unknown" Hm) as (Hget & evs & Hrun).
  split; [exact Hget|].
  unfold runUnknown. now rewrite Hrun.
Defined.

End Witnesses.

End Properties.

(** * More of the code *)

Module Extras.

Import GoStrings.
Import gitlab.
Import bulkmr.
Import bulkmr_test.
Import Vocabulary.
Import Properties.
Import Protocol.

(** ** Comparing two runs of [processProject] *)

Ltac goal_simpl :=
  cbv beta iota zeta;
  cbn [app negb config client OriginBranch TargetBranch Verbose Projects
       fst snd outcomeOf serviceOf traceOf calls List.filter isLog].

Ltac goal_step :=
  match goal with
  | |- context [GetProject ?a ?b] =>
      destruct (GetProject a b) as [[? [?|]] ?]
  | |- context [BranchExists ?a ?b ?c] =>
      destruct (BranchExists a b c) as [[[|] [?|]] ?]
  | |- context [FindOpenMergeRequests ?a ?b ?c ?d] =>
      destruct (FindOpenMergeRequests a b c d) as [[? [?|]] ?]
  | |- context [CompareBranches ?a ?b ?c ?d] =>
      destruct (CompareBranches a b c d) as [[? [?|]] ?]
  | |- context [CreateMergeRequest ?a ?b ?c ?d ?e ?f] =>
      destruct (CreateMergeRequest a b c d e f) as [[? [?|]] ?]
  | |- context [match ?x with _ => _ end] => is_var x; destruct x
  | |- context [negb ?x] => is_var x; destruct x
  | |- context [if 0 <? ?n then _ else _] => destruct (0 <? n)
  | |- context [Compare.HasChanges ?c] => destruct (Compare.HasChanges c)
  | |- context [scanExisting ?a ?b ?c ?d] =>
      destruct (scanExisting a b c d) as [[? ?] ?]
  end.

(** Every path of the runs in the goal, the same calls answered the same. *)
Ltac split_goal :=
  unfold processProject;
  cbv beta iota delta [bind ret getConfig callGetProject callBranchExists
    callCompareBranches callFindOpenMergeRequests callCreateMergeRequest
    when logPrintf deref];
  goal_simpl;
  repeat (goal_step; goal_simpl).

(** The scan of a run that found open requests, by its two endings. *)
Ltac scan_cases :=
  match goal with
  | E : (0 <? len _) = true, E' : scanExisting _ _ _ _ = _ |- _ =>
      apply len_pos in E;
      apply (scanExisting_cases _ _ _ _ _ E) in E';
      destruct E' as [(? & ? & ? & ? & ? & ? & ? & ?)
                     | (? & ? & ? & ? & ? & ?)];
      subst; try discriminate
  end.

Section Calls.

Context `{UnicodeTables} {C : Type} `{GitLabClient C}.

(** ** The calls of one repository *)


(** X2. The verbosity switch only adds log lines: with the same client and
    the same branches, the verbose run has the outcome of the quiet one,
    leaves the client in the same state, and its trace without the log
    lines is the trace of the quiet run, which has none. *)
Theorem verbosity_only_adds_log_lines
  (c : C) (projectPath origin target : string) (projects : list string) :
  let quiet := processProject projectPath
                 (mkService c (mkConfig origin target projects false)) in
  let loud := processProject projectPath
                (mkService c (mkConfig origin target projects true)) in
  outcomeOf loud = outcomeOf quiet
  /\ client (serviceOf loud) = client (serviceOf quiet)
  /\ calls (traceOf loud) = traceOf quiet.
Proof.
  cbv zeta. split_goal.
  all: repeat split; reflexivity.
Qed.

(** X3. The fields of a result go by its status.  An ERROR has no merge
    request and no detail.  Any other result has no error message and a
    detail that is not empty.  A result SKIPPED_NO_BRANCH or
    SKIPPED_NO_CHANGE has no merge request. *)
Theorem result_fields_by_status
  (s s' : Service C) (projectPath : string) (r : ProjectResult)
  (evs : list Event) :
  processProject projectPath s = (Returned r, s', evs) ->
  (Status r = StatusError ->
   MergeRequestID r = 0 /\ MergeRequestIID r = 0
   /\ MergeRequestURL r = EmptyString /\ Details r = EmptyString)
  /\ (Status r <> StatusError ->
      ErrorMessage r = EmptyString /\ Details r <> EmptyString)
  /\ (Status r = StatusSkippedBranch \/ Status r = StatusSkippedNoChange ->
      MergeRequestID r = 0 /\ MergeRequestIID r = 0
      /\ MergeRequestURL r = EmptyString).
Proof.
  intros Hrun. run_cases Hrun.
  all: try scan_cases.
  all: split;
    [ intros E; first [discriminate E | repeat split; reflexivity]
    | split;
      [ intros E;
        first [ exfalso; apply E; reflexivity
              | split; [reflexivity | discriminate] ]
      | intros [E|E];
        first [discriminate E | repeat split; reflexivity] ] ].
Qed.

End Calls.

Section Statuses.

Context `{UnicodeTables} {C : Type} `{GitLabClient C}.

Lemma nondraft_among_drafts (drafts rest : list MergeRequest.t) mr :
  Forall draft (drafts ++ mr :: rest) ->
  MergeRequest.IsDraft mr = false -> False.
Proof.
  intros Hall Hmr. apply Forall_app in Hall as [_ Hall].
  inversion Hall as [|? ? Hd _]; subst. red in Hd. congruence.
Qed.

(** X4. The status of a result tells what the calls of its run answered,
    and the other way round.  ERROR: some call failed.  SKIPPED_NO_BRANCH:
    a check answered that a branch does not exist.  SKIPPED_EXISTS: the
    query answered a list with a request that is not a draft.
    SKIPPED_DRAFT: the query answered a list of drafts, at least one.
    SKIPPED_NO_CHANGE: the comparison answered no commit.  CREATED: the
    creation call answered a merge request. *)
Theorem status_reflects_trace
  (s s' : Service C) (projectPath : string) (r : ProjectResult)
  (evs : list Event) :
  processProject projectPath s = (Returned r, s', evs) ->
  (Status r = StatusError <->
   exists ev e, In ev evs /\ failure ev = Some e)
  /\ (Status r = StatusSkippedBranch <->
      exists pid branch, In (CallBranchExists pid branch false None) evs)
  /\ (Status r = StatusSkippedExists <->
      exists pid src tgt mrs,
        In (CallFindOpenMergeRequests pid src tgt mrs None) evs
        /\ Exists (fun mr => MergeRequest.IsDraft mr = false) mrs)
  /\ (Status r = StatusSkippedDraft <->
      exists pid src tgt mrs,
        In (CallFindOpenMergeRequests pid src tgt mrs None) evs
        /\ mrs <> [] /\ Forall draft mrs)
  /\ (Status r = StatusSkippedNoChange <->
      exists pid src tgt cmp,
        In (CallCompareBranches pid src tgt (Some cmp) None) evs
        /\ Compare.Commits cmp = [])
  /\ (Status r = StatusCreated <->
      exists pid src tgt title description mr,
        In (CallCreateMergeRequest pid src tgt title description
              (Some mr) None) evs).
Proof.
  intros Hrun. run_cases Hrun.
  all: try scan_cases.
  all: repeat match goal with
       | E : (0 <? len _) = false |- _ => apply len_not_pos in E; subst
       | E : Compare.HasChanges ?c = _ |- _ =>
           unfold Compare.HasChanges in E;
           destruct (Compare.Commits c) eqn:?; try discriminate E; clear E
       end.
  all: repeat apply conj.
  all: intros E.
  all: try reflexivity.
  all: try discriminate E.
  all: try (solve [repeat eexists; cbn [In]; eauto 14]).
  all: try (solve [do 4 eexists; split; [cbn [In]; eauto 14|];
                   first [ apply Exists_app; right; now constructor
                         | split; [discriminate | assumption] ]]).
  all: try (solve [do 4 eexists; split; [cbn [In]; eauto 14|]; reflexivity]).
  all: repeat match type of E with
       | exists _, _ => destruct E as [? E]
       | _ /\ _ => let E' := fresh "E" in destruct E as [E E']
       end.
  all: pick_event E; subst.
  all: repeat match goal with
       | K : _ /\ _ |- _ => destruct K
       end.
  all: try discriminate.
  all: try contradiction.
  all: try (exfalso; eapply drafts_have_no_nondraft; eassumption).
  all: try (exfalso; eapply nondraft_among_drafts; eassumption).
  all: try match goal with
       | K : Exists _ [] |- _ => inversion K
       end.
  all: congruence.
Qed.

End Statuses.

Section Contract.

Context `{UnicodeTables} {C : Type} `{GitLabClient C}.

(** ** Clients that keep the contract *)

(** The equations of a run, read with the contract of the client. *)
Ltac use_contract Hh :=
  repeat match goal with
  | HI : ?Inv ?c, E : GetProject _ ?c = _ |- _ =>
      destruct (honours_GetProject _ Hh _ _ _ _ _ HI E); clear E
  | HI : ?Inv ?c, E : BranchExists _ _ ?c = _ |- _ =>
      pose proof (honours_BranchExists _ Hh _ _ _ _ _ _ HI E); clear E
  | HI : ?Inv ?c, E : FindOpenMergeRequests _ _ _ ?c = _ |- _ =>
      pose proof (honours_FindOpenMergeRequests _ Hh _ _ _ _ _ _ _ HI E);
      clear E
  | HI : ?Inv ?c, E : CompareBranches _ _ _ ?c = _ |- _ =>
      destruct (honours_CompareBranches _ Hh _ _ _ _ _ _ _ HI E); clear E
  | HI : ?Inv ?c, E : CreateMergeRequest _ _ _ _ _ ?c = _ |- _ =>
      destruct (honours_CreateMergeRequest _ Hh _ _ _ _ _ _ _ _ _ HI E);
      clear E
  end.

Lemma processProject_honoured (Inv : C -> Prop) (s s' : Service C)
  (projectPath : string) (o : outcome ProjectResult) (evs : list Event) :
  honours Inv ->
  Inv (client s) ->
  processProject projectPath s = (o, s', evs) ->
  Inv (client s') /\ exists r, o = Returned r.
Proof.
  intros Hh HI Hrun. run_cases Hrun; use_contract Hh.
  all: cbn [client].
  all: try (split; [assumption | eexists; reflexivity]).
  all: exfalso; match goal with
       | K : None = None -> None <> None |- _ => now apply K
       end.
Qed.

Lemma processLoop_honoured (Inv : C -> Prop) (projects : list string) :
  honours Inv ->
  forall (results : list ProjectResult) (summary : Summary) (s : Service C),
    Inv (client s) ->
    exists rs summary' s' evs,
      processLoop projects results summary s
      = (Returned (results ++ rs, summary'), s', evs)
      /\ Inv (client s')
      /\ length rs = length projects.
Proof.
  intros Hh. induction projects as [|projectPath rest IH];
    intros results summary s HI.
  - exists [], summary, s, []. rewrite app_nil_r. now repeat split.
  - cbn [processLoop]. unfold bind.
    destruct (processProject projectPath s) as [[o s1] t1] eqn:E1.
    destruct (processProject_honoured Inv _ _ _ _ _ Hh HI E1)
      as (HI1 & r & ->).
    destruct (IH (results ++ [r]) (tally (Status r) summary) s1 HI1)
      as (rs & summary' & s' & evs & -> & HI' & Hlen).
    exists (r :: rs), summary', s', (t1 ++ evs).
    rewrite <- app_assoc. repeat split; try assumption.
    cbn [length]. now rewrite Hlen.
Qed.

Lemma ProcessProjects_honoured (Inv : C -> Prop) (s : Service C) :
  honours Inv ->
  Inv (client s) ->
  exists results summary s' evs,
    ProcessProjects s = (Returned (results, summary), s', evs)
    /\ Inv (client s')
    /\ length results = length (Projects (config s)).
Proof.
  intros Hh HI. rewrite ProcessProjects_loop.
  destruct (processLoop_honoured Inv (Projects (config s)) Hh []
              (mkSummary (len (Projects (config s))) 0 0 0 0 0 0) s HI)
    as (rs & summary' & s' & evs & E & HI' & Hlen).
  now exists rs, summary', s', evs.
Qed.

(** X5. With a client that keeps the contract of the interface, that is a
    client that answers no nil pointer together with a nil error, from a
    state [Inv] holds of and as long as its calls keep [Inv], no run panics:
    [ProcessProjects] returns one result per path of the configuration. *)
Theorem contract_excludes_panic (Inv : C -> Prop) (s : Service C) :
  honours Inv ->
  Inv (client s) ->
  exists results summary s' evs,
    ProcessProjects s = (Returned (results, summary), s', evs)
    /\ Inv (client s')
    /\ length results = length (Projects (config s)).
Proof.
  intros Hh HI. rewrite ProcessProjects_loop.
  destruct (processLoop_honoured Inv (Projects (config s)) Hh []
              (mkSummary (len (Projects (config s))) 0 0 0 0 0 0) s HI)
    as (rs & summary' & s' & evs & E & HI' & Hlen).
  exists rs, summary', s', evs. split; [exact E|]. split; [exact HI'|].
  exact Hlen.
Qed.

End Contract.

Section Batches.

Context `{UnicodeTables} {C : Type} `{GitLabClient C}.

(** ** Batches of paths *)

(** The list of paths of the configuration does not tell on a run of
    [processProject]. *)
Lemma processProject_ignores_projects (c : C)
  (projectPath origin target : string) (ps1 ps2 : list string) (v : bool) :
  let run1 := processProject projectPath
                (mkService c (mkConfig origin target ps1 v)) in
  let run2 := processProject projectPath
                (mkService c (mkConfig origin target ps2 v)) in
  outcomeOf run1 = outcomeOf run2
  /\ client (serviceOf run1) = client (serviceOf run2)
  /\ traceOf run1 = traceOf run2.
Proof.
  cbv zeta. destruct v.
  all: split_goal.
  all: repeat split; reflexivity.
Qed.

Lemma processProject_withProjects (c : C) (cfg : Config)
  (projectPath : string) (ps1 ps2 : list string)
  (r : ProjectResult) (s' : Service C) (evs : list Event) :
  processProject projectPath (mkService c (withProjects ps1 cfg))
  = (Returned r, s', evs) ->
  processProject projectPath (mkService c (withProjects ps2 cfg))
  = (Returned r, mkService (client s') (withProjects ps2 cfg), evs).
Proof.
  intros Hrun.
  pose proof (processProject_facts _ _ _ _ _ Hrun) as (Hcfg & _).
  pose proof (processProject_ignores_projects c projectPath
                (OriginBranch cfg) (TargetBranch cfg) ps1 ps2 (Verbose cfg))
    as (Ho & Hc & Ht).
  cbv zeta in Ho, Hc, Ht. unfold withProjects in *.
  rewrite Hrun in Ho, Hc, Ht.
  destruct (processProject projectPath
              (mkService c (mkConfig (OriginBranch cfg) (TargetBranch cfg)
                              ps2 (Verbose cfg)))) as [[o2 s2] t2] eqn:E2.
  pose proof (processProject_facts _ _ _ _ _ E2) as (Hcfg2 & _).
  unfold outcomeOf, serviceOf, traceOf in Ho, Hc, Ht.
  cbn [fst snd config] in Ho, Hc, Ht, Hcfg2. subst o2 t2.
  destruct s2 as [c2 cfg2]. cbn [client config] in Hc, Hcfg2. now subst.
Qed.

Lemma runs_withProjects (cfg : Config) (qs1 qs2 ps : list string)
  (s s' : Service C) (rs : list ProjectResult) (evs : list Event) :
  runs ps s rs s' evs ->
  config s = withProjects qs1 cfg ->
  runs ps (mkService (client s) (withProjects qs2 cfg)) rs
    (mkService (client s') (withProjects qs2 cfg)) evs.
Proof.
  induction 1 as [s|projectPath rest s s1 s2 r rs t1 t2 Hrun _ IH];
    intros Hcfg.
  - constructor.
  - pose proof (processProject_facts _ _ _ _ _ Hrun) as (Hcfg1 & _).
    destruct s as [c cfg0]. cbn in Hcfg. subst cfg0.
    apply (processProject_withProjects _ _ _ _ qs2) in Hrun.
    econstructor; [exact Hrun|]. apply IH. exact Hcfg1.
Qed.

Lemma runs_app (ps1 ps2 : list string) (s s1 s2 : Service C)
  (rs1 rs2 : list ProjectResult) (t1 t2 : list Event) :
  runs ps1 s rs1 s1 t1 ->
  runs ps2 s1 rs2 s2 t2 ->
  runs (ps1 ++ ps2) s (rs1 ++ rs2) s2 (t1 ++ t2).
Proof.
  induction 1 as [s|projectPath rest s sa sb r rs ta tb Hrun _ IH];
    intros H2.
  - exact H2.
  - cbn [app]. rewrite <- app_assoc. econstructor; [exact Hrun|]. now apply IH.
Qed.

Lemma runs_processLoop (ps : list string) (s s' : Service C)
  (rs : list ProjectResult) (evs : list Event) :
  runs ps s rs s' evs ->
  forall results summary,
    processLoop ps results summary s
    = (Returned (results ++ rs, tallyAll rs summary), s', evs).
Proof.
  induction 1 as [s|projectPath rest s s1 s2 r rs t1 t2 Hrun _ IH];
    intros results summary.
  - cbn. now rewrite app_nil_r.
  - cbn [processLoop]. unfold bind. rewrite Hrun, IH.
    now rewrite <- app_assoc.
Qed.

Lemma countStatus_app (status : ResultStatus) (rs1 rs2 : list ProjectResult) :
  countStatus status (rs1 ++ rs2)
  = countStatus status rs1 + countStatus status rs2.
Proof.
  unfold countStatus, len. rewrite List.filter_app, length_app. lia.
Qed.

(** The summary of a run that returned, by its results. *)
Lemma summary_by_counts (ps : list string) (s s' : Service C)
  (rs : list ProjectResult) (evs : list Event) :
  runs ps s rs s' evs ->
  len ps <= maxInt ->
  tallyAll rs (mkSummary (len ps) 0 0 0 0 0 0)
  = mkSummary (len ps) (countStatus StatusCreated rs)
      (countStatus StatusSkippedExists rs) (countStatus StatusSkippedDraft rs)
      (countStatus StatusSkippedBranch rs)
      (countStatus StatusSkippedNoChange rs) (countStatus StatusError rs).
Proof.
  intros Hruns Hlen.
  apply runs_facts in Hruns as (Hmap & _ & Hst & _).
  assert (Hn : len rs = len ps).
  { unfold len. rewrite <- Hmap. now rewrite length_map. }
  destruct (tallyAll_counts rs (mkSummary (len ps) 0 0 0 0 0 0) Hst)
    as (KT & K1 & K2 & K3 & K4 & K5 & K6).
  { unfold nonneg. cbn. lia. }
  { unfold counted. cbn. lia. }
  cbn [Total Created SkippedExists SkippedDraft SkippedBranch
       SkippedNoChange Errors] in *.
  destruct (tallyAll rs _) as [T a b c d e f]. cbn in *.
  f_equal; lia.
Qed.

(** X6. A batch can be split.  When [ProcessProjects] returns on a first
    list of paths, and returns on a second list from the client as the
    first run left it, then on the two lists one after the other it returns
    the results of the first run followed by those of the second, the sum
    of the two summaries and the trace of the first run followed by that of
    the second, and leaves the client as the second run did.  (The number
    of paths fits a 64-bit integer, as the length of any slice does.) *)
Theorem ProcessProjects_app
  (c : C) (cfg : Config) (ps1 ps2 : list string)
  (rs1 rs2 : list ProjectResult) (sm1 sm2 : Summary)
  (s1 s2 : Service C) (t1 t2 : list Event) :
  ProcessProjects (mkService c (withProjects ps1 cfg))
  = (Returned (rs1, sm1), s1, t1) ->
  ProcessProjects (mkService (client s1) (withProjects ps2 cfg))
  = (Returned (rs2, sm2), s2, t2) ->
  len (ps1 ++ ps2) <= maxInt ->
  ProcessProjects (mkService c (withProjects (ps1 ++ ps2) cfg))
  = (Returned (rs1 ++ rs2, addSummary sm1 sm2),
     mkService (client s2) (withProjects (ps1 ++ ps2) cfg),
     t1 ++ t2).
Proof.
  intros H1 H2 Hlen.
  assert (Hl : len (ps1 ++ ps2) = len ps1 + len ps2)
    by (unfold len; rewrite length_app; lia).
  assert (0 <= len ps1 /\ 0 <= len ps2) as [Hp1 Hp2] by (unfold len; lia).
  rewrite ProcessProjects_loop in H1, H2. cbn [config Projects withProjects] in H1, H2.
  apply processLoop_runs in H1 as (r1 & E1 & -> & Hr1).
  apply processLoop_runs in H2 as (r2 & E2 & -> & Hr2).
  cbn [app] in E1, E2. subst r1 r2.
  rewrite (summary_by_counts _ _ _ _ _ Hr1) by lia.
  rewrite (summary_by_counts _ _ _ _ _ Hr2) by lia.
  apply (runs_withProjects cfg ps1 (ps1 ++ ps2)) in Hr1; [|reflexivity].
  apply (runs_withProjects cfg ps2 (ps1 ++ ps2)) in Hr2; [|reflexivity].
  cbn [client] in Hr1, Hr2.
  pose proof (runs_app _ _ _ _ _ _ _ _ _ Hr1 Hr2) as Hr.
  rewrite ProcessProjects_loop. cbn [config Projects withProjects].
  rewrite (runs_processLoop _ _ _ _ _ Hr). cbn [app].
  rewrite (summary_by_counts _ _ _ _ _ Hr) by lia.
  unfold addSummary. cbn [Total Created SkippedExists SkippedDraft
    SkippedBranch SkippedNoChange Errors].
  rewrite !countStatus_app, Hl. reflexivity.
Qed.

End Batches.

Import net.
Import ClientVocabulary.

(** ** The client *)

Section TrimRight.

#[local] Arguments String.append !_ _ / : simpl nomatch.

Lemma TrimRight_more (s cutset : string) (c : ascii) :
  gitlab_client.inCutset c cutset = true ->
  gitlab_client.TrimRight (s +:+ String c EmptyString) cutset
  = gitlab_client.TrimRight s cutset.
Proof.
  intros Hc. induction s as [|x s IH]; cbn.
  - now rewrite Hc.
  - now rewrite IH.
Qed.

Lemma TrimRight_split (s cutset : string) :
  exists tail,
    s = gitlab_client.TrimRight s cutset +:+ tail
    /\ allInCutset tail cutset = true.
Proof.
  induction s as [|x s (tail & E & Ht)]; [now exists EmptyString|].
  cbn. destruct (gitlab_client.TrimRight s cutset) as [|y k] eqn:Ek.
  - destruct (gitlab_client.inCutset x cutset) eqn:Ex.
    + exists (String x tail). cbn in *. rewrite Ex, Ht. now rewrite E at 1.
    + exists tail. cbn in *. now rewrite E at 1.
  - exists tail. cbn in *. now rewrite E at 1.
Qed.

Lemma TrimRight_end (s cutset rest : string) (c : ascii) :
  gitlab_client.TrimRight s cutset = rest +:+ String c EmptyString ->
  gitlab_client.inCutset c cutset = false.
Proof.
  revert rest. induction s as [|x s IH]; intros rest E.
  - destruct rest; discriminate E.
  - cbn in E. destruct (gitlab_client.TrimRight s cutset) as [|y k] eqn:Ek.
    + destruct (gitlab_client.inCutset x cutset) eqn:Ex.
      * destruct rest; discriminate E.
      * destruct rest as [|z rest]; cbn in E.
        -- now injection E as <-.
        -- injection E as _ E. destruct rest; discriminate E.
    + destruct rest as [|z rest]; cbn in E; [discriminate E|].
      injection E as _ E. now apply (IH rest).
Qed.

(** X7. [NewClient] keeps the base URL without the slashes at its end: the
    URL given is the one kept followed by slashes only, the one kept does
    not end with a slash, and one more slash at the end of the URL given
    makes the same client. *)
Theorem NewClient_drops_trailing_slashes (url token : string) (verbose : bool) :
  let c := gitlab_client.NewClient url token verbose in
  (exists tail,
      url = gitlab_client.baseURL c +:+ tail /\ allInCutset tail "/" = true)
  /\ (forall rest, gitlab_client.baseURL c <> rest +:+ "/")
  /\ gitlab_client.NewClient (url +:+ "/") token verbose = c.
Proof.
  cbv zeta. unfold gitlab_client.NewClient. cbn [gitlab_client.baseURL].
  split; [apply TrimRight_split|]. split.
  - intros rest E. apply TrimRight_end in E. discriminate E.
  - now rewrite TrimRight_more.
Qed.

End TrimRight.

Section Branches.

Context {W : Type} `{Library W}.

(** X8. [BranchExists] goes by the status of the answer alone: it answers
    true exactly when the platform answers the request for the branch with
    status 200, false with a nil error exactly when it answers with status
    404, and an error in every other case; a true answer has no error.
    The call writes nothing, verbose or not. *)
Theorem BranchExists_by_status
  (c : gitlab_client.Client) (projectID : Z) (branchName : string)
  (p : process.t W) :
  let endpoint := branchEndpoint c projectID branchName in
  let run := gitlab_client.BranchExists c projectID branchName p in
  (run.1 = (true, None) <->
   exists resp, answered c "GET" endpoint p resp /\ StatusCode resp = 200)
  /\ (run.1 = (false, None) <->
      exists resp, answered c "GET" endpoint p resp /\ StatusCode resp = 404)
  /\ (run.1.1 = true -> run.1.2 = None)
  /\ process.stdout run.2 = process.stdout p
  /\ process.stderr run.2 = process.stderr p.
Proof.
  cbv zeta. unfold answered, branchEndpoint, requestOf,
    gitlab_client.BranchExists, gitlab_client.makeRequest.
  destruct (NewRequestErr _ _) as [e|].
  { cbn. repeat split; try discriminate; try tauto;
      intros (resp & (E & _) & _); discriminate E. }
  destruct (Do _ _) as [[resp|e] w].
  - destruct (StatusCode resp =? 404) eqn:E404;
      [|destruct (StatusCode resp =? 200) eqn:E200]; cbn.
    + apply Z.eqb_eq in E404. repeat split; try discriminate; try tauto.
      * intros (r & (_ & w' & E) & K). injection E as <- <-. lia.
      * intros _. exists resp. repeat split; trivial. now exists w.
    + apply Z.eqb_eq in E200. repeat split; try discriminate; try tauto.
      * intros _. exists resp. repeat split; trivial. now exists w.
      * intros (r & (_ & w' & E) & K). injection E as <- <-. lia.
    + apply Z.eqb_neq in E404, E200.
      repeat split; try discriminate; try tauto.
      * intros (r & (_ & w' & E) & K). injection E as <- <-. lia.
      * intros (r & (_ & w' & E) & K). injection E as <- <-. lia.
  - cbn. repeat split; try discriminate; try tauto;
      intros (r & (_ & w' & E) & _); discriminate E.
Qed.

End Branches.

Section Resolution.

Context `{UnicodeTables} {W : Type} `{Library W}.

#[local] Existing Instance gitlab_client.session_client.

(** What [doRequest] without a payload answers, by what the platform
    answers. *)
Lemma doRequest_value {T : Type} (c : gitlab_client.Client)
  (decode : string -> T + string) (method endpoint : string)
  (p : process.t W) (v : T) :
  (gitlab_client.doRequest c decode method endpoint None p).1 = (Some v, None)
  <-> exists resp,
      answered c method endpoint p resp
      /\ ReadErr resp = None
      /\ 200 <= StatusCode resp < 300
      /\ decode (Body resp) = inl v.
Proof.
  unfold answered, requestOf, gitlab_client.doRequest,
    gitlab_client.makeRequest.
  destruct (NewRequestErr _ _) as [e|].
  { cbn. split; [discriminate | intros (resp & (E & _) & _); discriminate E]. }
  destruct (Do _ _) as [[resp|e] w].
  2:{ cbn. split; [discriminate|].
      intros (r & (_ & w' & E) & _). discriminate E. }
  destruct (ReadErr resp) as [e|] eqn:Er.
  { cbn. split; [discriminate|].
    intros (r & (_ & w' & E) & K & _). injection E as <- <-. congruence. }
  destruct ((StatusCode resp <? 200) || (300 <=? StatusCode resp)) eqn:Es.
  { cbn. split; [discriminate|].
    intros (r & (_ & w' & E) & _ & K & _). injection E as <- <-.
    apply orb_true_iff in Es as [Es|Es];
      [apply Z.ltb_lt in Es | apply Z.leb_le in Es]; lia. }
  apply orb_false_iff in Es as [E1 E2].
  apply Z.ltb_ge in E1. apply Z.leb_gt in E2.
  destruct (decode (Body resp)) as [v'|e] eqn:Ed; cbn.
  - split.
    + intros E. injection E as <-. exists resp. repeat split; trivial; try lia.
      now exists w.
    + intros (r & (_ & w' & E) & _ & _ & K). injection E as <- <-. congruence.
  - split; [discriminate|].
    intros (r & (_ & w' & E) & _ & _ & K). injection E as <- <-. congruence.
Qed.

(** [doRequest] answers a value with a nil error, or no value with an
    error. *)
Lemma doRequest_either {T : Type} (c : gitlab_client.Client)
  (decode : string -> T + string) (method endpoint : string)
  (payload : option (list (string * string))) (p : process.t W) :
  (exists v, (gitlab_client.doRequest c decode method endpoint payload p).1
             = (Some v, None))
  \/ (exists e, (gitlab_client.doRequest c decode method endpoint payload p).1
                = (None, Some e)).
Proof.
  unfold gitlab_client.doRequest, gitlab_client.makeRequest.
  destruct payload as [fields|].
  - destruct (Marshal fields) as [jsonData [e|]]; [right; now eexists|].
    destruct (NewRequestErr _ _) as [e|]; [right; now eexists|].
    destruct (Do _ _) as [[resp|e] w]; [|right; now eexists].
    destruct (ReadErr resp); [right; now eexists|].
    destruct (_ || _); [right; now eexists|].
    destruct (decode _); [left | right]; now eexists.
  - destruct (NewRequestErr _ _) as [e|]; [right; now eexists|].
    destruct (Do _ _) as [[resp|e] w]; [|right; now eexists].
    destruct (ReadErr resp); [right; now eexists|].
    destruct (_ || _); [right; now eexists|].
    destruct (decode _); [left | right]; now eexists.
Qed.

(** A method answers its value with a nil error, or a nil pointer with an
    error that starts with the name of the operation. *)
Lemma wrap_either {T : Type} (context : string) (r : option T * error) :
  (exists v, r = (Some v, None)) \/ (exists e, r = (None, Some e)) ->
  (exists v, gitlab_client.wrap context r = (Some v, None) /\ r = (Some v, None))
  \/ (exists e, gitlab_client.wrap context r = (None, Some (context +:+ e))).
Proof.
  intros [(v & ->)|(e & ->)]; [left | right]; now eexists.
Qed.

(** X9. [GetProject] answers a project exactly when the platform answers
    the request for the path with a status from 200 to 299 and a body that
    can be read and decoded, and the project is the one decoded.  In every
    other case it answers a nil pointer and an error whose text starts with
    "failed to get project", the path and a colon: never a nil pointer with
    a nil error. *)
Theorem GetProject_by_answer
  (c : gitlab_client.Client) (projectPath : string) (p : process.t W) :
  let run := gitlab_client.GetProject c projectPath p in
  (forall project,
      run.1 = (Some project, None) <->
      exists resp,
        answered c "GET" (projectEndpoint c projectPath) p resp
        /\ ReadErr resp = None
        /\ 200 <= StatusCode resp < 300
        /\ UnmarshalProject (Body resp) = inl project)
  /\ ((exists project, run.1 = (Some project, None))
      \/ (exists e,
             run.1 = (None,
                      Some ("failed to get project " +:+ projectPath +:+ ": "
                            +:+ e)))).
Proof.
  cbv zeta. unfold gitlab_client.GetProject, projectEndpoint.
  destruct (gitlab_client.doRequest c UnmarshalProject "GET" _ None p)
    as [r p'] eqn:E.
  cbn [fst]. split.
  - intros project. rewrite <- doRequest_value. rewrite E. cbn [fst].
    destruct r as [[v|] [e|]]; cbn; split;
      first [congruence | intros K; exact K].
  - pose proof (doRequest_either c UnmarshalProject "GET"
                  (gitlab_client.baseURL c +:+ "/api/v4/projects/"
                   +:+ PathEscape projectPath) None p) as K.
    rewrite E in K. cbn [fst] in K.
    destruct (wrap_either ("failed to get project " +:+ projectPath +:+ ": ")
                r K) as [(v & -> & _)|(e & ->)].
    + left. now eexists.
    + right. exists e. f_equal. f_equal. 
      now rewrite !append_assoc.
Qed.

End Resolution.

Section Production.

Context `{UnicodeTables} {W : Type} `{Library W}.

#[local] Existing Instance gitlab_client.session_client.

#[local] Arguments String.append !_ _ / : simpl nomatch.

(** ** The engine with the client of [internal/gitlab] *)

(** Without its verbose switch the client writes nothing to standard
    output. *)
Lemma makeRequest_stdout (c : gitlab_client.Client) (method endpoint : string)
  (body : option string) (p : process.t W) :
  process.stdout (gitlab_client.makeRequest c method endpoint body p).2
  = process.stdout p.
Proof.
  unfold gitlab_client.makeRequest.
  destruct (NewRequestErr _ _); [reflexivity|].
  destruct (Do _ _) as [[resp|e] w]; reflexivity.
Qed.

Lemma doRequest_stdout {T : Type} (c : gitlab_client.Client)
  (decode : string -> T + string) (method endpoint : string)
  (payload : option (list (string * string))) (p : process.t W) :
  gitlab_client.verbose c = false ->
  process.stdout (gitlab_client.doRequest c decode method endpoint payload p).2
  = process.stdout p.
Proof.
  intros Hq. unfold gitlab_client.doRequest. rewrite Hq.
  destruct payload as [fields|];
    [destruct (Marshal fields) as [jsonData [e|]]; [reflexivity|]|].
  all: match goal with
       | |- context [gitlab_client.makeRequest ?c ?m ?e ?b ?p] =>
           pose proof (makeRequest_stdout c m e b p) as K;
           destruct (gitlab_client.makeRequest c m e b p) as [[resp|e'] p']
       end; cbn [snd] in K; [|exact K].
  all: destruct (ReadErr resp); [exact K|].
  all: destruct (_ || _); [exact K|].
  all: destruct (decode _); exact K.
Qed.

Lemma wrapSlice_either {T : Type} (context : string)
  (r : option (list T) * error) :
  (exists v, r = (Some v, None)) \/ (exists e, r = (None, Some e)) ->
  (exists v, gitlab_client.wrapSlice context r = (v, None))
  \/ (exists e, gitlab_client.wrapSlice context r = ([], Some (context +:+ e))).
Proof.
  intros [(v & ->)|(e & ->)]; [left | right]; now eexists.
Qed.

(** The five methods of the interface as the client answers them: the
    client record stays, and each answer is a value with a nil error or no
    value with an error that starts with the name of the operation. *)
Lemma session_GetProject (projectPath : string) (s s' : gitlab_client.Session)
  (project : option Project.t) (err : error) :
  GetProject projectPath s = (project, err, s') ->
  s'.1 = s.1
  /\ (gitlab_client.verbose s.1 = false ->
      process.stdout s'.2 = process.stdout s.2)
  /\ ((exists v, project = Some v /\ err = None)
      \/ (project = None
          /\ exists e,
              err = Some ("failed to get project " +:+ projectPath +:+ ": "
                          +:+ e))).
Proof.
  cbn [GetProject gitlab_client.session_client].
  unfold gitlab_client.GetProject.
  match goal with
  | |- context [gitlab_client.doRequest ?c ?d ?m ?e ?pl ?p] =>
      pose proof (doRequest_stdout c d m e pl p) as Hq;
      pose proof (doRequest_either c d m e pl p) as K;
      destruct (gitlab_client.doRequest c d m e pl p) as [r p'] eqn:E
  end.
  cbn [fst snd] in *.
  destruct (wrap_either ("failed to get project " +:+ projectPath +:+ ": ")
              r K) as [(v & E1 & _)|(e & E1)]; rewrite E1.
  - intros [= <- <- <-]. repeat split; eauto.
  - intros [= <- <- <-]. repeat split; eauto.
    right. split; [reflexivity|]. exists e. now rewrite !append_assoc.
Qed.

Lemma session_BranchExists (projectID : Z) (branch : string)
  (s s' : gitlab_client.Session) (found : bool) (err : error) :
  BranchExists projectID branch s = (found, err, s') ->
  s'.1 = s.1 /\ process.stdout s'.2 = process.stdout s.2.
Proof.
  cbn [BranchExists gitlab_client.session_client].
  unfold gitlab_client.BranchExists.
  match goal with
  | |- context [gitlab_client.makeRequest ?c ?m ?e ?b ?p] =>
      pose proof (makeRequest_stdout c m e b p) as K;
      destruct (gitlab_client.makeRequest c m e b p) as [[resp|e'] p']
  end; cbn [snd] in K.
  - destruct (_ =? 404); [|destruct (negb _)];
      intros [= <- <- <-]; now split.
  - intros [= <- <- <-]; now split.
Qed.

Lemma session_FindOpenMergeRequests (projectID : Z) (source target : string)
  (s s' : gitlab_client.Session) (mrs : list MergeRequest.t) (err : error) :
  FindOpenMergeRequests projectID source target s = (mrs, err, s') ->
  s'.1 = s.1
  /\ (gitlab_client.verbose s.1 = false ->
      process.stdout s'.2 = process.stdout s.2)
  /\ (err = None
      \/ exists e, err = Some ("failed to find merge requests: " +:+ e)).
Proof.
  cbn [FindOpenMergeRequests gitlab_client.session_client].
  unfold gitlab_client.FindOpenMergeRequests.
  match goal with
  | |- context [gitlab_client.doRequest ?c ?d ?m ?e ?pl ?p] =>
      pose proof (doRequest_stdout c d m e pl p) as Hq;
      pose proof (doRequest_either c d m e pl p) as K;
      destruct (gitlab_client.doRequest c d m e pl p) as [r p'] eqn:E
  end.
  cbn [fst snd] in *.
  destruct (wrapSlice_either "failed to find merge requests: " r K)
    as [(v & E1)|(e & E1)]; rewrite E1.
  - intros [= <- <- <-]. repeat split; eauto.
  - intros [= <- <- <-]. repeat split; eauto.
Qed.

Lemma session_CompareBranches (projectID : Z) (source target : string)
  (s s' : gitlab_client.Session) (compare : option Compare.t) (err : error) :
  CompareBranches projectID source target s = (compare, err, s') ->
  s'.1 = s.1
  /\ (gitlab_client.verbose s.1 = false ->
      process.stdout s'.2 = process.stdout s.2)
  /\ ((exists v, compare = Some v /\ err = None)
      \/ (compare = None
          /\ exists e, err = Some ("failed to compare branches: " +:+ e))).
Proof.
  cbn [CompareBranches gitlab_client.session_client].
  unfold gitlab_client.CompareBranches.
  match goal with
  | |- context [gitlab_client.doRequest ?c ?d ?m ?e ?pl ?p] =>
      pose proof (doRequest_stdout c d m e pl p) as Hq;
      pose proof (doRequest_either c d m e pl p) as K;
      destruct (gitlab_client.doRequest c d m e pl p) as [r p'] eqn:E
  end.
  cbn [fst snd] in *.
  destruct (wrap_either "failed to compare branches: " r K)
    as [(v & E1 & _)|(e & E1)]; rewrite E1.
  - intros [= <- <- <-]. repeat split; eauto.
  - intros [= <- <- <-]. repeat split; eauto.
Qed.

Lemma session_CreateMergeRequest (projectID : Z)
  (source target title description : string)
  (s s' : gitlab_client.Session) (mr : option MergeRequest.t) (err : error) :
  CreateMergeRequest projectID source target title description s
  = (mr, err, s') ->
  s'.1 = s.1
  /\ (gitlab_client.verbose s.1 = false ->
      process.stdout s'.2 = process.stdout s.2)
  /\ ((exists v, mr = Some v /\ err = None)
      \/ (mr = None
          /\ exists e, err = Some ("failed to create merge request: " +:+ e))).
Proof.
  cbn [CreateMergeRequest gitlab_client.session_client].
  unfold gitlab_client.CreateMergeRequest.
  match goal with
  | |- context [gitlab_client.doRequest ?c ?d ?m ?e ?pl ?p] =>
      pose proof (doRequest_stdout c d m e pl p) as Hq;
      pose proof (doRequest_either c d m e pl p) as K;
      destruct (gitlab_client.doRequest c d m e pl p) as [r p'] eqn:E
  end.
  cbn [fst snd] in *.
  destruct (wrap_either "failed to create merge request: " r K)
    as [(v & E1 & _)|(e & E1)]; rewrite E1.
  - intros [= <- <- <-]. repeat split; eauto.
  - intros [= <- <- <-]. repeat split; eauto.
Qed.

(** The client keeps the contract of the interface, whatever the platform
    answers; its record stays and, when it is not verbose, so does standard
    output. *)
Lemma session_honours (c : gitlab_client.Client) (out : list string) :
  honours (fun s : gitlab_client.Session =>
             s.1 = c
             /\ (gitlab_client.verbose c = false -> process.stdout s.2 = out)).
Proof.
  split.
  - intros p s project err s' (<- & Ho) E.
    apply session_GetProject in E as (E1 & E2 & E3).
    repeat split; [congruence | intros Hq; rewrite E2; auto |].
    intros ->. destruct E3 as [(v & -> & _)|(_ & e & [=])]. discriminate.
  - intros id b s found err s' (<- & Ho) E.
    apply session_BranchExists in E as (E1 & E2).
    repeat split; [congruence | intros Hq; rewrite E2; auto].
  - intros id src tgt s mrs err s' (<- & Ho) E.
    apply session_FindOpenMergeRequests in E as (E1 & E2 & _).
    repeat split; [congruence | intros Hq; rewrite E2; auto].
  - intros id src tgt s compare err s' (<- & Ho) E.
    apply session_CompareBranches in E as (E1 & E2 & E3).
    repeat split; [congruence | intros Hq; rewrite E2; auto |].
    intros ->. destruct E3 as [(v & -> & _)|(_ & e & [=])]. discriminate.
  - intros id src tgt title description s mr err s' (<- & Ho) E.
    apply session_CreateMergeRequest in E as (E1 & E2 & E3).
    repeat split; [congruence | intros Hq; rewrite E2; auto |].
    intros ->. destruct E3 as [(v & -> & _)|(_ & e & [=])]. discriminate.
Qed.

(** X10. With the client of [internal/gitlab] the engine cannot panic,
    whatever the platform answers and whatever the HTTP and JSON libraries
    do: [ProcessProjects] returns one result per path, the client keeps its
    base URL and token, and a client that is not verbose leaves standard
    output as it was. *)
Theorem production_client_never_panics
  (c : gitlab_client.Client) (p : process.t W) (cfg : Config) :
  exists results summary s' evs,
    ProcessProjects (NewService (c, p) cfg)
    = (Returned (results, summary), s', evs)
    /\ length results = length (Projects cfg)
    /\ (client s').1 = c
    /\ (gitlab_client.verbose c = false ->
        process.stdout (client s').2 = process.stdout p).
Proof.
  destruct (ProcessProjects_honoured _ (NewService (c, p) cfg)
              (session_honours c (process.stdout p)))
    as (results & summary & s' & evs & E & (E1 & E2) & Hlen).
  { now split. }
  exists results, summary, s', evs. now repeat split.
Qed.

(** What a run of [processProject] with the client gives as the message of
    an ERROR. *)
Lemma production_processProject (projectPath : string)
  (s s' : Service gitlab_client.Session) (r : ProjectResult)
  (evs : list Event) :
  processProject projectPath s = (Returned r, s', evs) ->
  Status r = StatusError ->
  namesOperation projectPath (ErrorMessage r).
Proof.
  intros Hrun. run_cases Hrun.
  all: repeat match goal with
       | E : GetProject _ _ = _ |- _ =>
           apply session_GetProject in E as (_ & _ & E)
       | E : FindOpenMergeRequests _ _ _ _ = _ |- _ =>
           apply session_FindOpenMergeRequests in E as (_ & _ & E)
       | E : CompareBranches _ _ _ _ = _ |- _ =>
           apply session_CompareBranches in E as (_ & _ & E)
       | E : CreateMergeRequest _ _ _ _ _ _ = _ |- _ =>
           apply session_CreateMergeRequest in E as (_ & _ & E)
       | E : (exists v, _ = Some v /\ _) \/ (_ /\ exists e, _) |- _ =>
           destruct E as [(? & ? & ?)|(? & ? & ?)]
       | E : _ = None \/ (exists e, _) |- _ => destruct E as [?|(? & ?)]
       end.
  all: try discriminate.
  all: try scan_cases.
  all: cbn [Status ErrorMessage setStatus setErrorMessage existsResult].
  all: try (intros E; discriminate E).
  all: intros _.
  all: repeat match goal with
       | E : Some _ = Some _ |- _ => injection E as ->
       end.
  all: unfold namesOperation, startsWith.
  all: try (left; eexists; rewrite !append_assoc; reflexivity).
  all: try (right; left; eexists; reflexivity).
  all: try (right; right; left; eexists; reflexivity).
  all: try (right; right; right; left; eexists; reflexivity).
  all: try (right; right; right; right; left; eexists; reflexivity).
  all: try (right; right; right; right; right; eexists; reflexivity).
Qed.

End Production.

Section Each.

Context `{UnicodeTables} {C : Type} `{GitLabClient C}.

(** What holds of every returning run of [processProject] holds of every
    path with its result in a chain of runs. *)
Lemma runs_each (P : string -> ProjectResult -> Prop)
  (projects : list string) (s s' : Service C)
  (results : list ProjectResult) (evs : list Event) :
  (forall projectPath s0 s1 r t,
      processProject projectPath s0 = (Returned r, s1, t) -> P projectPath r) ->
  runs projects s results s' evs ->
  Forall2 P projects results.
Proof.
  intros HP. induction 1 as [s|projectPath rest s s1 s2 r rs t1 t2 Hrun _ IH].
  - constructor.
  - constructor; [exact (HP _ _ _ _ _ Hrun) | exact IH].
Qed.

End Each.

Section ProductionErrors.

Context `{UnicodeTables} {W : Type} `{Library W}.

#[local] Existing Instance gitlab_client.session_client.

(** X11. With the client of [internal/gitlab] every ERROR names the
    operation that failed.  [ProcessProjects] returns, and the message of a
    result with status ERROR starts with "failed to get project", the path
    and a colon, or with "failed to check origin branch: ", "failed to
    check target branch: ", or with the context of the engine followed by
    the context of the client for the three other calls. *)
Theorem production_errors_name_the_operation
  (c : gitlab_client.Client) (p : process.t W) (cfg : Config) :
  exists results summary,
    outcomeOf (ProcessProjects (NewService (c, p) cfg))
    = Returned (results, summary)
    /\ Forall2
         (fun projectPath r =>
            Project r = projectPath
            /\ (Status r = StatusError ->
                namesOperation projectPath (ErrorMessage r)))
         (Projects cfg) results.
Proof.
  destruct (ProcessProjects_honoured _ (NewService (c, p) cfg)
              (session_honours c (process.stdout p)))
    as (results & summary & s' & evs & E & _ & _).
  { now split. }
  exists results, summary. rewrite E. split; [reflexivity|].
  rewrite ProcessProjects_loop in E.
  apply processLoop_runs in E as (rs & -> & _ & Hruns).
  cbn [app]. revert Hruns. apply runs_each.
  intros projectPath s0 s1 r t Hrun. split.
  - now apply processProject_facts in Hrun as (_ & _ & -> & _).
  - now apply (production_processProject _ _ _ _ _ Hrun).
Qed.

End ProductionErrors.

Section Mock.

Context `{UnicodeTables}.

#[local] Arguments String.append !_ _ / : simpl nomatch.

(** ** The in-memory client of the tests *)

(** X12. What the in-memory client answers after it has been filled.  A
    branch added is found, and no other answer on branches changes; a
    project registered is resolved with its ID and path, and registering it
    forgets the branches known for its ID; a merge request added comes last
    in the answer for its project, whatever the two branches asked for.  No
    call changes the client. *)
Theorem mock_answers_what_was_added (m : mockGitLabClient) :
  (forall id branch,
      BranchExists id branch (addBranch id branch m)
      = (true, None, addBranch id branch m))
  /\ (forall id branch id' branch',
        id' <> id \/ branch' <> branch ->
        (BranchExists id' branch' (addBranch id branch m)).1
        = (BranchExists id' branch' m).1)
  /\ (forall path id branch,
        (BranchExists id branch (addProject path id m)).1 = (false, None))
  /\ (forall path id,
        exists project,
          GetProject path (addProject path id m)
          = (Some project, None, addProject path id m)
          /\ Project.ID project = id
          /\ Project.PathWithNamespace project = path)
  /\ (forall id mr source target,
        (FindOpenMergeRequests id source target (addMergeRequest id mr m)).1
        = ((FindOpenMergeRequests id source target m).1.1 ++ [mr], None))
  /\ (forall path id branch source target title description,
        (GetProject path m).2 = m
        /\ (BranchExists id branch m).2 = m
        /\ (FindOpenMergeRequests id source target m).2 = m
        /\ (CompareBranches id source target m).2 = m
        /\ (CreateMergeRequest id source target title description m).2 = m).
Proof.
  repeat apply conj.
  - intros id branch.
    cbn [BranchExists mockClient]. unfold mockBranchExists, addBranch.
    cbn [branches]. now rewrite !lookup_insert_eq.
  - intros id branch id' branch' Hne.
    cbn [BranchExists mockClient]. unfold mockBranchExists, addBranch.
    cbn [branches].
    destruct (decide (id' = id)) as [->|Hid].
    + rewrite lookup_insert_eq.
      destruct Hne as [Hne|Hne]; [contradiction|].
      rewrite lookup_insert_ne by congruence.
      destruct (branches m !! id) as [bs|]; [reflexivity|].
      now rewrite lookup_empty.
    + rewrite lookup_insert_ne by congruence.
      destruct (branches m !! id'); reflexivity.
  - intros path id branch.
    cbn [BranchExists mockClient]. unfold mockBranchExists, addProject.
    cbn [branches]. rewrite lookup_insert_eq. now rewrite lookup_empty.
  - intros path id. eexists.
    cbn [GetProject mockClient]. unfold mockGetProject.
    unfold addProject at 1. cbn [projects]. rewrite lookup_insert_eq.
    repeat split.
  - intros id mr source target.
    cbn [FindOpenMergeRequests mockClient].
    unfold mockFindOpenMergeRequests, addMergeRequest.
    cbn [mergeRequests]. rewrite lookup_insert_eq.
    destruct (mergeRequests m !! id); reflexivity.
  - intros path id branch source target title description.
    cbn [GetProject BranchExists FindOpenMergeRequests CompareBranches
         CreateMergeRequest mockClient].
    unfold mockGetProject, mockBranchExists, mockFindOpenMergeRequests,
      mockCompareBranches, mockCreateMergeRequest.
    destruct (projects m !! path), (branches m !! id),
      (mergeRequests m !! id), (createError m); repeat split.
Qed.

(** The answers of a client in which a project has been registered and the
    two branches added. *)
Lemma mock_ready (m : mockGitLabClient) (path origin target : string)
  (id : Z) :
  let c := addBranch id target (addBranch id origin (addProject path id m)) in
  GetProject path c
  = (Some (Project.mk id path path ("https://gitlab.example.com/" +:+ path)
             EmptyString []), None, c)
  /\ BranchExists id origin c = (true, None, c)
  /\ BranchExists id target c = (true, None, c)
  /\ FindOpenMergeRequests id origin target c
     = (default [] (mergeRequests m !! id), None, c)
  /\ createError c = createError m.
Proof.
  cbv zeta. cbn [GetProject BranchExists FindOpenMergeRequests mockClient].
  unfold mockGetProject, mockBranchExists, mockFindOpenMergeRequests.
  unfold addBranch, addProject.
  cbn [projects branches mergeRequests createError].
  repeat (rewrite lookup_insert_eq;
          cbn [projects branches mergeRequests createError]).
  repeat apply conj; try reflexivity.
  - destruct (decide (origin = target)) as [->|Hne].
    + now rewrite lookup_insert_eq.
    + rewrite lookup_insert_ne by congruence. now rewrite lookup_insert_eq.
  - destruct (mergeRequests m !! id); reflexivity.
Qed.

(** The same with a merge request added afterwards. *)
Lemma mock_ready_with_request (m : mockGitLabClient)
  (path origin target : string) (id : Z) (mr : MergeRequest.t) :
  let c :=
    addMergeRequest id mr
      (addBranch id target (addBranch id origin (addProject path id m))) in
  GetProject path c
  = (Some (Project.mk id path path ("https://gitlab.example.com/" +:+ path)
             EmptyString []), None, c)
  /\ BranchExists id origin c = (true, None, c)
  /\ BranchExists id target c = (true, None, c)
  /\ FindOpenMergeRequests id origin target c
     = (default [] (mergeRequests m !! id) ++ [mr], None, c).
Proof.
  cbv zeta.
  destruct (mock_ready m path origin target id) as (E1 & E2 & E3 & E4 & _).
  cbv zeta in E1, E2, E3, E4.
  set (c0 := addBranch id target _) in *.
  repeat apply conj.
  - revert E1. cbn [GetProject mockClient]. unfold mockGetProject.
    cbn [projects addMergeRequest].
    destruct (projects c0 !! path); now intros [= ->].
  - revert E2. cbn [BranchExists mockClient]. unfold mockBranchExists.
    cbn [branches addMergeRequest].
    destruct (branches c0 !! id); [|discriminate].
    now intros [= ->].
  - revert E3. cbn [BranchExists mockClient]. unfold mockBranchExists.
    cbn [branches addMergeRequest].
    destruct (branches c0 !! id); [|discriminate].
    now intros [= ->].
  - revert E4. cbn [FindOpenMergeRequests mockClient].
    unfold mockFindOpenMergeRequests. cbn [mergeRequests addMergeRequest].
    rewrite lookup_insert_eq.
    destruct (mergeRequests c0 !! id); intros [= E]; now rewrite <- E.
Qed.

(** A run of [processProject] whose calls are known, its paths but one
    closed by the answers. *)
Ltac known_calls K1 K2 K3 K4 :=
  repeat match goal with
  | E : GetProject _ ?x = _ |- _ => rewrite (K1 x eq_refl) in E
  | E : BranchExists _ _ ?x = _ |- _ =>
      first [rewrite (K2 x eq_refl) in E | rewrite (K3 x eq_refl) in E]
  | E : FindOpenMergeRequests _ _ _ ?x = _ |- _ => rewrite (K4 x eq_refl) in E
  | E : CompareBranches _ _ _ _ = _ |- _ =>
      cbn [CompareBranches mockClient] in E; unfold mockCompareBranches in E
  | E : (_, _, _) = (_, _, _) |- _ =>
      first [discriminate E | inversion E; clear E; subst]
  | _ => progress cbn [Project.ID OriginBranch TargetBranch] in *
  end.

(** X13. The first test, for every path, ID and pair of branches.  In a
    client that cannot fail the creation and knows no open request of the
    project, once the project is registered and the two branches added,
    [ProcessProjects] creates the request: one result, CREATED, with the ID
    999 and the IID 99 of the client, and a summary that counts it. *)
Theorem mock_creates_for_any_names (m : mockGitLabClient)
  (path origin target : string) (id : Z) (verbose : bool) :
  createError m = None ->
  default [] (mergeRequests m !! id) = [] ->
  let c := addBranch id target (addBranch id origin (addProject path id m)) in
  outcomeOf (ProcessProjects
               (NewService c (mkConfig origin target [path] verbose)))
  = Returned
      ([mkProjectResult path StatusCreated 999 99
          "https://gitlab.example.com/merge_requests/99" EmptyString
          "MR !99: https://gitlab.example.com/merge_requests/99"],
       mkSummary 1 1 0 0 0 0 0).
Proof.
  intros Hce Hmrs. cbv zeta.
  destruct (mock_ready m path origin target id) as (E1 & E2 & E3 & E4 & E5).
  cbv zeta in E1, E2, E3, E4, E5. rewrite Hmrs in E4. rewrite Hce in E5.
  set (c := addBranch id target _) in *. clearbody c.
  assert (K1 : forall x, x = c -> GetProject path x = _)
    by (intros x ->; exact E1).
  assert (K2 : forall x, x = c -> BranchExists id origin x = _)
    by (intros x ->; exact E2).
  assert (K3 : forall x, x = c -> BranchExists id target x = _)
    by (intros x ->; exact E3).
  assert (K4 : forall x, x = c -> FindOpenMergeRequests id origin target x = _)
    by (intros x ->; exact E4).
  assert (K5 : forall x, x = c -> createError x = None)
    by (intros x ->; exact E5).
  clear E1 E2 E3 E4 E5.
  rewrite ProcessProjects_loop. unfold NewService.
  cbn [config Projects processLoop]. unfold bind.
  destruct (processProject path _) as [[o s1] t] eqn:Hrun.
  run_cases Hrun; known_calls K1 K2 K3 K4.
  all: try discriminate.
  all: repeat match goal with
       | E : CreateMergeRequest _ _ _ _ _ ?x = _ |- _ =>
           cbn [CreateMergeRequest mockClient] in E;
           unfold mockCreateMergeRequest in E; rewrite (K5 x eq_refl) in E
       | E : (_, _, _) = (_, _, _) |- _ =>
           first [discriminate E | inversion E; clear E; subst]
       end.
  all: reflexivity.
Qed.

(** X14. The second and the third test, for every path, ID, pair of
    branches and open request.  With the project registered, the two
    branches added and one request added to a project that had none, the
    result is SKIPPED_EXISTS when the request is no draft and SKIPPED_DRAFT
    when it is one, with the ID, IID and URL of the request either way, and
    no request is created. *)
Theorem mock_skips_for_any_open_request (m : mockGitLabClient)
  (path origin target : string) (id : Z) (verbose : bool)
  (mr : MergeRequest.t) :
  default [] (mergeRequests m !! id) = [] ->
  let c :=
    addMergeRequest id mr
      (addBranch id target (addBranch id origin (addProject path id m))) in
  let run :=
    ProcessProjects (NewService c (mkConfig origin target [path] verbose)) in
  exists r,
    resultsOf (outcomeOf run) = [r]
    /\ Status r
       = (if MergeRequest.IsDraft mr then StatusSkippedDraft
          else StatusSkippedExists)
    /\ MergeRequestID r = MergeRequest.ID mr
    /\ MergeRequestIID r = MergeRequest.IID mr
    /\ MergeRequestURL r = MergeRequest.WebURL mr
    /\ List.filter isCreateMergeRequest (traceOf run) = [].
Proof.
  intros Hmrs. cbv zeta.
  destruct (mock_ready_with_request m path origin target id mr)
    as (E1 & E2 & E3 & E4).
  cbv zeta in E1, E2, E3, E4. rewrite Hmrs in E4. cbn [app] in E4.
  set (c := addMergeRequest id mr _) in *. clearbody c.
  assert (K1 : forall x, x = c -> GetProject path x = _)
    by (intros x ->; exact E1).
  assert (K2 : forall x, x = c -> BranchExists id origin x = _)
    by (intros x ->; exact E2).
  assert (K3 : forall x, x = c -> BranchExists id target x = _)
    by (intros x ->; exact E3).
  assert (K4 : forall x, x = c -> FindOpenMergeRequests id origin target x = _)
    by (intros x ->; exact E4).
  clear E1 E2 E3 E4.
  rewrite ProcessProjects_loop. unfold NewService.
  cbn [config Projects processLoop]. unfold bind.
  destruct (processProject path _) as [[o s1] t] eqn:Hrun.
  run_cases Hrun; known_calls K1 K2 K3 K4.
  all: try discriminate.
  all: try match goal with
       | E : (0 <? len [_]) = false |- _ => discriminate E
       end.
  all: match goal with
       | E : scanExisting _ _ _ _ = _ |- _ =>
           cbn [scanExisting] in E; destruct (MergeRequest.IsDraft mr);
           cbn [negb] in E;
           first [discriminate E | inversion E; clear E; subst]
       end.
  all: eexists; repeat apply conj; reflexivity.
Qed.

End Mock.

(** ** The commands *)

Section Paths.

#[local] Arguments String.append !_ _ / : simpl nomatch.

Lemma Contains_here (s substr : string) :
  HasPrefix s substr = true -> main.Contains s substr = true.
Proof.
  intros Hp. destruct s; cbn [main.Contains]; now rewrite Hp.
Qed.

Lemma Contains_later (c : ascii) (s substr : string) :
  main.Contains s substr = true -> main.Contains (String c s) substr = true.
Proof.
  intros Hs. cbn [main.Contains]. rewrite Hs. now destruct (HasPrefix _ _).
Qed.

Lemma Contains_after (before s substr : string) :
  main.Contains s substr = true ->
  main.Contains (before +:+ s) substr = true.
Proof.
  intros Hs. induction before as [|c before IH]; [exact Hs|].
  cbn [String.append]. now apply Contains_later.
Qed.

Lemma qualified_has_slash (group project : string) :
  main.Contains (group +:+ "/" +:+ project) "/" = true.
Proof.
  apply Contains_after, Contains_here. unfold HasPrefix. cbn.
  destruct (Ascii.ascii_dec "/" "/"); [|contradiction].
  now destruct project.
Qed.

(** X15. The paths given to [bulk-mr], as the engine gets them.  Each path
    is the one given, with the group and a slash before it or nothing;
    without a group the paths go as they are; with one, every path the
    engine gets has a slash, and a path given with a slash is kept.  Doing
    it twice changes nothing more. *)
Theorem processedProjects_qualifies (group : string) (projects : list string) :
  let processed := main.processedProjects group projects in
  Forall2
    (fun project path =>
       path = project
       \/ (main.Contains project "/" = false
           /\ path = group +:+ "/" +:+ project))
    projects processed
  /\ (group = EmptyString -> processed = projects)
  /\ (group <> EmptyString ->
      Forall (fun path => main.Contains path "/" = true) processed)
  /\ Forall2
       (fun project path => main.Contains project "/" = true -> path = project)
       projects processed
  /\ main.processedProjects group processed = processed.
Proof.
  cbv zeta. unfold main.processedProjects. repeat apply conj.
  - induction projects as [|project rest IH]; constructor; [|exact IH].
    destruct (String.eqb group EmptyString); cbn [negb andb]; [now left|].
    destruct (main.Contains project "/"); cbn [negb]; [now left|].
    now right.
  - intros ->. cbn [String.eqb negb andb]. induction projects as [|x l IH];
      [reflexivity|]. cbn [map]. now rewrite IH.
  - intros Hg. apply String.eqb_neq in Hg. rewrite Hg. cbn [negb andb].
    induction projects as [|project rest IH]; constructor; [|exact IH].
    destruct (main.Contains project "/") eqn:E; cbn [negb]; [exact E|].
    apply qualified_has_slash.
  - induction projects as [|project rest IH]; constructor; [|exact IH].
    intros ->. cbn [negb]. now rewrite andb_false_r.
  - rewrite map_map. apply map_ext. intros project.
    destruct (String.eqb group EmptyString); cbn [negb andb]; [reflexivity|].
    destruct (main.Contains project "/") eqn:E; cbn [negb].
    + now rewrite E.
    + now rewrite qualified_has_slash.
Qed.

End Paths.

Section Failures.

Context `{UnicodeTables} {C : Type} `{GitLabClient C}.

(** A result is an ERROR exactly when a call of its run failed. *)
Lemma error_iff_failed (projectPath : string) (s s' : Service C)
  (r : ProjectResult) (evs : list Event) :
  processProject projectPath s = (Returned r, s', evs) ->
  String.eqb (Status r) StatusError = existsb failed evs.
Proof.
  intros Hrun. run_cases Hrun.
  all: try scan_cases.
  all: reflexivity.
Qed.

Lemma countStatus_nonneg (status : ResultStatus) (rs : list ProjectResult) :
  0 <= countStatus status rs.
Proof. unfold countStatus, len. lia. Qed.

(** Some result of a chain of runs is an ERROR exactly when some call of
    the chain failed. *)
Lemma runs_failures (projects : list string) (s s' : Service C)
  (results : list ProjectResult) (evs : list Event) :
  runs projects s results s' evs ->
  (0 <? countStatus StatusError results) = existsb failed evs.
Proof.
  induction 1 as [s|projectPath rest s s1 s2 r rs t1 t2 Hrun _ IH];
    [reflexivity|].
  rewrite countStatus_cons, existsb_app, <- IH.
  rewrite <- (error_iff_failed _ _ _ _ _ Hrun).
  pose proof (countStatus_nonneg StatusError rs).
  unfold one_if. destruct (String.eqb (Status r) StatusError); cbn [orb].
  - apply Z.ltb_lt. lia.
  - reflexivity.
Qed.

End Failures.

Section Commands.

Context `{UnicodeTables} {W : Type} `{Library W}.

#[local] Existing Instance gitlab_client.session_client.

#[local] Arguments String.append !_ _ / : simpl nomatch.

Lemma last_print (text : string) (p : process.t W) :
  last (process.stdout (process.print text p)) = Some text.
Proof. cbn [process.print process.stdout]. apply last_snoc. Qed.

(** The report of a run: the exit code and the last line go by the failed
    calls, and the trace names every path once, in order. *)
Lemma report_facts (service : Service gitlab_client.Session) :
  len (Projects (config service)) <= maxInt ->
  let run := main.report service in
  let failures := existsb failed run.2 in
  run.1.1 = (if failures then main.Exits 1 else main.Returns)
  /\ last (process.stdout run.1.2)
     = Some ((if failures then "✗ Completed with errors"
              else "✓ Completed successfully") +:+ LF)
  /\ projectPaths run.2 = Projects (config service).
Proof.
  intros Hlen. cbv zeta. unfold main.report.
  destruct (ProcessProjects_honoured _ service
              (session_honours (client service).1
                 (process.stdout (client service).2)))
    as (results & summary & s' & evs & E & _ & _).
  { now split. }
  rewrite E. rewrite ProcessProjects_loop in E.
  apply processLoop_runs in E as (rs & -> & -> & Hruns). cbn [app].
  rewrite (summary_by_counts _ _ _ _ _ Hruns Hlen).
  cbn [Errors]. rewrite (runs_failures _ _ _ _ _ Hruns).
  pose proof (runs_failures _ _ _ _ _ Hruns) as Hf.
  apply runs_facts in Hruns as (_ & Hpaths & _).
  destruct (existsb failed evs) eqn:Ef; cbn [fst snd]; rewrite Ef.
  - repeat split; [|exact Hpaths].
    unfold main.printSummary. cbn [Errors]. apply Z.ltb_lt in Hf.
    destruct (_ =? 0) eqn:E0; [apply Z.eqb_eq in E0; lia|].
    apply last_print.
  - repeat split; [|exact Hpaths].
    unfold main.printSummary. cbn [Errors]. apply Z.ltb_ge in Hf.
    pose proof (countStatus_nonneg StatusError rs).
    destruct (_ =? 0) eqn:E0; [|apply Z.eqb_neq in E0; lia].
    apply last_print.
Qed.

(** X16. [bulk-mr] with a required value missing (the origin, the target,
    a project, the URL or the token) ends with exit code 1 after an error
    line on standard error and the usage; it makes no call and prints
    nothing else. *)
Theorem bulkMRCommand_requires
  (usage : process.t W -> process.t W) (flags : main.bulkMRFlags)
  (p : process.t W) :
  ~ complete flags ->
  exists msg,
    main.bulkMRCommand usage flags p
    = (main.Exits 1, usage (process.eprint ("Error: " +:+ msg +:+ LF) p), []).
Proof.
  intros Hc. unfold main.bulkMRCommand.
  destruct (String.eqb (main.origin flags) EmptyString) eqn:E1;
    [eexists; reflexivity|].
  destruct (String.eqb (main.target flags) EmptyString) eqn:E2;
    [eexists; reflexivity|].
  destruct (len (main.projects flags) =? 0) eqn:E3; [eexists; reflexivity|].
  destruct (String.eqb (main.gitlabURL flags) EmptyString) eqn:E4;
    [eexists; reflexivity|].
  destruct (String.eqb (main.token flags) EmptyString) eqn:E5;
    [eexists; reflexivity|].
  exfalso. apply Hc. unfold complete.
  apply String.eqb_neq in E1, E2, E4, E5. repeat split; try assumption.
  intros E. rewrite E in E3. discriminate E3.
Qed.

(** X17. [bulk-mr] with all that is required.  It cannot panic, it
    attempts every project given, under its qualified path and in order,
    and its exit code tells whether a call failed: 1 with "Completed with
    errors" as its last line when some call of the client answered an
    error, a plain return with "Completed successfully" when none did.
    (The number of projects fits a 64-bit integer, as the length of any
    slice does.) *)
Theorem bulkMRCommand_exit_code
  (usage : process.t W -> process.t W) (flags : main.bulkMRFlags)
  (p : process.t W) :
  complete flags ->
  len (main.projects flags) <= maxInt ->
  let run := main.bulkMRCommand usage flags p in
  let failures := existsb failed run.2 in
  run.1.1 = (if failures then main.Exits 1 else main.Returns)
  /\ last (process.stdout run.1.2)
     = Some ((if failures then "✗ Completed with errors"
              else "✓ Completed successfully") +:+ LF)
  /\ projectPaths run.2
     = main.processedProjects (main.group flags) (main.projects flags).
Proof.
  intros (C1 & C2 & C3 & C4 & C5) Hlen. cbv zeta.
  unfold main.bulkMRCommand.
  apply String.eqb_neq in C1, C2, C4, C5. rewrite C1, C2, C4, C5.
  destruct (len (main.projects flags) =? 0) eqn:E3.
  { apply Z.eqb_eq in E3. unfold len in E3.
    destruct (main.projects flags); [contradiction | discriminate E3]. }
  apply report_facts. cbn [config NewService Projects].
  unfold main.processedProjects, len. rewrite length_map. exact Hlen.
Qed.

End Commands.

Section Pages.

Context `{UnicodeTables} {W : Type} `{Library W}.

#[local] Existing Instance gitlab_client.session_client.

Lemma length_pageOf {A : Type} (all : list A) (perPage page : Z) :
  length (pageOf all perPage page)
  = Nat.min (Z.to_nat perPage)
      (length all - Z.to_nat ((page - 1) * perPage)).
Proof. unfold pageOf. now rewrite length_take, length_drop. Qed.

(** The loop from the page [page] on, with the pages before it gathered. *)
Lemma fetchPages_from (Inv : W -> Prop) (c : gitlab_client.Client)
  (topic : string) (perPage : Z) (all : list Project.t) :
  0 < perPage ->
  len all + perPage <= maxInt ->
  serves Inv c topic perPage all ->
  forall (fuel : nat) (page : Z) (p : process.t W),
    Inv (process.world p) ->
    1 <= page ->
    (page - 1) * perPage <= len all ->
    pagesAsked (len all) perPage - page < Z.of_nat fuel ->
    exists p',
      main.fetchPages fuel c topic perPage page
        (take (Z.to_nat ((page - 1) * perPage)) all) p
      = Some (inl all, p')
      /\ Inv (process.world p').
Proof.
  intros Hpp Hmax Hserves. unfold pagesAsked.
  induction fuel as [|fuel IH]; intros page p HI Hpage Hdone Hfuel.
  - assert (page - 1 <= len all / perPage)
      by (apply Z.div_le_lower_bound; lia).
    lia.
  - assert (Hk : page - 1 <= len all / perPage)
      by (apply Z.div_le_lower_bound; lia).
    cbn [main.fetchPages].
    destruct (Hserves page p HI) as (E & HI'); [unfold pagesAsked; lia|].
    cbv zeta in E, HI'.
    destruct (gitlab_client.ListProjectsByTopic c topic page perPage p)
      as [[projects err] p1].
    cbn [fst snd] in E, HI'. injection E as -> ->.
    assert (Hpos : 0 <= (page - 1) * perPage) by nia.
    assert (Hl : len (pageOf all perPage page)
                 = Z.min perPage (len all - (page - 1) * perPage)).
    { unfold len. rewrite length_pageOf. unfold len in Hdone. lia. }
    remember (Z.to_nat ((page - 1) * perPage)) as a eqn:Haz.
    assert (Ha : Z.of_nat a = (page - 1) * perPage) by lia.
    destruct (len (pageOf all perPage page) =? 0) eqn:E0.
    + apply Z.eqb_eq in E0. exists p1. split; [|exact HI'].
      rewrite take_ge; [reflexivity|]. unfold len in *. lia.
    + apply Z.eqb_neq in E0.
      assert (Happ : take a all ++ pageOf all perPage page
                     = take (a + Z.to_nat perPage) all).
      { unfold pageOf. rewrite <- Haz. now rewrite take_take_drop. }
      destruct (len (pageOf all perPage page) <? perPage) eqn:E1.
      * apply Z.ltb_lt in E1. exists p1. split; [|exact HI'].
        rewrite Happ, take_ge; [reflexivity|]. unfold len in *. lia.
      * apply Z.ltb_ge in E1.
        assert (Hnext : page * perPage <= len all) by lia.
        assert (Hq : page <= len all / perPage)
          by (apply Z.div_le_lower_bound; lia).
        assert (len all / perPage <= len all).
        { apply Z.div_le_upper_bound; [lia|]. unfold len in *. nia. }
        rewrite incr_small by (unfold len in *; lia).
        rewrite Happ.
        replace (a + Z.to_nat perPage)%nat
          with (Z.to_nat ((page + 1 - 1) * perPage)) by nia.
        apply IH; try assumption; lia.
Qed.

(** The loop from the first page. *)
Lemma fetchPages_gathers_from_first (Inv : W -> Prop)
  (c : gitlab_client.Client) (topic : string) (perPage : Z)
  (all : list Project.t) (p : process.t W) :
  0 < perPage ->
  len all + perPage <= maxInt ->
  serves Inv c topic perPage all ->
  Inv (process.world p) ->
  exists p',
    main.fetchPages (Z.to_nat (pagesAsked (len all) perPage)) c topic perPage
      1 [] p
    = Some (inl all, p')
    /\ Inv (process.world p').
Proof.
  intros Hpp Hmax Hserves HI.
  assert (0 <= len all / perPage)
    by (apply Z.div_pos; unfold len; lia).
  apply (fetchPages_from Inv c topic perPage all Hpp Hmax Hserves
           (Z.to_nat (pagesAsked (len all) perPage)) 1 p HI).
  - lia.
  - unfold len. lia.
  - unfold pagesAsked. lia.
Qed.

(** X18. The loop of [bulk-mr-topic] gathers the topic.  When the platform
    serves the projects of the topic page by page, [perPage] (positive) to
    a page, the loop ends within as many rounds as there are full pages
    and one more, with all the projects in the order of the platform: more
    projects than fit one page are not cut off. *)
Theorem fetchPages_gathers_the_topic (Inv : W -> Prop)
  (c : gitlab_client.Client) (topic : string) (perPage : Z)
  (all : list Project.t) (p : process.t W) :
  0 < perPage ->
  len all + perPage <= maxInt ->
  serves Inv c topic perPage all ->
  Inv (process.world p) ->
  exists p',
    main.fetchPages (Z.to_nat (pagesAsked (len all) perPage)) c topic perPage
      1 [] p
    = Some (inl all, p')
    /\ Inv (process.world p').
Proof.
  intros Hpp Hmax Hserves HI.
  assert (Hq : 0 <= len all / perPage)
    by (apply Z.div_pos; unfold len; lia).
  apply (fetchPages_from Inv c topic perPage all Hpp Hmax Hserves
           (Z.to_nat (pagesAsked (len all) perPage)) 1 p HI);
    unfold pagesAsked, len in *; lia.
Qed.

End Pages.

Section Topic.

Context `{UnicodeTables} {W : Type} `{Library W}.

#[local] Existing Instance gitlab_client.session_client.

(** X19. [bulk-mr-topic] with all that is required, on a platform that
    serves the projects of the topic page by page.  Within as many rounds
    of its loop as pages are asked for, the command ends; for a topic with
    no project it exits with code 0 and the engine makes no call; otherwise
    the engine attempts every project of the topic, by its path with
    namespace and in the order of the platform, and the exit code is 1
    exactly when a call failed. *)
Theorem bulkMRTopicCommand_covers_the_topic (Inv : W -> Prop)
  (usage : process.t W -> process.t W) (flags : main.bulkMRTopicFlags)
  (all : list Project.t) (p : process.t W) :
  completeTopic flags ->
  0 < main.t_perPage flags ->
  len all + main.t_perPage flags <= maxInt ->
  serves Inv
    (gitlab_client.NewClient (main.t_gitlabURL flags) (main.t_token flags)
       (main.t_verbose flags))
    (main.t_topic flags) (main.t_perPage flags) all ->
  Inv (process.world p) ->
  exists run,
    main.bulkMRTopicCommand
      (Z.to_nat (pagesAsked (len all) (main.t_perPage flags))) usage flags p
    = Some run
    /\ (all = [] -> run.1.1 = main.Exits 0 /\ run.2 = [])
    /\ (all <> [] ->
        projectPaths run.2 = map Project.PathWithNamespace all
        /\ run.1.1
           = (if existsb failed run.2 then main.Exits 1 else main.Returns)).
Proof.
  intros (C1 & C2 & C3 & C4 & C5) Hpp Hmax Hserves HI.
  unfold main.bulkMRTopicCommand.
  apply String.eqb_neq in C1, C2, C3, C4, C5. rewrite C1, C2, C3, C4, C5.
  match goal with
  | |- context [main.fetchPages _ _ _ _ _ _ ?q] =>
      destruct (fetchPages_gathers_from_first Inv _ _ _ all q Hpp Hmax
                  Hserves HI) as (p' & -> & _)
  end.
  destruct all as [|project rest].
  - eexists. split; [reflexivity|]. split; [now split | contradiction].
  - replace (len (project :: rest) =? 0) with false
      by (symmetry; apply Z.eqb_neq; unfold len; cbn [length]; lia).
    eexists. split; [reflexivity|]. split; [discriminate|]. intros _.
    match goal with
    | |- context [main.report ?service] =>
        destruct (report_facts service) as (K1 & _ & K3)
    end.
    { cbn [config NewService Projects]. unfold len in *.
      rewrite length_map. lia. }
    split; [exact K3 | exact K1].
Qed.

End Topic.

(** ** The interactive merge *)

Section Merge.

Context `{UnicodeTables} {W : Type} `{Library W}.

(** The client reads nothing from standard input. *)
Lemma makeRequest_stdin (c : gitlab_client.Client) (method endpoint : string)
  (body : option string) (p : process.t W) :
  process.stdin (gitlab_client.makeRequest c method endpoint body p).2
  = process.stdin p.
Proof.
  unfold gitlab_client.makeRequest.
  destruct (NewRequestErr _ _); [reflexivity|].
  destruct (Do _ _) as [[resp|e] w]; reflexivity.
Qed.

Lemma doRequest_stdin {T : Type} (c : gitlab_client.Client)
  (decode : string -> T + string) (method endpoint : string)
  (payload : option (list (string * string))) (p : process.t W) :
  process.stdin (gitlab_client.doRequest c decode method endpoint payload p).2
  = process.stdin p.
Proof.
  unfold gitlab_client.doRequest.
  destruct payload as [fields|];
    [destruct (Marshal fields) as [jsonData [e|]]; [reflexivity|]|].
  all: match goal with
       | |- context [gitlab_client.makeRequest ?c ?m ?e ?b ?p] =>
           pose proof (makeRequest_stdin c m e b p) as K;
           destruct (gitlab_client.makeRequest c m e b p) as [[resp|e'] p']
       end; cbn [snd] in K; [|exact K].
  all: destruct (ReadErr resp); [exact K|].
  all: destruct (gitlab_client.verbose c);
    (destruct (_ || _); [exact K|]); destruct (decode _); exact K.
Qed.

Lemma AcceptMergeRequest_stdin (c : gitlab_client.Client) (projectID mrIID : Z)
  (p : process.t W) :
  process.stdin (gitlab_client.AcceptMergeRequest c projectID mrIID p).2
  = process.stdin p.
Proof.
  unfold gitlab_client.AcceptMergeRequest.
  match goal with
  | |- context [gitlab_client.doRequest ?c ?d ?m ?e ?pl ?p] =>
      pose proof (doRequest_stdin c d m e pl p) as K;
      destruct (gitlab_client.doRequest c d m e pl p) as [r p']
  end. exact K.
Qed.

Lemma ListOpenMergeRequestsByTarget_stdin (c : gitlab_client.Client)
  (projectID : Z) (target : string) (p : process.t W) :
  process.stdin
    (gitlab_client.ListOpenMergeRequestsByTarget c projectID target p).2
  = process.stdin p.
Proof.
  unfold gitlab_client.ListOpenMergeRequestsByTarget.
  match goal with
  | |- context [gitlab_client.doRequest ?c ?d ?m ?e ?pl ?p] =>
      pose proof (doRequest_stdin c d m e pl p) as K;
      destruct (gitlab_client.doRequest c d m e pl p) as [r p']
  end. exact K.
Qed.

Lemma ListProjectsByTopic_stdin (c : gitlab_client.Client) (topic : string)
  (page perPage : Z) (p : process.t W) :
  process.stdin (gitlab_client.ListProjectsByTopic c topic page perPage p).2
  = process.stdin p.
Proof.
  unfold gitlab_client.ListProjectsByTopic.
  match goal with
  | |- context [gitlab_client.doRequest ?c ?d ?m ?e ?pl ?p] =>
      pose proof (doRequest_stdin c d m e pl p) as K;
      destruct (gitlab_client.doRequest c d m e pl p) as [r p']
  end. exact K.
Qed.

(** Traces put together. *)
Lemma acceptedOnYes_none (evs : list main.MergeEvent) :
  (forall projectID mrIID err, ~ In (main.Accepted projectID mrIID err) evs) ->
  acceptedOnYes evs.
Proof.
  intros Hno before after projectID mrIID err E. exfalso.
  apply (Hno projectID mrIID err). rewrite E. apply in_elt.
Qed.

Lemma acceptedOnYes_app (evs1 evs2 : list main.MergeEvent) :
  acceptedOnYes evs1 -> acceptedOnYes evs2 -> acceptedOnYes (evs1 ++ evs2).
Proof.
  intros H1 H2 before after projectID mrIID err E.
  apply List.app_eq_app in E as (l & [(E1 & E2)|(E1 & E2)]).
  - destruct l as [|x l].
    + rewrite app_nil_r in E1. subst evs1. cbn [app] in E2.
      destruct (H2 [] after projectID mrIID err (eq_sym E2))
        as (before' & project & mr & line & E & _).
      destruct before' as [|? [|? ?]]; discriminate E.
    + cbn [app] in E2. injection E2 as <- ->.
      exact (H1 before l projectID mrIID err E1).
  - destruct (H2 l after projectID mrIID err E2)
      as (before' & project & mr & line & -> & K).
    exists (evs1 ++ before'), project, mr, line.
    rewrite E1, <- app_assoc. now split.
Qed.

Lemma acceptedOnYes_block (project : Project.t) (mr : MergeRequest.t)
  (line : string) (err : error) :
  MergeRequest.IsDraft mr = false ->
  agreed line ->
  acceptedOnYes
    [main.Prompted project mr; main.Answered line;
     main.Accepted (Project.ID project) (MergeRequest.IID mr) err].
Proof.
  intros Hd Hl before after projectID mrIID err' E.
  destruct before as [|a [|b [|c before]]]; try discriminate E.
  - inversion E; subst.
    exists [], project, mr, line. now repeat split.
  - inversion E as [[E1 E2 E3 E4]]. destruct before; discriminate E4.
Qed.

(** The inner loop: what it asks, what it reads and what it accepts. *)
Lemma promptEach_facts (client : gitlab_client.Client) (project : Project.t)
  (mrs : list MergeRequest.t) :
  Forall (fun mr => MergeRequest.IsDraft mr = false) mrs ->
  forall (n n' : main.counts) (p p' : process.t W)
         (evs : list main.MergeEvent),
    main.promptEach client project mrs n p = (n', p', evs) ->
    acceptedOnYes evs
    /\ (forall project' mr,
          In (main.Prompted project' mr) evs -> project' = project /\ In mr mrs)
    /\ (forall project' mrs' err, ~ In (main.Listed project' mrs' err) evs)
    /\ process.stdin p = answers evs ++ process.stdin p'.
Proof.
  induction 1 as [|mr rest Hmr Hrest IH]; intros n n' p p' evs Hrun.
  - injection Hrun as <- <- <-.
    split; [now apply acceptedOnYes_none|].
    split; [intros ? ? []|]. split; [intros ? ? ? []|reflexivity].
  - cbn [main.promptEach] in Hrun. cbv zeta in Hrun.
    cbn [process.stdin process.print] in Hrun.
    destruct (process.stdin p) as [|line lines] eqn:Ein.
    { injection Hrun as <- <- <-.
      split; [apply acceptedOnYes_none;
              intros ? ? ? [E|[E|[]]]; discriminate E|].
      split.
      { intros project' mr' [E|[E|[]]]; [|discriminate E].
        injection E as <- <-. split; [reflexivity | now left]. }
      split; [intros ? ? ? [E|[E|[]]]; discriminate E|].
      cbn. now rewrite Ein. }
    assert (Hcont : exists n1 p2 n2 evs2 block,
               main.promptEach client project rest n1 p2 = (n2, p', evs2)
               /\ n' = n2
               /\ process.stdin p2 = lines
               /\ evs = block ++ evs2
               /\ (block = [main.Prompted project mr; main.Answered line]
                   \/ exists err,
                       agreed line
                       /\ block
                          = [main.Prompted project mr; main.Answered line;
                             main.Accepted (Project.ID project)
                               (MergeRequest.IID mr) err])).
    { destruct (String.eqb _ "y" || String.eqb _ "yes") eqn:Ey.
      - assert (Hag : agreed line).
        { unfold agreed. cbv zeta.
          apply orb_true_iff in Ey as [Ey|Ey]; apply String.eqb_eq in Ey;
            [now left | now right]. }
        match type of Hrun with
        | context [gitlab_client.AcceptMergeRequest ?c ?i ?j ?q] =>
            pose proof (AcceptMergeRequest_stdin c i j q) as Hin;
            destruct (gitlab_client.AcceptMergeRequest c i j q)
              as [[v err] p1]
        end.
        cbn [snd process.stdin] in Hin.
        destruct err as [e|];
          match type of Hrun with
          | context [main.promptEach ?c ?pr ?r ?n1 ?p2] =>
              destruct (main.promptEach c pr r n1 p2) as [[n2 p3] evs2] eqn:E2;
              exists n1, p2, n2, evs2
          end;
          [exists [main.Prompted project mr; main.Answered line;
                   main.Accepted (Project.ID project) (MergeRequest.IID mr)
                     (Some e)]
          |exists [main.Prompted project mr; main.Answered line;
                   main.Accepted (Project.ID project) (MergeRequest.IID mr)
                     None]];
          injection Hrun as <- <- <-;
          (split; [exact E2|]); (split; [reflexivity|]);
          (split; [exact Hin|]); (split; [reflexivity|]);
          right; eexists; (split; [exact Hag | reflexivity]).
      - match type of Hrun with
        | context [main.promptEach ?c ?pr ?r ?n1 ?p2] =>
            destruct (main.promptEach c pr r n1 p2) as [[n2 p3] evs2] eqn:E2;
            exists n1, p2, n2, evs2
        end. injection Hrun as <- <- <-.
        exists [main.Prompted project mr; main.Answered line].
        split; [exact E2|]. split; [reflexivity|]. split; [reflexivity|].
        split; [reflexivity|]. now left. }
    destruct Hcont as (n1 & p2 & n2 & evs2 & block & E2 & -> & Hl & -> & Hb).
    destruct (IH _ _ _ _ _ E2) as (K1 & K2 & K3 & K4).
    assert (Hblock : acceptedOnYes block
                     /\ (forall project' mr',
                           In (main.Prompted project' mr') block ->
                           project' = project /\ mr' = mr)
                     /\ (forall project' mrs' err,
                           ~ In (main.Listed project' mrs' err) block)
                     /\ answers block = [line]).
    { destruct Hb as [->|(err & Hag & ->)].
      - split; [apply acceptedOnYes_none;
                intros ? ? ? [E|[E|[]]]; discriminate E|].
        split.
        { intros project' mr' [E|[E|[]]]; [|discriminate E].
          now injection E as <- <-. }
        split; [intros ? ? ? [E|[E|[]]]; discriminate E|reflexivity].
      - split; [now apply acceptedOnYes_block|].
        split.
        { intros project' mr' [E|[E|[E|[]]]]; try discriminate E.
          now injection E as <- <-. }
        split; [intros ? ? ? [E|[E|[E|[]]]]; discriminate E|reflexivity]. }
    destruct Hblock as (B1 & B2 & B3 & B4).
    split; [now apply acceptedOnYes_app|].
    split.
    { intros project' mr' Hi. apply in_app_or in Hi as [Hi|Hi].
      - apply B2 in Hi as [-> ->]. split; [reflexivity | now left].
      - apply K2 in Hi as [-> Hi]. split; [reflexivity | now right]. }
    split.
    { intros project' mrs' err Hi. apply in_app_or in Hi as [Hi|Hi].
      - now apply B3 in Hi.
      - now apply K3 in Hi. }
    unfold answers in *. rewrite omap_app, B4. cbn [app].
    f_equal. now rewrite <- K4, Hl.
Qed.

Lemma answers_app (evs1 evs2 : list main.MergeEvent) :
  answers (evs1 ++ evs2) = answers evs1 ++ answers evs2.
Proof. apply omap_app. Qed.

(** The outer loop. *)
Lemma mergeEach_facts (client : gitlab_client.Client) (target : string)
  (projects : list Project.t) :
  forall (n n' : main.counts) (p p' : process.t W)
         (evs : list main.MergeEvent),
    main.mergeEach client target projects n p = (n', p', evs) ->
    acceptedOnYes evs
    /\ promptedAsListed evs
    /\ process.stdin p = answers evs ++ process.stdin p'.
Proof.
  induction projects as [|project rest IH]; intros n n' p p' evs Hrun.
  - injection Hrun as <- <- <-.
    split; [now apply acceptedOnYes_none|].
    split; [intros ? ? []|reflexivity].
  - cbn [main.mergeEach] in Hrun.
    match type of Hrun with
    | context [gitlab_client.ListOpenMergeRequestsByTarget ?c ?i ?t ?q] =>
        pose proof (ListOpenMergeRequestsByTarget_stdin c i t q) as Hin;
        destruct (gitlab_client.ListOpenMergeRequestsByTarget c i t q)
          as [[mrs err] p1]
    end.
    cbn [snd] in Hin. destruct err as [e|].
    + match type of Hrun with
      | context [main.mergeEach ?c ?t ?r ?n1 ?p2] =>
          destruct (main.mergeEach c t r n1 p2) as [[n2 p3] evs2] eqn:E2
      end.
      injection Hrun as <- <- <-.
      destruct (IH _ _ _ _ _ E2) as (K1 & K2 & K3).
      split.
      { apply (acceptedOnYes_app [_]); [|exact K1].
        apply acceptedOnYes_none. intros ? ? ? [E|[]]. discriminate E. }
      split.
      { intros project' mr [E|Hi]; [discriminate E|].
        destruct (K2 _ _ Hi) as (Hd & mrs' & Hl & Hm).
        split; [exact Hd|]. exists mrs'. split; [now right | exact Hm]. }
      cbn [answers omap]. cbn [process.stdin process.print] in K3.
      now rewrite <- Hin.
    + match type of Hrun with
      | context [main.promptEach ?c ?pr ?r ?n1 ?p2] =>
          destruct (main.promptEach c pr r n1 p2) as [[n1' p2'] evs1] eqn:E1
      end.
      match type of Hrun with
      | context [main.mergeEach ?c ?t ?r ?n1 ?p2] =>
          destruct (main.mergeEach c t r n1 p2) as [[n2 p3] evs2] eqn:E2
      end.
      injection Hrun as <- <- <-.
      apply promptEach_facts in E1 as (P1 & P2 & P3 & P4).
      2:{ apply List.Forall_forall. intros mr Hi.
          apply List.filter_In in Hi as [_ Hi]. now apply negb_true_iff in Hi. }
      destruct (IH _ _ _ _ _ E2) as (K1 & K2 & K3).
      split.
      { apply (acceptedOnYes_app [_]);
          [|apply acceptedOnYes_app; assumption].
        apply acceptedOnYes_none. intros ? ? ? [E|[]]. discriminate E. }
      split.
      { intros project' mr [E|Hi]; [discriminate E|].
        apply in_app_or in Hi as [Hi|Hi].
        - apply P2 in Hi as [-> Hi].
          apply List.filter_In in Hi as [Hi Hd].
          apply negb_true_iff in Hd. split; [exact Hd|].
          exists mrs. split; [now left | exact Hi].
        - destruct (K2 _ _ Hi) as (Hd & mrs' & Hl & Hm).
          split; [exact Hd|]. exists mrs'.
          split; [right; apply in_or_app; now right | exact Hm]. }
      change (answers (main.Listed project mrs None :: evs1 ++ evs2))
        with (answers (evs1 ++ evs2)).
      rewrite answers_app, <- app_assoc.
      now rewrite <- K3, <- P4.
Qed.

(** X20. The interactive merge accepts a merge request only when asked to.
    Whatever the platform answers and whatever is typed, every request to
    accept comes right after the prompt for that merge request and a line
    that, trimmed and in lower case, is "y" or "yes"; every prompt is for a
    request that is no draft and that the platform listed for its project;
    the lines read are the first lines of the input, in order, and the
    rest is left unread; and when the input has ended before the first
    prompt nothing is accepted. *)
Theorem merge_accepts_only_on_yes (defaults : string)
  (flags : main.mergeFlags) (p : process.t W) :
  let run := main.mergeCommand defaults flags p in
  acceptedOnYes run.2
  /\ promptedAsListed run.2
  /\ process.stdin p = answers run.2 ++ process.stdin run.1.2
  /\ (process.stdin p = [] ->
      forall projectID mrIID err,
        ~ In (main.Accepted projectID mrIID err) run.2).
Proof.
  cbv zeta.
  assert (Hmain :
    acceptedOnYes (main.mergeCommand defaults flags p).2
    /\ promptedAsListed (main.mergeCommand defaults flags p).2
    /\ process.stdin p
       = answers (main.mergeCommand defaults flags p).2
         ++ process.stdin (main.mergeCommand defaults flags p).1.2).
  { unfold main.mergeCommand.
    destruct (String.eqb (main.m_target flags) EmptyString
              || String.eqb (main.m_topic flags) EmptyString).
    { split; [now apply acceptedOnYes_none|].
      split; [intros ? ? []|reflexivity]. }
    destruct (String.eqb (main.m_baseURL flags) EmptyString
              || String.eqb (main.m_token flags) EmptyString).
    { split; [apply acceptedOnYes_none; intros ? ? ? [E|[]]; discriminate E|].
      split; [intros ? ? [E|[]]; discriminate E|reflexivity]. }
    match goal with
    | |- context [gitlab_client.ListProjectsByTopic ?c ?t ?a ?b ?q] =>
        pose proof (ListProjectsByTopic_stdin c t a b q) as Hin;
        destruct (gitlab_client.ListProjectsByTopic c t a b q)
          as [[projects err] p1]
    end.
    cbn [snd process.stdin process.print] in Hin. destruct err as [e|].
    { split; [apply acceptedOnYes_none; intros ? ? ? [E|[]]; discriminate E|].
      split; [intros ? ? [E|[]]; discriminate E|]. now rewrite <- Hin. }
    destruct (len projects =? 0).
    { split; [now apply acceptedOnYes_none|].
      split; [intros ? ? []|]. now rewrite <- Hin. }
    match goal with
    | |- context [main.mergeEach ?c ?t ?r ?n1 ?p2] =>
        destruct (main.mergeEach c t r n1 p2) as [[n2 p3] evs] eqn:E2
    end.
    apply mergeEach_facts in E2 as (K1 & K2 & K3).
    cbn [process.stdin process.print] in K3.
    destruct (0 <? main.errorCount n2); cbn [fst snd];
      (split; [exact K1|]); (split; [exact K2|]);
      rewrite <- Hin, K3; reflexivity. }
  destruct Hmain as (K1 & K2 & K3).
  split; [exact K1|]. split; [exact K2|]. split; [exact K3|].
  intros Hempty projectID mrIID err Hi.
  apply in_split in Hi as (before & after & E).
  destruct (K1 _ _ _ _ _ E) as (before' & project & mr & line & -> & _).
  rewrite E in K3. rewrite Hempty in K3.
  rewrite !answers_app in K3.
  change (answers [main.Prompted project mr; main.Answered line])
    with [line] in K3.
  apply (f_equal (@length string)) in K3.
  rewrite !length_app in K3. cbn [length] in K3. lia.
Qed.

End Merge.

Section MergeExit.

Context `{UnicodeTables} {W : Type} `{Library W}.

Lemma len_cons {A : Type} (x : A) (l : list A) : len (x :: l) = 1 + len l.
Proof. unfold len. cbn [length]. lia. Qed.

Lemma len_nonneg {A : Type} (l : list A) : 0 <= len l.
Proof. unfold len. lia. Qed.

(** The error counter after the inner loop, as long as it cannot wrap. *)
Lemma promptEach_errors (client : gitlab_client.Client) (project : Project.t)
  (mrs : list MergeRequest.t) :
  forall (n n' : main.counts) (p p' : process.t W)
         (evs : list main.MergeEvent),
    main.promptEach client project mrs n p = (n', p', evs) ->
    0 <= main.errorCount n ->
    main.errorCount n + len evs <= maxInt ->
    main.errorCount n'
    = main.errorCount n + len (List.filter mergeFailed evs).
Proof.
  induction mrs as [|mr rest IH]; intros n n' p p' evs Hrun Hpos Hmax.
  - injection Hrun as <- <- <-. cbn. unfold len. cbn. lia.
  - cbn [main.promptEach] in Hrun. cbv zeta in Hrun.
    cbn [process.stdin process.print] in Hrun.
    destruct (process.stdin p) as [|line lines].
    { injection Hrun as <- <- <-. cbn. unfold len. cbn. lia. }
    destruct (String.eqb _ "y" || String.eqb _ "yes").
    + destruct (gitlab_client.AcceptMergeRequest _ _ _ _) as [[v [e|]] p1];
        match type of Hrun with
        | context [main.promptEach ?c ?pr ?r ?n1 ?p2] =>
            destruct (main.promptEach c pr r n1 p2) as [[n2 p3] evs2] eqn:E2
        end; injection Hrun as <- <- <-;
        cbn [app] in Hmax; rewrite !len_cons in Hmax;
        pose proof (len_nonneg evs2);
        apply IH in E2; cbn [main.errorCount] in *;
        rewrite ?incr_small in * by lia; try lia;
        cbn [app List.filter mergeFailed]; rewrite ?len_cons; lia.
    + match type of Hrun with
      | context [main.promptEach ?c ?pr ?r ?n1 ?p2] =>
          destruct (main.promptEach c pr r n1 p2) as [[n2 p3] evs2] eqn:E2
      end. injection Hrun as <- <- <-.
      cbn [app] in Hmax. rewrite !len_cons in Hmax.
      pose proof (len_nonneg evs2).
      apply IH in E2; cbn [main.errorCount] in *; try lia.
      cbn [app List.filter mergeFailed]. lia.
Qed.

Lemma len_app {A : Type} (l1 l2 : list A) : len (l1 ++ l2) = len l1 + len l2.
Proof. unfold len. rewrite length_app. lia. Qed.

(** The error counter after the outer loop. *)
Lemma mergeEach_errors (client : gitlab_client.Client) (target : string)
  (projects : list Project.t) :
  forall (n n' : main.counts) (p p' : process.t W)
         (evs : list main.MergeEvent),
    main.mergeEach client target projects n p = (n', p', evs) ->
    0 <= main.errorCount n ->
    main.errorCount n + len evs <= maxInt ->
    main.errorCount n'
    = main.errorCount n + len (List.filter mergeFailed evs).
Proof.
  induction projects as [|project rest IH]; intros n n' p p' evs Hrun Hpos Hmax.
  - injection Hrun as <- <- <-. cbn. unfold len. cbn. lia.
  - cbn [main.mergeEach] in Hrun.
    destruct (gitlab_client.ListOpenMergeRequestsByTarget _ _ _ _)
      as [[mrs [e|]] p1].
    + match type of Hrun with
      | context [main.mergeEach ?c ?t ?r ?n1 ?p2] =>
          destruct (main.mergeEach c t r n1 p2) as [[n2 p3] evs2] eqn:E2
      end. injection Hrun as <- <- <-.
      rewrite len_cons in Hmax. pose proof (len_nonneg evs2).
      apply IH in E2; cbn [main.errorCount] in *;
        rewrite ?incr_small in * by lia; try lia.
      cbn [List.filter mergeFailed]. rewrite len_cons. lia.
    + match type of Hrun with
      | context [main.promptEach ?c ?pr ?r ?n1 ?p2] =>
          destruct (main.promptEach c pr r n1 p2) as [[n1' p2'] evs1] eqn:E1
      end.
      match type of Hrun with
      | context [main.mergeEach ?c ?t ?r ?n1 ?p2] =>
          destruct (main.mergeEach c t r n1 p2) as [[n2 p3] evs2] eqn:E2
      end. injection Hrun as <- <- <-.
      rewrite len_cons, len_app in Hmax.
      pose proof (len_nonneg evs1). pose proof (len_nonneg evs2).
      apply promptEach_errors in E1; [|lia|lia].
      pose proof (len_nonneg (List.filter mergeFailed evs1)).
      assert (len (List.filter mergeFailed evs1) <= len evs1).
      { unfold len. pose proof (List.filter_length_le mergeFailed evs1). lia. }
      apply IH in E2; [|lia|lia].
      cbn [List.filter mergeFailed]. rewrite List.filter_app, len_app. lia.
Qed.

(** X21. The exit code of [merge].  The command exits with code 1 when the
    target or the topic is missing, when a fatal line was logged, and when
    a request for the open requests of a project or a request to accept
    answered an error; in every other case it returns.  (The events are
    fewer than 2^63.) *)
Theorem merge_exit_code (defaults : string) (flags : main.mergeFlags)
  (p : process.t W) :
  let run := main.mergeCommand defaults flags p in
  len run.2 <= maxInt ->
  run.1.1
  = (if String.eqb (main.m_target flags) EmptyString
        || String.eqb (main.m_topic flags) EmptyString
        || existsb mergeFailed run.2
     then main.Exits 1 else main.Returns).
Proof.
  cbv zeta. unfold main.mergeCommand.
  destruct (String.eqb (main.m_target flags) EmptyString
            || String.eqb (main.m_topic flags) EmptyString); [reflexivity|].
  destruct (String.eqb (main.m_baseURL flags) EmptyString
            || String.eqb (main.m_token flags) EmptyString); [reflexivity|].
  destruct (gitlab_client.ListProjectsByTopic _ _ _ _ _)
    as [[projects [e|]] p1]; [reflexivity|].
  destruct (len projects =? 0); [reflexivity|].
  match goal with
  | |- context [main.mergeEach ?c ?t ?r ?n1 ?p2] =>
      destruct (main.mergeEach c t r n1 p2) as [[n2 p3] evs] eqn:E2
  end.
  destruct (0 <? main.errorCount n2) eqn:E0; cbn [fst snd orb]; intros Hmax;
    apply mergeEach_errors in E2; cbn [main.errorCount] in *; try lia.
  - apply Z.ltb_lt in E0.
    destruct (existsb mergeFailed evs) eqn:Ex; [reflexivity|].
    exfalso. assert (List.filter mergeFailed evs = []) as Hnone.
    { clear E2 Hmax. induction evs as [|e evs IH]; [reflexivity|].
      cbn [existsb] in Ex. apply orb_false_iff in Ex as [Ee Ex].
      cbn [List.filter]. rewrite Ee. now apply IH. }
    rewrite Hnone in E2. unfold len in E2. cbn in E2. lia.
  - apply Z.ltb_ge in E0.
    destruct (existsb mergeFailed evs) eqn:Ex; [|reflexivity].
    exfalso. apply existsb_exists in Ex as (e & Hi & Ef).
    assert (In e (List.filter mergeFailed evs))
      by (apply List.filter_In; now split).
    destruct (List.filter mergeFailed evs) as [|x l]; [contradiction|].
    rewrite len_cons in E2. pose proof (len_nonneg l). lia.
Qed.

End MergeExit.

Section Icons.

Context `{UnicodeTables} {C : Type} `{GitLabClient C}.

(** X22. The report shows every result of the engine under an icon of its
    own.  The six statuses have six different icons, none of them the
    question mark kept for an unknown status, and every result that
    [ProcessProjects] returns has one of the six. *)
Theorem icons_tell_statuses (s s' : Service C)
  (results : list ProjectResult) (summary : Summary) (evs : list Event) :
  ProcessProjects s = (Returned (results, summary), s', evs) ->
  Forall (fun r => In (main.getStatusIcon (Status r))
                     ["✓"; "→"; "⊘"; "⚠"; "≡"; "✗"]) results
  /\ NoDup (map main.getStatusIcon statuses)
  /\ ~ In "?" (map main.getStatusIcon statuses).
Proof.
  intros Hrun. split; [|split].
  - rewrite ProcessProjects_loop in Hrun.
    apply processLoop_runs in Hrun as (rs & -> & _ & Hruns). cbn [app].
    apply runs_facts in Hruns as (_ & _ & Hst & _).
    induction Hst as [|r rs Hr _ IH]; constructor; [|exact IH].
    unfold statuses in Hr. cbn [In] in Hr.
    destruct Hr as [<-|[<-|[<-|[<-|[<-|[<-|[]]]]]]]; vm_compute; tauto.
  - apply (bool_decide_unpack _). vm_compute. exact I.
  - vm_compute. intros [E|[E|[E|[E|[E|[E|[]]]]]]]; discriminate E.
Qed.

End Icons.

Section Report.

Context `{UnicodeTables} {W : Type} `{Library W}.

#[local] Existing Instance gitlab_client.session_client.

#[local] Arguments String.append !_ _ / : simpl nomatch.

(** X23. With the client of [internal/gitlab] every result is reported in
    three lines: the path with the icon and the status, then the error for
    an ERROR and the detail for any other result, then an empty line.  No
    result has both a detail and an error to show, and none has neither. *)
Theorem printResult_three_lines (projectPath : string)
  (s s' : Service gitlab_client.Session) (r : ProjectResult)
  (evs : list Event) (p : process.t W) :
  processProject projectPath s = (Returned r, s', evs) ->
  process.stdout (main.printResult r p)
  = process.stdout p
    ++ ["[" +:+ projectPath +:+ "] " +:+ main.getStatusIcon (Status r) +:+ " "
        +:+ Status r +:+ LF;
        (if String.eqb (Status r) StatusError
         then "  Error: " +:+ ErrorMessage r
         else "  " +:+ Details r) +:+ LF;
        LF].
Proof.
  intros Hrun. run_cases Hrun.
  all: repeat match goal with
       | E : GetProject _ _ = _ |- _ =>
           apply session_GetProject in E as (_ & _ & E)
       | E : (exists v, _ = Some v /\ _) \/ (_ /\ exists e, _) |- _ =>
           destruct E as [(? & ? & ?)|(? & ? & ?)]
       end.
  all: try discriminate.
  all: try scan_cases.
  all: repeat match goal with
       | E : Some _ = Some _ |- _ => injection E as ->
       end.
  all: unfold main.printResult; cbv zeta;
    cbn [Status ErrorMessage Details Project setStatus setErrorMessage
         setDetails setMergeRequestID setMergeRequestIID setMergeRequestURL
         existsResult String.eqb String.append negb];
    cbn [process.stdout process.print];
    rewrite <- ?app_assoc; reflexivity.
Qed.

End Report.

(** ** Examples *)

Section OnExamples.

Import Examples.

#[local] Existing Instance asciiOnly.
#[local] Existing Instance httptest.library.
#[local] Existing Instance gitlab_client.session_client.


(** X3 on the run of the fourth test: a skip with a detail and no
    message. *)
Lemma result_fields_by_status_witness :
  let r :=
    mkProjectResult "group/repo-d" StatusSkippedBranch 0 0 EmptyString
      EmptyString "Origin branch 'op-stage' does not exist" in
  runD = (Returned r, serviceOf runD, traceOf runD)
  /\ ErrorMessage r = EmptyString
  /\ Details r <> EmptyString.
Proof.
  cbv zeta.
  assert (Hrun : runD
                 = (Returned
                      (mkProjectResult "group/repo-d" StatusSkippedBranch 0 0
                         EmptyString EmptyString
                         "Origin branch 'op-stage' does not exist"),
                    serviceOf runD, traceOf runD))
    by (vm_compute; reflexivity).
  split; [exact Hrun|].
  destruct (result_fields_by_status _ _ _ _ _ Hrun) as (_ & K & _).
  apply K. discriminate.
Defined.

(** X4 on the same run: the status tells of the negative answer. *)
Lemma status_reflects_trace_witness :
  let r :=
    mkProjectResult "group/repo-d" StatusSkippedBranch 0 0 EmptyString
      EmptyString "Origin branch 'op-stage' does not exist" in
  runD = (Returned r, serviceOf runD, traceOf runD)
  /\ exists pid branch, In (CallBranchExists pid branch false None) (traceOf runD).
Proof.
  cbv zeta.
  assert (Hrun : runD
                 = (Returned
                      (mkProjectResult "group/repo-d" StatusSkippedBranch 0 0
                         EmptyString EmptyString
                         "Origin branch 'op-stage' does not exist"),
                    serviceOf runD, traceOf runD))
    by (vm_compute; reflexivity).
  split; [exact Hrun|].
  destruct (status_reflects_trace _ _ _ _ _ Hrun) as (_ & K & _).
  apply K. reflexivity.
Defined.

(** X5 on the client of functions all of whose calls succeed. *)
Lemma contract_excludes_panic_witness :
  honours (fun c : funcClient => c = healthy)
  /\ client (mkService healthy configAll) = healthy
  /\ exists results summary s' evs,
      ProcessProjects (mkService healthy configAll)
      = (Returned (results, summary), s', evs)
      /\ length results = 3%nat.
Proof.
  assert (Hh : honours (fun c : funcClient => c = healthy)).
  { split.
    - intros p c project err c' -> E. cbn in E. injection E as <- <- <-.
      split; [reflexivity | discriminate].
    - intros id b c found err c' -> E. cbn in E. now injection E as <- <- <-.
    - intros id src tgt c mrs err c' -> E. cbn in E.
      now injection E as <- <- <-.
    - intros id src tgt c compare err c' -> E. cbn in E.
      injection E as <- <- <-. split; [reflexivity | discriminate].
    - intros id src tgt title description c mr err c' -> E. cbn in E.
      injection E as <- <- <-. split; [reflexivity | discriminate]. }
  split; [exact Hh|]. split; [reflexivity|].
  destruct (contract_excludes_panic _ (mkService healthy configAll) Hh
              eq_refl)
    as (results & summary & s' & evs & E & _ & Hlen).
  exists results, summary, s', evs. split; [exact E | exact Hlen].
Defined.

(** X6 on the client of the first and the fourth test, one path each. *)
Lemma ProcessProjects_app_witness :
  runFirst
  = (Returned (resultsOf (outcomeOf runFirst), summaryOf (outcomeOf runFirst)),
     serviceOf runFirst, traceOf runFirst)
  /\ runSecond
     = (Returned (resultsOf (outcomeOf runSecond),
                  summaryOf (outcomeOf runSecond)),
        serviceOf runSecond, traceOf runSecond)
  /\ len (["group/repo-a"] ++ ["group/repo-d"]) <= maxInt
  /\ outcomeOf
       (ProcessProjects
          (mkService repoAD
             (withProjects (["group/repo-a"] ++ ["group/repo-d"]) configAll)))
     = Returned
         (resultsOf (outcomeOf runFirst) ++ resultsOf (outcomeOf runSecond),
          addSummary (summaryOf (outcomeOf runFirst))
            (summaryOf (outcomeOf runSecond))).
Proof.
  assert (H1 : runFirst
               = (Returned (resultsOf (outcomeOf runFirst),
                            summaryOf (outcomeOf runFirst)),
                  serviceOf runFirst, traceOf runFirst))
    by (vm_compute; reflexivity).
  assert (H2 : runSecond
               = (Returned (resultsOf (outcomeOf runSecond),
                            summaryOf (outcomeOf runSecond)),
                  serviceOf runSecond, traceOf runSecond))
    by (vm_compute; reflexivity).
  assert (Hlen : len (["group/repo-a"] ++ ["group/repo-d"]) <= maxInt)
    by (vm_compute; discriminate).
  split; [exact H1|]. split; [exact H2|]. split; [exact Hlen|].
  now rewrite (ProcessProjects_app repoAD configAll ["group/repo-a"]
                 ["group/repo-d"] _ _ _ _ _ _ _ _ H1 H2 Hlen).
Defined.

(** X13 on an empty client. *)
Lemma mock_creates_for_any_names_witness :
  createError newMockClient = None
  /\ default [] (mergeRequests newMockClient !! 5) = []
  /\ summaryOf
       (outcomeOf
          (ProcessProjects
             (NewService
                (addBranch 5 "main"
                   (addBranch 5 "develop"
                      (addProject "team/app" 5 newMockClient)))
                (mkConfig "develop" "main" ["team/app"] true))))
     = mkSummary 1 1 0 0 0 0 0.
Proof.
  assert (H1 : createError newMockClient = None) by reflexivity.
  assert (H2 : default [] (mergeRequests newMockClient !! 5) = [])
    by (vm_compute; reflexivity).
  split; [exact H1|]. split; [exact H2|].
  now rewrite (mock_creates_for_any_names newMockClient "team/app" "develop"
                 "main" 5 true H1 H2).
Defined.

(** X14 on an empty client and the draft of the third test. *)
Lemma mock_skips_for_any_open_request_witness :
  default [] (mergeRequests newMockClient !! 5) = []
  /\ exists r,
      resultsOf
        (outcomeOf
           (ProcessProjects
              (NewService
                 (addMergeRequest 5 mergeRequestC
                    (addBranch 5 "main"
                       (addBranch 5 "develop"
                          (addProject "team/app" 5 newMockClient))))
                 (mkConfig "develop" "main" ["team/app"] false))))
      = [r]
      /\ Status r = StatusSkippedDraft
      /\ MergeRequestIID r = 20.
Proof.
  assert (H2 : default [] (mergeRequests newMockClient !! 5) = [])
    by (vm_compute; reflexivity).
  split; [exact H2|].
  destruct (mock_skips_for_any_open_request newMockClient "team/app"
              "develop" "main" 5 false mergeRequestC H2)
    as (r & E & Hs & _ & Hiid & _).
  exists r. split; [exact E|]. split; [exact Hs | exact Hiid].
Defined.

(** X16 on flags without an origin. *)
Lemma bulkMRCommand_requires_witness :
  ~ complete httptest.noOrigin
  /\ exists msg,
      main.bulkMRCommand httptest.usage httptest.noOrigin
        (httptest.start httptest.backend [])
      = (main.Exits 1,
         httptest.usage
           (process.eprint ("Error: " +:+ msg +:+ LF)
              (httptest.start httptest.backend [])),
         []).
Proof.
  assert (Hc : ~ complete httptest.noOrigin).
  { intros (K & _). apply K. reflexivity. }
  split; [exact Hc|].
  exact (bulkMRCommand_requires httptest.usage httptest.noOrigin
           (httptest.start httptest.backend []) Hc).
Defined.

(** X17 on two projects unknown to the platform of the examples. *)
Lemma bulkMRCommand_exit_code_witness :
  complete httptest.twoProjects
  /\ len (main.projects httptest.twoProjects) <= maxInt
  /\ runTwoProjects.1.1 = main.Exits 1
  /\ projectPaths runTwoProjects.2 = ["group/a"; "other/b"].
Proof.
  assert (Hc : complete httptest.twoProjects)
    by (repeat split; discriminate).
  assert (Hlen : len (main.projects httptest.twoProjects) <= maxInt)
    by (vm_compute; discriminate).
  split; [exact Hc|]. split; [exact Hlen|].
  destruct (bulkMRCommand_exit_code httptest.usage httptest.twoProjects
              (httptest.start httptest.backend []) Hc Hlen)
    as (K1 & _ & K3).
  split; [exact K1 | exact K3].
Defined.

(** The platform of the examples serves the topic "backend". *)
Lemma backend_serves (c : gitlab_client.Client) :
  gitlab_client.baseURL c = "https://gitlab.example.com" ->
  gitlab_client.verbose c = false ->
  serves (fun w => w = httptest.backend) c "backend" 2
    httptest.backendProjects.
Proof.
  intros Hb Hv page p Hw Hpage.
  destruct c as [b t v]. cbn in Hb, Hv. subst b v.
  destruct p as [w i o e]. cbn in Hw. subst w.
  assert (Hp : pagesAsked (len httptest.backendProjects) 2 = 2)
    by (vm_compute; reflexivity).
  rewrite Hp in Hpage.
  assert (page = 1 \/ page = 2) as [->| ->] by lia.
  - vm_compute. split; reflexivity.
  - vm_compute. split; reflexivity.
Qed.

(** X18 on that topic: three projects, two to a page. *)
Lemma fetchPages_gathers_the_topic_witness :
  0 < 2
  /\ len httptest.backendProjects + 2 <= maxInt
  /\ serves (fun w => w = httptest.backend) httptest.client "backend" 2
       httptest.backendProjects
  /\ exists p',
      main.fetchPages 2 httptest.client "backend" 2 1 []
        (httptest.start httptest.backend [])
      = Some (inl httptest.backendProjects, p').
Proof.
  assert (H1 : 0 < 2) by lia.
  assert (H2 : len httptest.backendProjects + 2 <= maxInt)
    by (vm_compute; discriminate).
  assert (H3 : serves (fun w => w = httptest.backend) httptest.client
                 "backend" 2 httptest.backendProjects)
    by (apply backend_serves; reflexivity).
  split; [exact H1|]. split; [exact H2|]. split; [exact H3|].
  destruct (fetchPages_gathers_the_topic (fun w => w = httptest.backend)
              httptest.client "backend" 2 httptest.backendProjects
              (httptest.start httptest.backend []) H1 H2 H3 eq_refl)
    as (p' & E & _).
  exists p'. exact E.
Defined.

(** X19 on the same topic. *)
Lemma bulkMRTopicCommand_covers_the_topic_witness :
  completeTopic httptest.topicFlags
  /\ 0 < main.t_perPage httptest.topicFlags
  /\ len httptest.backendProjects + main.t_perPage httptest.topicFlags
     <= maxInt
  /\ exists run,
      runTopic = Some run
      /\ projectPaths run.2 = ["group/a"; "group/b"; "group/c"].
Proof.
  assert (Hc : completeTopic httptest.topicFlags)
    by (repeat split; discriminate).
  assert (H1 : 0 < main.t_perPage httptest.topicFlags) by (cbn; lia).
  assert (H2 : len httptest.backendProjects
               + main.t_perPage httptest.topicFlags <= maxInt)
    by (vm_compute; discriminate).
  split; [exact Hc|]. split; [exact H1|]. split; [exact H2|].
  destruct (bulkMRTopicCommand_covers_the_topic
              (fun w => w = httptest.backend) httptest.usage
              httptest.topicFlags httptest.backendProjects
              (httptest.start httptest.backend []) Hc H1 H2
              (backend_serves
                 (gitlab_client.NewClient
                    (main.t_gitlabURL httptest.topicFlags)
                    (main.t_token httptest.topicFlags)
                    (main.t_verbose httptest.topicFlags))
                 eq_refl eq_refl)
              eq_refl)
    as (run & E & _ & K).
  exists run. split; [exact E|].
  destruct K as (K & _); [discriminate | exact K].
Defined.

(** X21 on a merge with one request accepted and two projects that cannot
    be listed. *)
Lemma merge_exit_code_witness :
  len runMerge.2 <= maxInt /\ runMerge.1.1 = main.Exits 1.
Proof.
  assert (Hlen : len runMerge.2 <= maxInt) by (vm_compute; discriminate).
  split; [exact Hlen|].
  refine (eq_trans
            (merge_exit_code "  -target string" httptest.mergeBackend
               (httptest.start httptest.backend [" Yes "; "n"]) Hlen) _).
  vm_compute. reflexivity.
Defined.

(** X22 on the three entries of the batch. *)
Lemma icons_tell_statuses_witness :
  runAll
  = (Returned (resultsOf (outcomeOf runAll), summaryOf (outcomeOf runAll)),
     serviceOf runAll, traceOf runAll)
  /\ Forall (fun r => In (main.getStatusIcon (Status r))
                        ["✓"; "→"; "⊘"; "⚠"; "≡"; "✗"])
       (resultsOf (outcomeOf runAll)).
Proof.
  assert (Hrun : runAll
                 = (Returned (resultsOf (outcomeOf runAll),
                              summaryOf (outcomeOf runAll)),
                    serviceOf runAll, traceOf runAll))
    by (vm_compute; reflexivity).
  split; [exact Hrun|].
  exact (proj1 (icons_tell_statuses _ _ _ _ _ Hrun)).
Defined.

(** X23 on a project the platform of the examples does not know. *)
Lemma printResult_three_lines_witness :
  let r :=
    mkProjectResult "group/a" StatusError 0 0 EmptyString
      "failed to get project group/a: HTTP request failed: connection refused"
      EmptyString in
  runProduction = (Returned r, serviceOf runProduction, traceOf runProduction)
  /\ length
       (process.stdout
          (main.printResult r (httptest.start httptest.backend [])))
     = 3%nat.
Proof.
  cbv zeta.
  assert (Hrun : runProduction
                 = (Returned
                      (mkProjectResult "group/a" StatusError 0 0 EmptyString
                         "failed to get project group/a: HTTP request failed: connection refused"
                         EmptyString),
                    serviceOf runProduction, traceOf runProduction))
    by (vm_compute; reflexivity).
  split; [exact Hrun|].
  now rewrite (printResult_three_lines _ _ _ _ _
                 (httptest.start httptest.backend []) Hrun).
Defined.

End OnExamples.

End Extras.
